(** * Alignment of trade records onto the canonical trading-time grid

    A shallow embedding of the stages of the repository

      - [SpxDayTime.generate_master_trading_day_list]  (Grid Generator)
      - [filter_early_close_data.filter_early_close_data]  (Filter Stage)
      - [pad_datetime.pad_entry_times]  (Padding Stage)
      - the two steps of [padding.worker]  (filter, then pad)

    and the properties of them that the specification states, followed by
    further properties read off the code.

    Conventions of the embedding.

    - A [datetime.date] is a record of its three fields, a timestamp
      ([datetime.datetime], [pandas.Timestamp]) a record of a date and a
      time of day.  Both are compared field by field, most significant
      first, as Python does.
    - A cell of a table is a [value].  [NaT], the missing timestamp, is a
      cell of its own: the parser of a column gives it for a missing cell,
      the comparison of a column with a timestamp is false on it, and the
      comparison of a date with it raises [TypeError].
    - A row is a finite map from column names to cells, a [DataFrame] a list
      of column names and a list of rows.  The dtype of a column is read off
      its cells.  [pd.concat] casts the cells of each column to the common
      dtype of its parts: integers become floats where the other frame
      lacks the column or holds floats.
    - A Python [set] is a [gset]; its iteration order is the order of
      [elements], which is fixed but arbitrary.  The sort of a table is a
      merge sort on the timestamps; nothing proved depends on the order it
      gives to rows with equal timestamps.
    - Functions that assign to a column of an argument ([df['EntryTime'] =
      ...]) run in a state monad over the two objects the caller passed in;
      exceptions are the [Raise] results.
    - The window bounds [start_date] and [end_date] are strings, parsed
      where the code parses them.
    - What lives outside the repository (the parser behind
      [pandas.to_datetime], [datetime.strptime], the exchange calendar, the
      configuration file, [datetime.time.fromisoformat]) is the interface
      [Externals]; [Sample] is an instance of it to run the stages on. *)

From Stdlib Require Import ZArith Lia Ascii String.
From stdpp Require Import gmap strings list fin_maps sorting.

Local Open Scope string_scope.
Local Open Scope list_scope.
Local Open Scope Z_scope.

(** ** Lexicographic comparison of field lists *)

Fixpoint lex_compare (l k : list Z) : comparison :=
  match l, k with
  | [], [] => Eq
  | [], _ :: _ => Lt
  | _ :: _, [] => Gt
  | x :: l', y :: k' =>
      match x ?= y with
      | Eq => lex_compare l' k'
      | c => c
      end
  end.

(** ** Dates, times of day and timestamps *)

Record date := Date { year : Z; month : Z; day : Z }.

Record time := Time { hour : Z; minute : Z; second : Z; nanosecond : Z }.

Record Timestamp := At { ts_date : date; ts_time : time }.

Definition date_fields (d : date) : list Z := [year d; month d; day d].

Definition time_fields (t : time) : list Z :=
  [hour t; minute t; second t; nanosecond t].

Definition Timestamp_fields (t : Timestamp) : list Z :=
  date_fields (ts_date t) ++ time_fields (ts_time t).

Definition date_compare (a b : date) : comparison :=
  lex_compare (date_fields a) (date_fields b).

Definition Timestamp_compare (a b : Timestamp) : comparison :=
  lex_compare (Timestamp_fields a) (Timestamp_fields b).

(** [a <= b] on dates and on timestamps, as booleans and as relations. *)
Definition date_leb (a b : date) : bool :=
  match date_compare a b with Gt => false | _ => true end.

Definition Timestamp_leb (a b : Timestamp) : bool :=
  match Timestamp_compare a b with Gt => false | _ => true end.

Definition date_le (a b : date) : Prop := date_leb a b = true.
Definition Timestamp_le (a b : Timestamp) : Prop := Timestamp_leb a b = true.

(** The dates [strptime] and the calendar can return. *)
Definition valid_date (d : date) : Prop :=
  1 <= month d <= 12 /\ 1 <= day d <= 31.

(** The times of day a clock shows. *)
Definition valid_time (t : time) : Prop :=
  0 <= hour t <= 23 /\ 0 <= minute t <= 59 /\ 0 <= second t <= 59 /\
  0 <= nanosecond t <= 999999999.

(** [datetime.datetime.combine(day, time)] *)
Definition combine (d : date) (t : time) : Timestamp := At d t.

Definition midnight : time := Time 0 0 0 0.
Definition last_second : time := Time 23 59 59 0.

Global Instance date_eq_dec : EqDecision date.
Proof. solve_decision. Defined.
Global Instance time_eq_dec : EqDecision time.
Proof. solve_decision. Defined.
Global Instance Timestamp_eq_dec : EqDecision Timestamp.
Proof. solve_decision. Defined.

Global Instance date_countable : Countable date.
Proof.
  apply (inj_countable' (fun d => (year d, month d, day d))
                        (fun p => Date p.1.1 p.1.2 p.2)).
  by intros [].
Defined.

Global Instance time_countable : Countable time.
Proof.
  apply (inj_countable'
           (fun t => (hour t, minute t, second t, nanosecond t))
           (fun p => Time p.1.1.1 p.1.1.2 p.1.2 p.2)).
  by intros [].
Defined.

Global Instance Timestamp_countable : Countable Timestamp.
Proof.
  apply (inj_countable' (fun t => (ts_date t, ts_time t))
                        (fun p => At p.1 p.2)).
  by intros [].
Defined.

Global Instance Timestamp_le_dec a b : Decision (Timestamp_le a b).
Proof. unfold Timestamp_le. apply _. Defined.
Global Instance date_le_dec a b : Decision (date_le a b).
Proof. unfold date_le. apply _. Defined.

(** ** Tables *)

(** The cells of a table.  [VFloat digits scale] is the decimal number
    [digits / 10^scale]; [VNaT] is the missing timestamp, [VNaN] the
    missing value of every other kind. *)
Inductive value :=
  | VInt (n : Z)
  | VFloat (digits : Z) (scale : nat)
  | VBool (b : bool)
  | VStr (s : string)
  | VTime (t : Timestamp)
  | VNaT
  | VNaN.

Global Instance value_eq_dec : EqDecision value.
Proof. solve_decision. Defined.

(** [pandas.isna] on a cell *)
Definition isna (v : value) : bool :=
  match v with
  | VNaT | VNaN => true
  | _ => false
  end.

(** A row maps column names to cells. *)
Abbreviation Row := (gmap string value).

(** A Python [dict] literal, in the order it is written. *)
Abbreviation dict := (list (string * value)).

Record DataFrame := Frame { columns : list string; rows : list Row }.

(** ** Exceptions and results *)

Inductive exn :=
  | ValueError (msg : string)
  | KeyError (key : string)
  | TypeError
  | DateParseError (cell : value)
  | OSError (msg : string).

Inductive result (A : Type) :=
  | Ok (a : A)
  | Raise (e : exn).
Arguments Ok {A} a.
Arguments Raise {A} e.

Definition bind {A B} (m : result A) (f : A -> result B) : result B :=
  match m with
  | Ok a => f a
  | Raise e => Raise e
  end.

Notation "'let!' x ':=' m 'in' k" := (bind m (fun x => k))
  (at level 10, x name, m at level 100, k at level 200,
   format "'[v' 'let!'  x  ':='  m  'in' '/' k ']'").

(** A computation over the two objects the caller handed in: the table [df]
    and the grid [master_trading_day_list].  An exception leaves the objects
    as they were when it was raised. *)
Record objects := Objects { obj_df : DataFrame; obj_master : DataFrame }.

Definition M (A : Type) : Type := objects -> result A * objects.

Definition ret {A} (a : A) : M A := fun o => (Ok a, o).

Definition bindM {A B} (m : M A) (f : A -> M B) : M B := fun o =>
  match m o with
  | (Ok a, o') => f a o'
  | (Raise e, o') => (Raise e, o')
  end.

Notation "'do' x '<-' m ';' k" := (bindM m (fun x => k))
  (at level 10, x name, m at level 100, k at level 200,
   format "'[v' 'do'  x  '<-'  m ';' '/' k ']'").
Notation "'exec' m ';' k" := (bindM m (fun _ => k))
  (at level 10, m at level 100, k at level 200,
   format "'[v' 'exec'  m ';' '/' k ']'").

Definition lift {A} (r : result A) : M A := fun o => (r, o).
Definition get_df : M DataFrame := fun o => (Ok (obj_df o), o).
Definition get_master : M DataFrame := fun o => (Ok (obj_master o), o).
Definition put_df (d : DataFrame) : M unit :=
  fun o => (Ok tt, Objects d (obj_master o)).
Definition put_master (d : DataFrame) : M unit :=
  fun o => (Ok tt, Objects (obj_df o) d).

(** [traverse f l] applies [f] to the elements of [l] from left to right and
    stops at the first exception. *)
Fixpoint traverse {A B} (f : A -> result B) (l : list A) : result (list B) :=
  match l with
  | [] => Ok []
  | x :: l' =>
      match f x with
      | Ok y => match traverse f l' with
                | Ok ys => Ok (y :: ys)
                | Raise e => Raise e
                end
      | Raise e => Raise e
      end
  end.

(** ** The pandas operations the stages use *)

(** The cell of a row in column [c]. *)
Definition cell (c : string) (r : Row) : value := default VNaN (r !! c).

(** The cells of column [c], top to bottom. *)
Definition column (df : DataFrame) (c : string) : list value :=
  cell c <$> rows df.

(** [df[c]] *)
Definition getitem (df : DataFrame) (c : string) : result (list value) :=
  if decide (c ∈ columns df) then Ok (column df c) else Raise (KeyError c).

(** [df[c] = col] *)
Definition setitem (df : DataFrame) (c : string) (col : list value) : DataFrame :=
  Frame (if decide (c ∈ columns df) then columns df else columns df ++ [c])
        (zip_with (fun (r : Row) v => <[c := v]> r) (rows df) col).

(** The timestamp of a cell where the code takes its [.date()] and compares
    it with a date, or sorts by it: the comparison of a date with [NaT]
    raises [TypeError]. *)
Definition as_time (v : value) : result Timestamp :=
  match v with
  | VTime t => Ok t
  | _ => Raise TypeError
  end.

(** [col >= t] and [col <= t] on a datetime column: a comparison with
    [NaT] is [False]. *)
Definition series_ge (col : list value) (t : Timestamp) : result (list bool) :=
  traverse (fun v => match v with
                     | VTime x => Ok (Timestamp_leb t x)
                     | VNaT => Ok false
                     | _ => Raise TypeError
                     end) col.

Definition series_le (col : list value) (t : Timestamp) : result (list bool) :=
  traverse (fun v => match v with
                     | VTime x => Ok (Timestamp_leb x t)
                     | VNaT => Ok false
                     | _ => Raise TypeError
                     end) col.

(** [m1 & m2] *)
Definition series_and (m1 m2 : list bool) : list bool := zip_with andb m1 m2.

(** [col.isin(values)] *)
Definition isin (col values : list value) : list bool :=
  (fun v => bool_decide (v ∈ values)) <$> col.

(** The rows a boolean mask keeps, in their order. *)
Fixpoint select {A} (mask : list bool) (l : list A) : list A :=
  match mask, l with
  | b :: mask', x :: l' => if b then x :: select mask' l' else select mask' l'
  | _, _ => []
  end.

(** [df[mask]] *)
Definition getitem_mask (df : DataFrame) (mask : list bool) : DataFrame :=
  Frame (columns df) (select mask (rows df)).

(** A row with [NaN] in each of the columns [cols]. *)
Definition nan_row (cols : list string) : Row :=
  list_to_map ((fun c => (c, VNaN)) <$> cols).

(** A row seen through the columns [cols]: the columns it lacks are [NaN]. *)
Definition reindex (cols : list string) (r : Row) : Row := r ∪ nan_row cols.

(** [pd.DataFrame(records)] for a list of dicts: the columns are the keys in
    the order they first appear. *)
Definition DataFrame_of_records (records : list dict) : DataFrame :=
  let cols := remove_dups (mjoin ((fun d : dict => d.*1) <$> records)) in
  Frame cols ((fun d : dict => reindex cols (list_to_map d)) <$> records).

(** *** Column dtypes

    A column of a pandas table has one dtype.  Here it is read off the
    cells: the dtype all the cells share, [object_] when they differ; a
    column without cells has none. *)
Inductive dtype := int64 | float64 | bool_ | datetime64 | object_.

Global Instance dtype_eq_dec : EqDecision dtype.
Proof. solve_decision. Defined.

Definition dtype_of (v : value) : dtype :=
  match v with
  | VInt _ => int64
  | VFloat _ _ | VNaN => float64
  | VBool _ => bool_
  | VTime _ | VNaT => datetime64
  | VStr _ => object_
  end.

Definition infer_dtype (cells : list value) : option dtype :=
  match cells with
  | [] => None
  | v :: cells' =>
      Some (if bool_decide (Forall (fun w => dtype_of w = dtype_of v) cells')
            then dtype_of v else object_)
  end.

(** The dtype of column [c] of a frame that has the column. *)
Definition column_dtype (df : DataFrame) (c : string) : option (option dtype) :=
  if decide (c ∈ columns df) then Some (infer_dtype (column df c)) else None.

(** The dtype that holds the cells of two columns: integers and floats go
    to floats, any other two dtypes to [object_]. *)
Definition find_common_type (d1 d2 : dtype) : dtype :=
  if decide (d1 = d2) then d1
  else match d1, d2 with
       | int64, float64 | float64, int64 => float64
       | _, _ => object_
       end.

(** The dtype a column takes to hold a missing value. *)
Definition ensure_dtype_can_hold_na (d : dtype) : dtype :=
  match d with
  | int64 => float64
  | bool_ => object_
  | _ => d
  end.

(** The float64 nearest to the integer [n], which is an integer itself:
    [n] rounded to 53 significant bits, a tie going to the even one. *)
Definition float_of_int (n : Z) : Z :=
  let a := Z.abs n in
  let e := Z.log2 a - 52 in
  if e <=? 0 then n
  else
    let q := a / 2 ^ e in
    let r := a mod 2 ^ e in
    let half := 2 ^ (e - 1) in
    let q' := if r <? half then q
              else if half <? r then q + 1
              else if Z.even q then q else q + 1 in
    Z.sgn n * (q' * 2 ^ e).

(** A cell cast to the dtype of the column it goes to: an integer that goes
    to a float column becomes a float, every other cell stays what it is. *)
Definition astype (d : option dtype) (v : value) : value :=
  match d, v with
  | Some float64, VInt n => VFloat (float_of_int n) 0
  | _, _ => v
  end.

(** The missing value of a column. *)
Definition na_value (d : option dtype) : value :=
  match d with
  | Some datetime64 => VNaT
  | _ => VNaN
  end.

(** A frame of shape (0, 0): no column and no row. *)
Definition zero_shape (df : DataFrame) : bool :=
  bool_decide (columns df = [] /\ rows df = []).

(** The dtype of a column put together from two parts: the common dtype
    when both frames have the column, and one that can hold a missing value
    when one of them lacks it. *)
Definition joint_dtype (c1 c2 : option (option dtype)) : option dtype :=
  match c1, c2 with
  | Some d1, Some d2 =>
      match d1, d2 with
      | Some d1, Some d2 => Some (find_common_type d1 d2)
      | Some d, None | None, Some d => Some d
      | None, None => None
      end
  | Some d, None | None, Some d => ensure_dtype_can_hold_na <$> d
  | None, None => None
  end.

(** The dtype of column [c] in the concatenation of two frames.  A frame of
    shape (0, 0) is left out of it. *)
Definition concat_dtype (df1 df2 : DataFrame) (c : string) : option dtype :=
  if zero_shape df2 then default None (column_dtype df1 c)
  else if zero_shape df1 then default None (column_dtype df2 c)
  else joint_dtype (column_dtype df1 c) (column_dtype df2 c).

(** A row of [df] laid out in the columns [cols] of a concatenation: its
    cells cast to the dtypes of the columns, and the missing value in the
    columns [df] lacks. *)
Definition conform (cols : list string) (dtypes : string -> option dtype)
    (df : DataFrame) (r : Row) : Row :=
  list_to_map
    ((fun c => (c, if decide (c ∈ columns df)
                   then astype (dtypes c) (cell c r)
                   else na_value (dtypes c))) <$> cols).

(** [pd.concat([df1, df2], ignore_index=True)].  A frame of shape (0, 0) is
    left out.  The columns are those of [df1] followed by those only [df2]
    has. *)
Definition concat (df1 df2 : DataFrame) : DataFrame :=
  let cols := columns df1 ++ list_difference (columns df2) (columns df1) in
  let dtypes := concat_dtype df1 df2 in
  Frame cols ((conform cols dtypes df1 <$> rows df1) ++
              (conform cols dtypes df2 <$> rows df2)).

(** [df.sort_values(by=c).reset_index(drop=True)]: the rows in ascending
    order of the datetime column [c].  The column holds timestamps where a
    stage sorts; a table with [NaT], which pandas would put last, does not
    get there. *)
Definition key_le (p q : Timestamp * Row) : Prop := Timestamp_le p.1 q.1.

Global Instance key_le_dec p q : Decision (key_le p q).
Proof. unfold key_le. apply _. Defined.

Definition sort_values (df : DataFrame) (c : string) : result DataFrame :=
  let! col := getitem df c in
  let! keys := traverse as_time col in
  Ok (Frame (columns df) ((merge_sort key_le (zip keys (rows df))).*2)).

(** ** What the repository takes from outside *)

(** The section [spx_day_time_config] of the configuration file. *)
Record config := Config {
  early_close_days : list string;
  special_holidays : list string;
  valid_times : list string
}.

Class Externals := {
  (** [pandas.to_datetime] on one value: the timestamp the value denotes;
      the exception raised on a value that denotes none is the [Raise]
      result.  A missing value denotes no timestamp: for a missing cell of
      a column the result is [NaT], see [to_datetime_series]. *)
  to_datetime : value -> result Timestamp;
  to_datetime_Timestamp : forall t, to_datetime (VTime t) = Ok t;
  to_datetime_notna : forall v t, to_datetime v = Ok t -> isna v = false;
  (** [datetime.datetime.strptime(s, "%Y-%m-%d")] *)
  strptime : string -> result Timestamp;
  strptime_valid : forall s t,
    strptime s = Ok t -> ts_time t = midnight /\ valid_date (ts_date t);
  (** [datetime.time.fromisoformat] *)
  time_fromisoformat : string -> result time;
  (** [yaml.safe_load] of the configuration file *)
  load_config : result config;
  (** [mcal.get_calendar('CBOE_Index_Options').valid_days] *)
  valid_days : Timestamp -> Timestamp -> result (list Timestamp)
}.

(** ** The three stages *)

Section stages.

Context `{Externals}.

(** [pandas.to_datetime] on a column: a missing cell becomes [NaT], every
    other cell the timestamp it denotes.  The timestamp a cell denotes is
    taken not to depend on the other cells of its column. *)
Definition to_datetime_cell (v : value) : result value :=
  if isna v then Ok VNaT
  else let! t := to_datetime v in Ok (VTime t).

Definition to_datetime_series (col : list value) : result (list value) :=
  traverse to_datetime_cell col.

(** *** SpxDayTime.py *)

(** [a > b] on [datetime.datetime] *)
Definition Timestamp_gtb (a b : Timestamp) : bool :=
  match Timestamp_compare a b with Gt => true | _ => false end.

(** [[strptime(day, "%Y-%m-%d").date() for day in days]] *)
Definition parse_days (days : list string) : result (list date) :=
  traverse (fun day => let! d := strptime day in Ok (ts_date d)) days.

(** The entries of one trading day: one per configured time, in the
    configured order. *)
Definition day_entries (valid_times : list string) (day : Timestamp)
  : result (list Timestamp) :=
  traverse (fun time =>
              let! t := time_fromisoformat (time +:+ ":00") in
              Ok (combine (ts_date day) t))
           valid_times.

(** The body of the function after the two range checks: the calendar is
    asked for the sessions, the exclusion lists are parsed, and the loop
    appends the entries of every session that is not excluded. *)
Definition build_trading_days (config : config) (start_date end_date : Timestamp)
  : result DataFrame :=
  let! valid_trading_days := valid_days start_date end_date in
  let! early_close_days := parse_days (early_close_days config) in
  let! special_holidays := parse_days (special_holidays config) in
  let valid_times := valid_times config in
  let! trading_days :=
    traverse (fun day =>
                if bool_decide (ts_date day ∉ early_close_days) &&
                   bool_decide (ts_date day ∉ special_holidays)
                then day_entries valid_times day
                else Ok [])
             valid_trading_days in
  Ok (Frame ["SpxDayTime"]
            ((fun t => {[ "SpxDayTime" := VTime t ]}) <$> mjoin trading_days)).

Definition generate_master_trading_day_list (start_date end_date : string)
  : result DataFrame :=
  let! config := load_config in
  let! start_date := strptime start_date in
  let! end_date := strptime end_date in
  if Timestamp_gtb start_date end_date
  then Raise (ValueError "start_date cannot be later than end_date.")
  else if ((year (ts_date start_date) <? 2023) ||
           (year (ts_date end_date) >? 2025))%Z
  then Raise (ValueError "Input dates must be between 2023 and 2025.")
  else build_trading_days config start_date end_date.

(** *** filter_early_close_data.py *)

Definition filter_early_close_data (start_date end_date : string) : M DataFrame :=
  do start_datetime <- lift (to_datetime (VStr (start_date +:+ " 00:00:00")));
  do end_datetime <- lift (to_datetime (VStr (end_date +:+ " 23:59:59")));
  (* df['EntryTime'] = pd.to_datetime(df['EntryTime']) *)
  do df <- get_df;
  do col <- lift (getitem df "EntryTime");
  do col <- lift (to_datetime_series col);
  exec put_df (setitem df "EntryTime" col);
  (* df = df[(df['EntryTime'] >= start_datetime) & (df['EntryTime'] <= end_datetime)] *)
  do df <- get_df;
  do col <- lift (getitem df "EntryTime");
  do ge <- lift (series_ge col start_datetime);
  do col <- lift (getitem df "EntryTime");
  do le <- lift (series_le col end_datetime);
  let df := getitem_mask df (series_and ge le) in
  (* master_trading_day_list['SpxDayTime'] = pd.to_datetime(...) *)
  do master <- get_master;
  do col <- lift (getitem master "SpxDayTime");
  do col <- lift (to_datetime_series col);
  exec put_master (setitem master "SpxDayTime" col);
  (* filtered_df = df[df['EntryTime'].isin(master_trading_day_list['SpxDayTime'])] *)
  do master <- get_master;
  do col <- lift (getitem df "EntryTime");
  do valid <- lift (getitem master "SpxDayTime");
  ret (getitem_mask df (isin col valid)).

(** *** pad_datetime.py *)

(** [start_date.date() <= time.date() <= end_date.date()] *)
Definition in_dates (start_date end_date time : Timestamp) : Prop :=
  date_le (ts_date start_date) (ts_date time) /\
  date_le (ts_date time) (ts_date end_date).

Global Instance in_dates_dec s e t : Decision (in_dates s e t).
Proof. unfold in_dates. apply _. Defined.

(** The row appended for a missing entry time. *)
Definition placeholder (missing_time : Timestamp) : dict :=
  [ ("EntryTime", VTime missing_time);
    ("TradeID", VInt 0);
    ("OptionType", VStr "");
    ("Delta", VStr "");
    ("ShortStrike", VStr "");
    ("LongStrike", VStr "");
    ("Width", VStr "");
    ("Premium", VStr "");
    ("ProfitTarget", VStr "");
    ("ProfitDateTime", VStr "");
    ("ProfitPrice", VStr "");
    ("StopLossDateTime", VStr "");
    ("StopLossTarget", VStr "");
    ("StopLossPrice", VStr "");
    ("IsWin", VStr "");
    ("Outcome", VStr "");
    ("ProfitLoss", VInt 0);
    ("ProfitLossAfterSlippage", VInt 0);
    ("CommissionFees", VStr "");
    ("Slippage", VStr "");
    ("LossMultiple", VStr "");
    ("TradesToday", VStr "");
    ("VIX", VStr "");
    ("OpenDate", VStr "");
    ("OpenTime", VStr "");
    ("CloseDate", VStr "");
    ("CloseTime", VStr "") ].

Definition pad_entry_times (start_date end_date : string) : M DataFrame :=
  do start_date <- lift (to_datetime (VStr start_date));
  do end_date <- lift (to_datetime (VStr end_date));
  (* valid_entry_times_set = set(pd.to_datetime(master['SpxDayTime'])) *)
  do master <- get_master;
  do col <- lift (getitem master "SpxDayTime");
  do col <- lift (to_datetime_series col);
  do ts <- lift (traverse as_time col);
  let valid_entry_times_set : gset Timestamp := list_to_set ts in
  let valid_entry_times_set : gset Timestamp :=
    filter (in_dates start_date end_date) valid_entry_times_set in
  (* df['EntryTime'] = pd.to_datetime(df['EntryTime']) *)
  do df <- get_df;
  do col <- lift (getitem df "EntryTime");
  do col <- lift (to_datetime_series col);
  exec put_df (setitem df "EntryTime" col);
  (* existing_entry_times_set = set(df['EntryTime']) *)
  do df <- get_df;
  do col <- lift (getitem df "EntryTime");
  do ts <- lift (traverse as_time col);
  let existing_entry_times_set : gset Timestamp := list_to_set ts in
  let existing_entry_times_set : gset Timestamp :=
    filter (in_dates start_date end_date) existing_entry_times_set in
  let missing_entry_times_set := valid_entry_times_set ∖ existing_entry_times_set in
  let padded_rows := placeholder <$> elements missing_entry_times_set in
  let padded_df := DataFrame_of_records padded_rows in
  let df := concat df padded_df in
  do df <- lift (sort_values df "EntryTime");
  ret df.

(** *** padding.py *)

(** A call whose table argument is [d], a table of the caller's own, and
    whose grid argument is the shared grid. *)
Definition with_df {A} (d : DataFrame) (m : M A) : M A := fun o =>
  let '(r, o') := m (Objects d (obj_master o)) in
  (r, Objects (obj_df o) (obj_master o')).

(** The two steps [worker] runs on the table read from its input file.  The
    table returned is the one [worker] writes to the output file; an
    exception of either step is caught and logged there, and then nothing is
    written. *)
Definition worker (start_date end_date : string) : M DataFrame :=
  do df <- filter_early_close_data start_date end_date;
  do df <- with_df df (pad_entry_times start_date end_date);
  ret df.

End stages.

(** ** A concrete environment

  An instance of [Externals] to run the stages on: a parser for the ISO
  forms 'YYYY-MM-DD' and 'YYYY-MM-DD HH:MM:SS', a parser for 'HH:MM:SS',
  a configuration and a calendar given by a list of sessions. *)

Module Sample.

Definition digit (a : ascii) : option Z :=
  let n := Z.of_nat (nat_of_ascii a) in
  if ((48 <=? n) && (n <=? 57))%Z then Some (n - 48)%Z else None.

(** The number a non-empty string of decimal digits denotes. *)
Fixpoint digits_from (acc : Z) (s : string) : option Z :=
  match s with
  | EmptyString => Some acc
  | String a s' =>
      match digit a with
      | Some d => digits_from (10 * acc + d)%Z s'
      | None => None
      end
  end.

Definition number (width : nat) (s : string) : option Z :=
  if decide (String.length s = width) then digits_from 0 s else None.

(** [s] cut at each occurrence of [sep]. *)
Fixpoint split (sep : ascii) (s : string) : list string :=
  match s with
  | EmptyString => [EmptyString]
  | String a s' =>
      if decide (a = sep) then EmptyString :: split sep s'
      else match split sep s' with
           | [] => [String a EmptyString]
           | w :: ws => String a w :: ws
           end
  end.

Definition leap (y : Z) : bool :=
  ((y mod 4 =? 0) && (negb (y mod 100 =? 0) || (y mod 400 =? 0)))%Z.

Definition days_in_month (y m : Z) : Z :=
  (if m =? 2 then (if leap y then 29 else 28)
   else if (m =? 4) || (m =? 6) || (m =? 9) || (m =? 11) then 30
   else 31)%Z.

Definition parse_date (s : string) : option date :=
  match split "-" s with
  | [y; m; d] =>
      match number 4 y, number 2 m, number 2 d with
      | Some y, Some m, Some d =>
          if ((1 <=? m) && (m <=? 12) && (1 <=? d) &&
              (d <=? days_in_month y m) && (d <=? 31))%Z
          then Some (Date y m d) else None
      | _, _, _ => None
      end
  | _ => None
  end.

Definition parse_time (s : string) : option time :=
  match split ":" s with
  | [h; m; sec] =>
      match number 2 h, number 2 m, number 2 sec with
      | Some h, Some m, Some sec =>
          if ((h <=? 23) && (m <=? 59) && (sec <=? 59))%Z
          then Some (Time h m sec 0) else None
      | _, _, _ => None
      end
  | _ => None
  end.

Definition parse_timestamp (s : string) : option Timestamp :=
  match split " " s with
  | [d] => (fun d => At d midnight) <$> parse_date d
  | [d; t] =>
      match parse_date d, parse_time t with
      | Some d, Some t => Some (At d t)
      | _, _ => None
      end
  | _ => None
  end.

Definition sample_to_datetime (v : value) : result Timestamp :=
  match v with
  | VTime t => Ok t
  | VStr s =>
      match parse_timestamp s with
      | Some t => Ok t
      | None => Raise (DateParseError v)
      end
  | _ => Raise (DateParseError v)
  end.

Definition sample_strptime (s : string) : result Timestamp :=
  match parse_date s with
  | Some d => Ok (At d midnight)
  | None => Raise (ValueError "time data does not match format '%Y-%m-%d'")
  end.

Definition sample_fromisoformat (s : string) : result time :=
  match parse_time s with
  | Some t => Ok t
  | None => Raise (ValueError "Invalid isoformat string")
  end.

(** The sessions the sample calendar knows: the first trading week of 2023
    and the days around Independence Day. *)
Definition sessions : list date :=
  [ Date 2023 1 3; Date 2023 1 4; Date 2023 1 5; Date 2023 1 6;
    Date 2023 7 3; Date 2023 7 5 ].

Definition sample_valid_days (s e : Timestamp) : result (list Timestamp) :=
  Ok ((fun d => At d midnight) <$>
      filter (fun d => date_le (ts_date s) d /\ date_le d (ts_date e)) sessions).

Definition sample_config : config :=
  {| early_close_days := ["2023-07-03"; "2023-11-24"];
     special_holidays := ["2025-01-09"];
     valid_times := ["09:33"; "09:45"; "10:00"] |}.

Lemma parse_date_valid s d : parse_date s = Some d -> valid_date d.
Proof.
  unfold parse_date. repeat case_match; try done.
  intros [= <-]. unfold valid_date; simpl. lia.
Qed.

Lemma sample_strptime_valid s t :
  sample_strptime s = Ok t -> ts_time t = midnight /\ valid_date (ts_date t).
Proof.
  unfold sample_strptime. destruct (parse_date s) eqn:E; [|done].
  intros [= <-]. split; [done|]. by eapply parse_date_valid.
Qed.

Lemma sample_to_datetime_notna v t :
  sample_to_datetime v = Ok t -> isna v = false.
Proof. by destruct v. Qed.

Global Instance sample : Externals := {|
  to_datetime := sample_to_datetime;
  to_datetime_Timestamp := fun t => eq_refl;
  to_datetime_notna := sample_to_datetime_notna;
  strptime := sample_strptime;
  strptime_valid := sample_strptime_valid;
  time_fromisoformat := sample_fromisoformat;
  load_config := Ok sample_config;
  valid_days := sample_valid_days
|}.

End Sample.

(** * The vocabulary of the properties *)

Section vocabulary.

Context `{Externals}.

(** The table [df] once column [c] holds the timestamps [ts]. *)
Definition normalised (df : DataFrame) (c : string) (ts : list Timestamp)
  : DataFrame :=
  setitem df c (VTime <$> ts).

(** The rows the Filter Stage keeps: the entry time lies in the closed
    interval from [lo] to [hi] and is one of the timestamps [grid]. *)
Definition kept (lo hi : Timestamp) (grid : list Timestamp) (r : Row) : Prop :=
  match r !! "EntryTime" with
  | Some (VTime t) => Timestamp_le lo t /\ Timestamp_le t hi /\ t ∈ grid
  | _ => False
  end.

Global Instance kept_dec lo hi grid r : Decision (kept lo hi grid r).
Proof. unfold kept. repeat case_match; apply _. Defined.

Global Instance VTime_inj : Inj (=) (=) VTime.
Proof. by intros ?? [= ->]. Qed.

(** The cells of a datetime column: timestamps and [NaT]. *)
Definition datetime_cell (v : value) : bool :=
  match v with
  | VTime _ | VNaT => true
  | _ => false
  end.

Definition ge_cell (t : Timestamp) (v : value) : bool :=
  match v with VTime x => Timestamp_leb t x | _ => false end.

Definition le_cell (t : Timestamp) (v : value) : bool :=
  match v with VTime x => Timestamp_leb x t | _ => false end.

(** [d'] is [d] with the cells of column [c] replaced by the timestamps
    they denote, [NaT] for a missing cell: same columns, same rows in the
    same order, every other cell as it was. *)
Definition parsed_in_place (c : string) (d d' : DataFrame) : Prop :=
  columns d' = columns d /\
  Forall2 (fun r r' : Row =>
             exists v, to_datetime_cell (cell c r) = Ok v /\ r' = <[c := v]> r)
          (rows d) (rows d').

(** [c] is a datetime column of [d]: every row holds a timestamp there. *)
Definition datetime_column (c : string) (d : DataFrame) : Prop :=
  c ∈ columns d /\
  Forall (fun r : Row => exists t, r !! c = Some (VTime t)) (rows d).

(** The timestamps among the cells of a column. *)
Definition timestamps (cells : list value) : list Timestamp :=
  omap (fun v => match v with VTime t => Some t | _ => None end) cells.

(** The times of day the configured strings denote. *)
Definition parse_times (valid_times : list string) : result (list time) :=
  traverse (fun t => time_fromisoformat (t +:+ ":00")) valid_times.

End vocabulary.

(** The grid timestamps whose date lies in the window. *)
Definition in_window (lo hi : Timestamp) (times : list Timestamp) : gset Timestamp :=
  filter (in_dates lo hi) (list_to_set times : gset Timestamp).

(** The in-window grid timestamps no row of the table carries. *)
Definition missing_entry_times (lo hi : Timestamp) (grid ts : list Timestamp)
  : gset Timestamp :=
  in_window lo hi grid ∖ in_window lo hi ts.

(** The table of the placeholders, one for each missing entry time. *)
Definition padded_df (missing : gset Timestamp) : DataFrame :=
  DataFrame_of_records (placeholder <$> elements missing).

(** The table before the final sort: the rows of [df] followed by the
    placeholders. *)
Definition appended (df : DataFrame) (missing : gset Timestamp) : DataFrame :=
  concat df (padded_df missing).

(** The row an input row becomes in that table, and the row a placeholder
    becomes. *)
Definition input_row (df : DataFrame) (missing : gset Timestamp) (r : Row)
  : Row :=
  conform (columns (appended df missing))
          (concat_dtype df (padded_df missing)) df r.

Definition placeholder_row (df : DataFrame) (missing : gset Timestamp)
    (t : Timestamp) : Row :=
  conform (columns (appended df missing))
          (concat_dtype df (padded_df missing)) (padded_df missing)
          (reindex (columns (padded_df missing)) (list_to_map (placeholder t))).

(** The timestamps of the rows of a table whose [EntryTime] is a datetime
    column. *)
Definition entry_times (df : DataFrame) : result (list Timestamp) :=
  traverse as_time (column df "EntryTime").

(** The two exceptions of the range checks. *)
Definition InvalidRangeError : exn :=
  ValueError "start_date cannot be later than end_date.".
Definition UnsupportedRangeError : exn :=
  ValueError "Input dates must be between 2023 and 2025.".

(** The supported window: 2023-01-01 to 2025-12-31, both included. *)
Definition supported (d : date) : Prop :=
  date_le (Date 2023 1 1) d /\ date_le d (Date 2025 12 31).

(** A session the configuration excludes. *)
Definition excluded (early_close_days special_holidays : list date)
    (day : Timestamp) : Prop :=
  ts_date day ∈ early_close_days \/ ts_date day ∈ special_holidays.

Global Instance excluded_dec ec sh day : Decision (excluded ec sh day).
Proof. unfold excluded. apply _. Defined.

(** The columns a placeholder fills besides [EntryTime]. *)
Definition payload_columns : list string :=
  [ "TradeID"; "OptionType"; "Delta"; "ShortStrike"; "LongStrike"; "Width";
    "Premium"; "ProfitTarget"; "ProfitDateTime"; "ProfitPrice";
    "StopLossDateTime"; "StopLossTarget"; "StopLossPrice"; "IsWin"; "Outcome";
    "ProfitLoss"; "ProfitLossAfterSlippage"; "CommissionFees"; "Slippage";
    "LossMultiple"; "TradesToday"; "VIX"; "OpenDate"; "OpenTime"; "CloseDate";
    "CloseTime" ].

Definition placeholder_columns : list string := "EntryTime" :: payload_columns.

(** The payload columns in which a placeholder holds a number, and those
    in which it holds a string. *)
Definition number_columns : list string :=
  ["TradeID"; "ProfitLoss"; "ProfitLossAfterSlippage"].

Definition text_columns : list string :=
  list_difference payload_columns number_columns.

(** The sentinel the code writes into a payload column of a placeholder:
    the number 0 in three of them, the empty string in all the others. *)
Definition sentinel (c : string) : value :=
  if decide (c ∈ number_columns) then VInt 0 else VStr "".

(** The cell the code writes into column [c] of the placeholder for [t]. *)
Definition placeholder_cell (t : Timestamp) (c : string) : value :=
  if decide (c = "EntryTime") then VTime t else sentinel c.

(** [v == 0] in Python: the integer 0, the float 0.0 and [False]. *)
Definition is_zero (v : value) : bool :=
  match v with
  | VInt n => n =? 0
  | VFloat digits _ => digits =? 0
  | VBool b => negb b
  | _ => false
  end.

(** The cell [v'] the output holds for the cell [v] of an input row: the
    same cell, or the float nearest to it when [v] is an integer. *)
Definition upcast (v v' : value) : Prop :=
  v' = v \/ exists n, v = VInt n /\ v' = VFloat (float_of_int n) 0.

(** The columns of the input that the concatenation turns from integers to
    floats: a placeholder is appended, the placeholders lack the column,
    and every row holds an integer in it. *)
Definition upcasts (df : DataFrame) (missing : gset Timestamp) (c : string)
  : Prop :=
  missing <> ∅ /\ (c ∉ placeholder_columns) /\
  infer_dtype (column df c) = Some int64.

Global Instance upcasts_dec df missing c : Decision (upcasts df missing c).
Proof. unfold upcasts. apply _. Defined.

(** The first trade of the table in test_pad_datetime.py. *)
Definition test_trade : dict :=
  [ ("TradeID", VInt 5015667);
    ("EntryTime", VTime (At (Date 2023 1 3) (Time 9 33 0 0)));
    ("OptionType", VStr "P");
    ("Delta", VFloat 0 1);
    ("ShortStrike", VFloat 38250 1);
    ("LongStrike", VFloat 37700 1);
    ("Width", VFloat 550 1);
    ("Premium", VFloat 47 1);
    ("ProfitTarget", VStr "P100");
    ("ProfitDateTime", VStr "");
    ("ProfitPrice", VStr "");
    ("StopLossDateTime", VStr "1/3/2023 10:18:00 AM");
    ("StopLossTarget", VStr "2x");
    ("StopLossPrice", VFloat 141 1);
    ("IsWin", VBool false);
    ("Outcome", VStr "Stop Loss");
    ("ProfitLoss", VFloat (-94) 1);
    ("ProfitLossAfterSlippage", VFloat (-94) 1);
    ("CommissionFees", VInt 0);
    ("Slippage", VFloat 20 1);
    ("LossMultiple", VInt 26);
    ("TradesToday", VFloat 2309 2);
    ("VIX", VFloat 2309 2);
    ("OpenDate", VStr "2023-01-03");
    ("OpenTime", VStr "09:33:00");
    ("CloseDate", VStr "2023-01-03");
    ("CloseTime", VStr "10:18:00") ].

Definition numeric (v : value) : bool :=
  match v with
  | VInt _ | VFloat _ _ => true
  | _ => false
  end.

(** The fields that hold numbers in the trades of the test. *)
Definition numeric_field (c : string) : Prop :=
  exists v, (c, v) ∈ test_trade /\ numeric v = true.

(** The timestamps of [out] are those of the set [grid], each once. *)
Definition exactly_once (out : DataFrame) (grid : gset Timestamp) : Prop :=
  exists keys,
    entry_times out = Ok keys /\ NoDup keys /\ forall t, t ∈ keys <-> t ∈ grid.

(** The entries of the sessions [days] at the times [times]: day by day, and
    within a day time by time. *)
Definition grid_points (days : list Timestamp) (times : list time)
  : list Timestamp :=
  mjoin ((fun day => combine (ts_date day) <$> times) <$> days).

(** The grid with the timestamps [l] in its column. *)
Definition grid_of (l : list Timestamp) : DataFrame :=
  Frame ["SpxDayTime"] ((fun t => {[ "SpxDayTime" := VTime t ]}) <$> l).

(** The times of day in ascending order, and the sessions in strictly
    ascending order of their dates. *)
Definition time_le (a b : time) : Prop :=
  lex_compare (time_fields a) (time_fields b) <> Gt.
Definition session_lt (a b : Timestamp) : Prop :=
  date_compare (ts_date a) (ts_date b) = Lt.

(** ** Tables to run the stages on *)

Module Cases.

Import Sample.

Definition trade (entry_time : string) (id : Z) : Row :=
  list_to_map [("EntryTime", VStr entry_time); ("TradeID", VInt id)].

Definition grid_point (t : string) : Row := {[ "SpxDayTime" := VStr t ]}.

(** The grid of 2023-01-03 as read from a CSV file: the cells are strings. *)
Definition master_csv : DataFrame :=
  Frame ["SpxDayTime"]
        [ grid_point "2023-01-03 09:33:00"; grid_point "2023-01-03 09:45:00";
          grid_point "2023-01-03 10:00:00" ].

(** Trades as read from a CSV file: two on the grid, one a minute off it and
    one on the next day. *)
Definition trades_csv : DataFrame :=
  Frame ["EntryTime"; "TradeID"]
        [ trade "2023-01-03 10:00:00" 7; trade "2023-01-03 09:33:00" 5;
          trade "2023-01-03 09:34:00" 6; trade "2023-01-04 09:33:00" 8 ].

(** Trades on the grid only, none repeated. *)
Definition trades_on_grid : DataFrame :=
  Frame ["EntryTime"; "TradeID"]
        [ trade "2023-01-03 10:00:00" 7; trade "2023-01-03 09:33:00" 5 ].

(** Trades with a missing entry time, as read from a CSV file with an empty
    field. *)
Definition trades_missing : DataFrame :=
  Frame ["EntryTime"; "TradeID"]
        [ trade "2023-01-03 10:00:00" 7;
          list_to_map [("EntryTime", VNaN); ("TradeID", VInt 9)];
          trade "2023-01-03 09:33:00" 5 ].

(** Trades with a column of integers that the placeholders do not have. *)
Definition trade_qty (entry_time : string) (id qty : Z) : Row :=
  list_to_map [("EntryTime", VStr entry_time); ("TradeID", VInt id);
               ("Qty", VInt qty)].

(** Trades of which one has the identifier 0. *)
Definition trades_zero_id : DataFrame :=
  Frame ["EntryTime"; "TradeID"]
        [ trade "2023-01-03 10:00:00" 0; trade "2023-01-03 09:33:00" 5 ].

Definition trades_qty : DataFrame :=
  Frame ["EntryTime"; "TradeID"; "Qty"]
        [ trade_qty "2023-01-03 09:33:00" 5 1;
          trade_qty "2023-01-03 10:00:00" 7 9007199254740993 ].

Definition at_0103 (h m : Z) : Timestamp := At (Date 2023 1 3) (Time h m 0 0).

(** What a call returned, or an empty table if it raised. *)
Definition returned (r : result DataFrame * objects) : DataFrame :=
  match r.1 with Ok d => d | Raise _ => Frame [] [] end.

Definition filtered := filter_early_close_data "2023-01-03" "2023-01-03"
                         (Objects trades_csv master_csv).
Definition padded := pad_entry_times "2023-01-03" "2023-01-03"
                       (Objects trades_csv master_csv).
Definition padded_on_grid := pad_entry_times "2023-01-03" "2023-01-03"
                               (Objects trades_on_grid master_csv).
Definition padded_qty := pad_entry_times "2023-01-03" "2023-01-03"
                           (Objects trades_qty master_csv).
Definition padded_zero_id := pad_entry_times "2023-01-03" "2023-01-03"
                               (Objects trades_zero_id master_csv).
Definition filtered_missing := filter_early_close_data "2023-01-03" "2023-01-03"
                                 (Objects trades_missing master_csv).
Definition padded_missing := pad_entry_times "2023-01-03" "2023-01-03"
                               (Objects trades_missing master_csv).

End Cases.

(** * Properties *)

Section lex_order.

Lemma lex_compare_refl l : lex_compare l l = Eq.
Proof. induction l as [|x l IH]; simpl; [done|]. by rewrite Z.compare_refl. Qed.

Lemma lex_compare_eq l k : lex_compare l k = Eq -> l = k.
Proof.
  revert k; induction l as [|x l IH]; intros [|y k]; simpl; try done.
  destruct (Z.compare_spec x y); try done.
  intros. f_equal; auto.
Qed.

Lemma lex_compare_antisym l k :
  lex_compare k l = CompOpp (lex_compare l k).
Proof.
  revert k; induction l as [|x l IH]; intros [|y k]; simpl; try done.
  rewrite (Z.compare_antisym x y).
  destruct (x ?= y); simpl; auto.
Qed.

Lemma lex_compare_trans_le a b c :
  lex_compare a b <> Gt -> lex_compare b c <> Gt -> lex_compare a c <> Gt.
Proof.
  revert b c; induction a as [|x a IH]; intros [|y b] [|z c]; simpl;
    try done.
  destruct (Z.compare_spec x y), (Z.compare_spec y z),
    (Z.compare_spec x z); try done; try lia.
  apply IH.
Qed.

Lemma lex_compare_app l1 k1 l2 k2 :
  length l1 = length k1 ->
  lex_compare (l1 ++ l2) (k1 ++ k2) =
    match lex_compare l1 k1 with
    | Eq => lex_compare l2 k2
    | c => c
    end.
Proof.
  revert k1; induction l1 as [|x l1 IH]; intros [|y k1]; simpl; try done.
  intros [= Hlen]. destruct (x ?= y); auto.
Qed.

End lex_order.

(** ** The order on dates and timestamps *)

Section order.

Lemma Timestamp_fields_inj a b :
  Timestamp_fields a = Timestamp_fields b -> a = b.
Proof.
  destruct a as [[] []], b as [[] []]; cbn. by intros [= -> -> -> -> -> -> ->].
Qed.

Lemma date_fields_inj a b : date_fields a = date_fields b -> a = b.
Proof. destruct a, b; cbn. by intros [= -> -> ->]. Qed.

Lemma Timestamp_le_alt a b : Timestamp_le a b <-> Timestamp_compare a b <> Gt.
Proof.
  unfold Timestamp_le, Timestamp_leb. by destruct (Timestamp_compare a b).
Qed.

Lemma date_le_alt a b : date_le a b <-> date_compare a b <> Gt.
Proof. unfold date_le, date_leb. by destruct (date_compare a b). Qed.

Global Instance Timestamp_le_refl : Reflexive Timestamp_le.
Proof.
  intros a. apply Timestamp_le_alt. unfold Timestamp_compare.
  by rewrite lex_compare_refl.
Qed.

Global Instance Timestamp_le_trans : Transitive Timestamp_le.
Proof.
  intros a b c. rewrite !Timestamp_le_alt. apply lex_compare_trans_le.
Qed.

Global Instance Timestamp_le_total : Total Timestamp_le.
Proof.
  intros a b. rewrite !Timestamp_le_alt. unfold Timestamp_compare.
  rewrite (lex_compare_antisym (Timestamp_fields a) (Timestamp_fields b)).
  destruct (lex_compare _ _); simpl; auto.
Qed.

Global Instance Timestamp_le_antisym : AntiSymm (=) Timestamp_le.
Proof.
  intros a b. rewrite !Timestamp_le_alt. unfold Timestamp_compare.
  rewrite (lex_compare_antisym (Timestamp_fields a) (Timestamp_fields b)).
  destruct (lex_compare _ _) eqn:E; simpl; try done.
  intros _ _. by apply Timestamp_fields_inj, lex_compare_eq.
Qed.

Global Instance date_le_refl : Reflexive date_le.
Proof.
  intros a. apply date_le_alt. unfold date_compare.
  by rewrite lex_compare_refl.
Qed.

Global Instance date_le_trans : Transitive date_le.
Proof. intros a b c. rewrite !date_le_alt. apply lex_compare_trans_le. Qed.

Lemma date_le_fields a b :
  date_le a b <->
  year a < year b \/
  (year a = year b /\
   (month a < month b \/ (month a = month b /\ day a <= day b))).
Proof.
  rewrite date_le_alt. unfold date_compare. destruct a, b; cbn.
  repeat match goal with
         | |- context [?x ?= ?y] => destruct (Z.compare_spec x y)
         end; split; try done; lia.
Qed.

(** The comparison of two timestamps looks at the dates first. *)
Lemma Timestamp_compare_split a b :
  Timestamp_compare a b =
    match date_compare (ts_date a) (ts_date b) with
    | Eq => lex_compare (time_fields (ts_time a)) (time_fields (ts_time b))
    | c => c
    end.
Proof. unfold Timestamp_compare, Timestamp_fields. by apply lex_compare_app. Qed.

Lemma Timestamp_le_date a b :
  Timestamp_le a b -> date_le (ts_date a) (ts_date b).
Proof.
  rewrite Timestamp_le_alt, date_le_alt, Timestamp_compare_split.
  by destruct (date_compare _ _).
Qed.

Lemma midnight_le d t :
  valid_time t -> Timestamp_le (combine d midnight) (combine d t).
Proof.
  intros (? & ? & ? & ?). rewrite Timestamp_le_alt, Timestamp_compare_split.
  cbn [ts_date ts_time combine]. unfold date_compare.
  rewrite lex_compare_refl. destruct t; cbn -[Z.compare] in *.
  repeat match goal with
         | |- context [?x ?= ?y] => destruct (Z.compare_spec x y)
         end; try done; lia.
Qed.

(** A time of day is at most 23:59:59 exactly when it has no part of the
    last second's fraction beyond it. *)
Lemma le_last_second d t :
  valid_time t ->
  Timestamp_le (combine d t) (combine d last_second) <->
  (hour t = 23 /\ minute t = 59 /\ second t = 59 -> nanosecond t = 0).
Proof.
  intros (? & ? & ? & ?). rewrite Timestamp_le_alt, Timestamp_compare_split.
  cbn [ts_date ts_time combine]. unfold date_compare.
  rewrite lex_compare_refl. destruct t; cbn -[Z.compare] in *.
  repeat match goal with
         | |- context [?x ?= ?y] => destruct (Z.compare_spec x y)
         end; split; try done; lia.
Qed.

Lemma Timestamp_le_of_date_lt a b :
  date_compare (ts_date a) (ts_date b) = Lt -> Timestamp_le a b.
Proof.
  intros H. rewrite Timestamp_le_alt, Timestamp_compare_split. by rewrite H.
Qed.

End order.

(** ** Properties of the table operations *)

Section tables.

Lemma traverse_Forall2 {A B} (f : A -> result B) l l' :
  traverse f l = Ok l' <-> Forall2 (fun x y => f x = Ok y) l l'.
Proof.
  revert l'; induction l as [|x l IH]; intros l'; simpl.
  - split; [by intros [= <-]; constructor | by inversion 1].
  - destruct (f x) as [y|] eqn:Hx.
    + destruct (traverse f l) as [ys|] eqn:Hl.
      * split.
        -- intros [= <-]. constructor; [done|]. by apply IH.
        -- inversion 1 as [|? y' ? ys' Hy Hys]; subst.
           apply IH in Hys. congruence.
      * split; [done|]. inversion 1 as [|? y' ? ys' Hy Hys]; subst.
        by apply IH in Hys.
    + split; [done|]. inversion 1; congruence.
Qed.

Lemma traverse_total {A B} (f : A -> result B) l :
  Forall (fun x => exists y, f x = Ok y) l -> exists l', traverse f l = Ok l'.
Proof.
  induction 1 as [|x l [y Hy] _ [l' IH]]; simpl; [by eexists|].
  rewrite Hy, IH. by eexists.
Qed.

Lemma traverse_length {A B} (f : A -> result B) l l' :
  traverse f l = Ok l' -> length l' = length l.
Proof. intros Hl%traverse_Forall2. symmetry. by eapply Forall2_length. Qed.

Lemma traverse_fmap {A B C} (f : B -> result C) (g : A -> B) l :
  traverse f (g <$> l) = traverse (fun x => f (g x)) l.
Proof.
  induction l as [|x l IH]; csimpl; [done|]. by rewrite IH.
Qed.

Lemma traverse_Ok_id {A B} (f : A -> result B) (g : B -> A) l :
  (forall y, f (g y) = Ok y) -> traverse f (g <$> l) = Ok l.
Proof.
  intros Hfg. induction l as [|x l IH]; csimpl; [done|].
  by rewrite Hfg, IH.
Qed.

Lemma traverse_as_time ts : traverse as_time (VTime <$> ts) = Ok ts.
Proof. by apply traverse_Ok_id. Qed.

Lemma traverse_as_time_inv col ts :
  traverse as_time col = Ok ts -> col = VTime <$> ts.
Proof.
  intros Hc%traverse_Forall2. induction Hc as [|v t col ts Hv _ IH]; [done|].
  destruct v; try done. injection Hv as ->. simpl. by f_equal.
Qed.

Lemma getitem_Ok df c :
  c ∈ columns df -> getitem df c = Ok (column df c).
Proof. intros Hc. unfold getitem. by rewrite decide_True. Qed.

Lemma getitem_Ok_inv df c col :
  getitem df c = Ok col -> c ∈ columns df /\ col = column df c.
Proof. unfold getitem. case_decide; [|done]. by intros [= <-]. Qed.

Lemma columns_setitem df c col : c ∈ columns (setitem df c col).
Proof.
  unfold setitem; simpl. case_decide; [done|].
  apply elem_of_app. right. by apply list_elem_of_singleton.
Qed.

Lemma columns_setitem_present df c col :
  c ∈ columns df -> columns (setitem df c col) = columns df.
Proof. intros Hc. unfold setitem; simpl. by rewrite decide_True. Qed.

Lemma column_setitem df c col :
  length col = length (rows df) -> column (setitem df c col) c = col.
Proof.
  unfold column, setitem; simpl. generalize (rows df) as rs.
  induction col as [|v col IH]; intros [|r rs]; simpl; try done.
  intros [= Hlen]. unfold cell at 1. rewrite lookup_insert_eq. simpl.
  f_equal. by apply IH.
Qed.

Lemma column_setitem_ne df c c' col :
  c <> c' -> length col = length (rows df) ->
  column (setitem df c col) c' = column df c'.
Proof.
  unfold column, setitem; simpl. generalize (rows df) as rs. intros rs Hne.
  revert rs. induction col as [|v col IH]; intros [|r rs]; simpl; try done.
  intros [= Hlen]. unfold cell at 1 3. rewrite lookup_insert_ne by done.
  f_equal. by apply IH.
Qed.

Lemma length_rows_setitem df c col :
  length col = length (rows df) ->
  length (rows (setitem df c col)) = length (rows df).
Proof. intros Hlen. unfold setitem; simpl. rewrite length_zip_with. lia. Qed.

(** Assigning to a column the cells it already holds changes nothing. *)
Lemma setitem_id df c :
  c ∈ columns df ->
  Forall (fun r : Row => is_Some (r !! c)) (rows df) ->
  setitem df c (column df c) = df.
Proof.
  intros Hc Hrows. destruct df as [cols rs]. unfold setitem, column; simpl in *.
  rewrite decide_True by done. f_equal.
  induction Hrows as [|r rs [v Hv] _ IH]; csimpl; [done|].
  unfold cell at 1. rewrite Hv; csimpl. by rewrite insert_id, IH.
Qed.

Lemma select_fmap {A} (f : A -> bool) (l : list A) :
  select (f <$> l) l = filter (fun x => f x) l.
Proof.
  induction l as [|x l IH]; csimpl; [done|].
  rewrite IH. destruct (f x) eqn:Hx.
  - rewrite filter_cons_True; [done|]. by apply Is_true_true.
  - rewrite filter_cons_False; [done|].
    intros Hf%Is_true_true. congruence.
Qed.

Lemma select_sublist {A} mask (l : list A) : sublist (select mask l) l.
Proof.
  revert mask; induction l as [|x l IH]; intros [|[] mask]; simpl;
    try apply sublist_nil_l.
  - by apply sublist_skip.
  - by apply sublist_cons.
Qed.

Lemma reindex_lookup_Some cols (r : Row) c v :
  r !! c = Some v -> reindex cols r !! c = Some v.
Proof. intros Hc. unfold reindex. by apply lookup_union_Some_l. Qed.

End tables.

(** ** The Filter Stage *)

Section filter_stage.

Context `{Externals}.

Local Arguments normalised : simpl never.
Local Arguments setitem : simpl never.
Local Arguments getitem_mask : simpl never.

(** The parser of a column, cell by cell. *)
Lemma to_datetime_cell_Ok v t :
  to_datetime v = Ok t -> to_datetime_cell v = Ok (VTime t).
Proof.
  intros Hv. unfold to_datetime_cell.
  by rewrite (to_datetime_notna _ _ Hv), Hv.
Qed.

Lemma to_datetime_cell_isna v : isna v = true -> to_datetime_cell v = Ok VNaT.
Proof. intros Hv. unfold to_datetime_cell. by rewrite Hv. Qed.

Lemma to_datetime_cell_inv v w :
  to_datetime_cell v = Ok w ->
  (isna v = true /\ w = VNaT) \/
  (exists t, isna v = false /\ to_datetime v = Ok t /\ w = VTime t).
Proof.
  unfold to_datetime_cell. destruct (isna v).
  - intros [= <-]. by left.
  - destruct (to_datetime v) as [t|]; [|done]. intros [= <-]. right. by exists t.
Qed.

Lemma to_datetime_cell_datetime v w :
  to_datetime_cell v = Ok w -> datetime_cell w = true.
Proof. by intros [[_ ->]|(t & _ & _ & ->)]%to_datetime_cell_inv. Qed.

Lemma to_datetime_cell_id v : datetime_cell v = true -> to_datetime_cell v = Ok v.
Proof.
  destruct v; try done. intros _.
  apply to_datetime_cell_Ok, to_datetime_Timestamp.
Qed.

Lemma to_datetime_series_Ok col ts :
  traverse to_datetime col = Ok ts -> to_datetime_series col = Ok (VTime <$> ts).
Proof.
  intros Hts%traverse_Forall2. apply traverse_Forall2, Forall2_fmap_r.
  eapply Forall2_impl; [exact Hts|]. intros v t. apply to_datetime_cell_Ok.
Qed.

Lemma to_datetime_series_length col cells :
  to_datetime_series col = Ok cells -> length cells = length col.
Proof. apply traverse_length. Qed.

Lemma to_datetime_series_datetime col cells :
  to_datetime_series col = Ok cells -> Forall (fun v => datetime_cell v = true) cells.
Proof.
  intros Hc%traverse_Forall2.
  induction Hc as [|v w col cells Hv _ IH]; constructor; [|done].
  by eapply to_datetime_cell_datetime.
Qed.

Lemma to_datetime_series_id cells :
  Forall (fun v => datetime_cell v = true) cells ->
  to_datetime_series cells = Ok cells.
Proof.
  intros Hc. apply traverse_Forall2.
  induction Hc as [|v cells Hv _ IH]; constructor; [|done].
  by apply to_datetime_cell_id.
Qed.

(** Where the parsed column holds timestamps only, every cell denoted its
    timestamp. *)
Lemma to_datetime_series_as_time col cells ts :
  to_datetime_series col = Ok cells -> traverse as_time cells = Ok ts ->
  traverse to_datetime col = Ok ts.
Proof.
  intros Hc%traverse_Forall2 Hts%traverse_Forall2. apply traverse_Forall2.
  revert ts Hts. induction Hc as [|v w col cells Hv _ IH]; intros ts Hts.
  - inversion Hts. constructor.
  - inversion Hts as [|? t ? ts' Hw Hts']; subst. constructor; [|by apply IH].
    destruct w; try done. injection Hw as ->.
    by apply to_datetime_cell_inv in Hv as [[_ [=]]|(t' & _ & Hv & [= ->])].
Qed.

Lemma timestamps_fmap ts : timestamps (VTime <$> ts) = ts.
Proof. unfold timestamps. induction ts as [|t ts IH]; csimpl; [done|]. by f_equal. Qed.

Lemma elem_of_timestamps t cells : t ∈ timestamps cells <-> VTime t ∈ cells.
Proof.
  unfold timestamps. rewrite list_elem_of_omap. split.
  - intros (v & Hv & Ht). destruct v; try done. by injection Ht as ->.
  - intros Ht. by exists (VTime t).
Qed.

Lemma series_ge_datetime col t :
  Forall (fun v => datetime_cell v = true) col ->
  series_ge col t = Ok (ge_cell t <$> col).
Proof.
  intros Hc. apply traverse_Forall2, Forall2_fmap_r, Forall_Forall2_diag.
  eapply Forall_impl; [exact Hc|]. by intros [].
Qed.

Lemma series_le_datetime col t :
  Forall (fun v => datetime_cell v = true) col ->
  series_le col t = Ok (le_cell t <$> col).
Proof.
  intros Hc. apply traverse_Forall2, Forall2_fmap_r, Forall_Forall2_diag.
  eapply Forall_impl; [exact Hc|]. by intros [].
Qed.

Lemma series_ge_column df c t :
  Forall (fun v => datetime_cell v = true) (column df c) ->
  series_ge (column df c) t = Ok ((fun r => ge_cell t (cell c r)) <$> rows df).
Proof.
  intros Hc. rewrite series_ge_datetime by done. unfold column.
  by rewrite <- list_fmap_compose.
Qed.

Lemma series_le_column df c t :
  Forall (fun v => datetime_cell v = true) (column df c) ->
  series_le (column df c) t = Ok ((fun r => le_cell t (cell c r)) <$> rows df).
Proof.
  intros Hc. rewrite series_le_datetime by done. unfold column.
  by rewrite <- list_fmap_compose.
Qed.

Lemma getitem_mask_fmap df (f : Row -> bool) :
  getitem_mask df (f <$> rows df) =
  Frame (columns df) (filter (fun r => f r) (rows df)).
Proof. unfold getitem_mask. by rewrite select_fmap. Qed.

Lemma isin_column df c values :
  isin (column df c) values =
  (fun r => bool_decide (cell c r ∈ values)) <$> rows df.
Proof. unfold isin, column. by rewrite <- list_fmap_compose. Qed.

Lemma series_and_fmap {A} (f g : A -> bool) (l : list A) :
  series_and (f <$> l) (g <$> l) = (fun x => f x && g x) <$> l.
Proof.
  unfold series_and. induction l as [|x l IH]; csimpl; [done|]. by f_equal.
Qed.

Lemma kept_cells lo hi gcells (r : Row) :
  (ge_cell lo (cell "EntryTime" r) && le_cell hi (cell "EntryTime" r)) /\
  bool_decide (cell "EntryTime" r ∈ gcells)
  <-> kept lo hi (timestamps gcells) r.
Proof.
  unfold kept, cell. destruct (r !! "EntryTime") as [[]|]; simpl;
    try (split; [intros [[] _] | done]).
  rewrite andb_True, bool_decide_spec, elem_of_timestamps.
  unfold Timestamp_le. rewrite !Is_true_true. tauto.
Qed.

(** What a call computes when both columns parse. *)
Lemma filter_early_close_data_run_series
    start_date end_date df master lo hi cells gcells :
  to_datetime (VStr (start_date +:+ " 00:00:00")) = Ok lo ->
  to_datetime (VStr (end_date +:+ " 23:59:59")) = Ok hi ->
  "EntryTime" ∈ columns df ->
  to_datetime_series (column df "EntryTime") = Ok cells ->
  "SpxDayTime" ∈ columns master ->
  to_datetime_series (column master "SpxDayTime") = Ok gcells ->
  filter_early_close_data start_date end_date (Objects df master) =
    (Ok (Frame (columns df)
               (filter (kept lo hi (timestamps gcells))
                       (rows (setitem df "EntryTime" cells)))),
     Objects (setitem df "EntryTime" cells)
             (setitem master "SpxDayTime" gcells)).
Proof.
  intros Hlo Hhi Hdf Hts Hmaster Hgrid.
  assert (Hlts : length cells = length (rows df)).
  { rewrite (to_datetime_series_length _ _ Hts). apply length_fmap. }
  assert (Hlgrid : length gcells = length (rows master)).
  { rewrite (to_datetime_series_length _ _ Hgrid). apply length_fmap. }
  set (df' := setitem df "EntryTime" cells).
  set (master' := setitem master "SpxDayTime" gcells).
  assert (Hcol : column df' "EntryTime" = cells) by (by apply column_setitem).
  assert (Hcol' : column master' "SpxDayTime" = gcells)
    by (by apply column_setitem).
  assert (Hdt : Forall (fun v => datetime_cell v = true) (column df' "EntryTime")).
  { rewrite Hcol. by eapply to_datetime_series_datetime. }
  assert (Hin : "EntryTime" ∈ columns df') by apply columns_setitem.
  assert (Hin' : "SpxDayTime" ∈ columns master') by apply columns_setitem.
  unfold filter_early_close_data, bindM, lift, get_df, get_master, put_df,
    put_master, ret; simpl.
  rewrite Hlo, Hhi, (getitem_Ok df) by done. simpl. rewrite Hts. simpl.
  fold df'. rewrite (getitem_Ok df') by done.
  rewrite series_ge_column, series_le_column by done.
  rewrite series_and_fmap, getitem_mask_fmap.
  rewrite (getitem_Ok master) by done. simpl. rewrite Hgrid. simpl.
  fold master'. rewrite (getitem_Ok master') by done.
  rewrite getitem_Ok by done.
  rewrite Hcol', isin_column, getitem_mask_fmap. cbn [rows columns].
  rewrite list_filter_filter.
  rewrite decide_True by done.
  do 3 f_equal. apply list_filter_iff. intros r. simpl.
  rewrite <- kept_cells. tauto.
Qed.

(** What a call computes when every cell denotes a timestamp. *)
Lemma filter_early_close_data_run start_date end_date df master lo hi ts grid :
  to_datetime (VStr (start_date +:+ " 00:00:00")) = Ok lo ->
  to_datetime (VStr (end_date +:+ " 23:59:59")) = Ok hi ->
  getitem df "EntryTime" = Ok (column df "EntryTime") ->
  traverse to_datetime (column df "EntryTime") = Ok ts ->
  getitem master "SpxDayTime" = Ok (column master "SpxDayTime") ->
  traverse to_datetime (column master "SpxDayTime") = Ok grid ->
  filter_early_close_data start_date end_date (Objects df master) =
    (Ok (Frame (columns df)
               (filter (kept lo hi grid)
                       (rows (normalised df "EntryTime" ts)))),
     Objects (normalised df "EntryTime" ts)
             (normalised master "SpxDayTime" grid)).
Proof.
  intros Hlo Hhi [Hdf _]%getitem_Ok_inv Hts%to_datetime_series_Ok
    [Hmaster _]%getitem_Ok_inv Hgrid%to_datetime_series_Ok.
  rewrite (filter_early_close_data_run_series _ _ _ _ lo hi _ _
             Hlo Hhi Hdf Hts Hmaster Hgrid).
  by rewrite timestamps_fmap.
Qed.

Lemma filter_early_close_data_Ok_inv start_date end_date df master out o' :
  filter_early_close_data start_date end_date (Objects df master) = (Ok out, o') ->
  exists lo hi cells gcells,
    to_datetime (VStr (start_date +:+ " 00:00:00")) = Ok lo /\
    to_datetime (VStr (end_date +:+ " 23:59:59")) = Ok hi /\
    "EntryTime" ∈ columns df /\
    to_datetime_series (column df "EntryTime") = Ok cells /\
    "SpxDayTime" ∈ columns master /\
    to_datetime_series (column master "SpxDayTime") = Ok gcells.
Proof.
  unfold filter_early_close_data, bindM, lift, get_df, get_master, put_df,
    put_master, ret; simpl.
  destruct (to_datetime (VStr (start_date +:+ _))) as [lo|]; [|done].
  destruct (to_datetime (VStr (end_date +:+ _))) as [hi|]; [|done].
  destruct (getitem df _) as [col|] eqn:Hdf; [|done].
  apply getitem_Ok_inv in Hdf as Hcol. destruct Hcol as [Hin ->]. simpl.
  destruct (to_datetime_series (column df _)) as [cells|] eqn:Hts; [|done].
  simpl. repeat (case_match; try done); simplify_eq. intros _.
  match goal with
  | Hm : getitem master _ = Ok _ |- _ =>
      apply getitem_Ok_inv in Hm as Hm'; destruct Hm' as [Hin' ->]
  end.
  eexists lo, hi, cells, _. do 5 (split; [done|]). eassumption.
Qed.

Lemma rows_normalised df c ts :
  rows (normalised df c ts) =
  zip_with (fun (r : Row) t => <[c := VTime t]> r) (rows df) ts.
Proof. unfold normalised, setitem. cbn [rows]. by rewrite zip_with_fmap_r. Qed.

Lemma setitem_parsed_in_place df c cells :
  c ∈ columns df ->
  to_datetime_series (column df c) = Ok cells ->
  parsed_in_place c df (setitem df c cells).
Proof.
  intros Hc Hts. split.
  - by apply columns_setitem_present.
  - unfold setitem. cbn [rows]. apply traverse_Forall2 in Hts.
    unfold column in Hts. apply Forall2_fmap_l in Hts.
    induction Hts as [|r v rs cells' Hr _ IH]; simpl; constructor; eauto.
Qed.

Lemma normalised_parsed_in_place df c ts :
  c ∈ columns df ->
  traverse to_datetime (column df c) = Ok ts ->
  parsed_in_place c df (normalised df c ts).
Proof.
  intros Hc Hts%to_datetime_series_Ok. by apply setitem_parsed_in_place.
Qed.

(** A table whose column already holds timestamps is left as it is. *)
Lemma parsed_in_place_datetime c d d' :
  c ∈ columns d ->
  Forall (fun r : Row => exists t, r !! c = Some (VTime t)) (rows d) ->
  parsed_in_place c d d' -> d' = d.
Proof.
  intros Hc Hd [Hcols Hrows]. destruct d as [cols rs], d' as [cols' rs'].
  simpl in *. subst cols'. f_equal.
  induction Hrows as [|r r' rs rs' (v & Hv & ->) _ IH]; [done|].
  apply Forall_cons in Hd as [(t' & Hr) Hd]. f_equal; [|by apply IH].
  unfold cell in Hv. rewrite Hr in Hv. simpl in Hv.
  rewrite to_datetime_cell_id in Hv by done. injection Hv as <-.
  by apply insert_id.
Qed.

Lemma parsed_in_place_length c d d' :
  parsed_in_place c d d' -> length (rows d') = length (rows d).
Proof. intros [_ Hrows]. symmetry. by eapply Forall2_length. Qed.

(** Every step of a call, whatever its result, leaves each of the two
    objects either untouched or parsed in place. *)
Lemma filter_early_close_data_objects start_date end_date df master res o' :
  filter_early_close_data start_date end_date (Objects df master) = (res, o') ->
  (obj_df o' = df \/ parsed_in_place "EntryTime" df (obj_df o')) /\
  (obj_master o' = master \/
   parsed_in_place "SpxDayTime" master (obj_master o')).
Proof.
  unfold filter_early_close_data, bindM, lift, get_df, get_master, put_df,
    put_master, ret; simpl.
  destruct (to_datetime (VStr (start_date +:+ _))) as [lo|];
    [|intros [= <- <-]; auto].
  destruct (to_datetime (VStr (end_date +:+ _))) as [hi|];
    [|intros [= <- <-]; auto].
  destruct (getitem df _) as [col|] eqn:Hdf; [|intros [= <- <-]; auto].
  apply getitem_Ok_inv in Hdf as [Hdf ->]. simpl.
  destruct (to_datetime_series (column df _)) as [cells|] eqn:Hts;
    [|intros [= <- <-]; auto].
  simpl.
  pose proof (setitem_parsed_in_place _ _ _ Hdf Hts) as Hdf'.
  repeat case_match; intros [= <- <-]; simpl; (split; [by auto|]);
    try (by left); right.
  all: match goal with
       | Hm : getitem _ "SpxDayTime" = Ok ?a,
         Hs : to_datetime_series ?a = Ok _ |- _ =>
           apply getitem_Ok_inv in Hm as [Hmaster ->]
       end.
  all: by apply setitem_parsed_in_place.
Qed.

End filter_stage.

(** ** Concatenation and dtypes *)

Section dtypes.

Lemma float_of_int_small n : Z.abs n <= 2 ^ 53 -> float_of_int n = n.
Proof.
  intros Hn. unfold float_of_int.
  destruct (Z.leb_spec (Z.log2 (Z.abs n) - 52) 0) as [|He]; [done|].
  assert (Ha : Z.abs n = 2 ^ 53).
  { assert (2 ^ 53 <= Z.abs n); [|lia].
    destruct (decide (Z.abs n <= 0)) as [Hz|Hz].
    - assert (Z.abs n = 0) as Hz' by lia. rewrite Hz' in He.
      by vm_compute in He.
    - apply Z.log2_le_pow2; lia. }
  rewrite Ha. vm_compute Z.log2.
  change (2 ^ 53 / 2 ^ (53 - 52)) with (2 ^ 52).
  change (2 ^ 53 mod 2 ^ (53 - 52)) with 0.
  change (0 <? 2 ^ (53 - 52 - 1)) with true. cbv beta iota zeta.
  change (2 ^ 52 * 2 ^ (53 - 52)) with (2 ^ 53). rewrite <- Ha. lia.
Qed.

Lemma astype_not_int d v : (forall n, v <> VInt n) -> astype d v = v.
Proof. intros Hv. destruct d as [[]|], v; try done. by destruct (Hv n). Qed.

Lemma astype_not_float d v : d <> Some float64 -> astype d v = v.
Proof. intros Hd. by destruct d as [[]|], v. Qed.

Lemma astype_upcast d v : upcast v (astype d v).
Proof.
  destruct d as [[]|], v; try (by left). right. by exists n.
Qed.

Lemma dtype_of_float v : dtype_of v = float64 -> forall n, v <> VInt n.
Proof. by destruct v. Qed.

Lemma infer_dtype_elem cells d v :
  infer_dtype cells = Some d -> d <> object_ -> v ∈ cells -> dtype_of v = d.
Proof.
  destruct cells as [|w cells]; [done|]. simpl.
  case_bool_decide as Hall; intros [= <-]; [|done].
  intros _ [->|Hv]%elem_of_cons; [done|].
  rewrite Forall_forall in Hall. by apply Hall.
Qed.

Lemma infer_dtype_all cells d :
  cells <> [] -> Forall (fun v => dtype_of v = d) cells ->
  infer_dtype cells = Some d.
Proof.
  destruct cells as [|v cells]; [done|]. intros _ [Hv Hall]%Forall_cons.
  simpl. rewrite bool_decide_eq_true_2; [by rewrite Hv|].
  eapply Forall_impl; [exact Hall|]. intros w Hw. by rewrite Hv.
Qed.

Lemma infer_dtype_Some cells v : v ∈ cells -> is_Some (infer_dtype cells).
Proof. destruct cells; [by intros ?%elem_of_nil|]. by eexists. Qed.

(** A cell keeps what it is in a column of the dtype of its own column. *)
Lemma astype_own cells v : v ∈ cells -> astype (infer_dtype cells) v = v.
Proof.
  intros Hv. destruct (infer_dtype cells) as [d|] eqn:Hd; [|done].
  destruct (decide (d = float64)) as [->|Hne].
  - apply astype_not_int, dtype_of_float.
    by apply (infer_dtype_elem cells).
  - apply astype_not_float. congruence.
Qed.

(** A cell keeps what it is when its column meets one that holds no
    floats. *)
Lemma astype_common cells d2 v :
  v ∈ cells -> d2 <> float64 ->
  astype (joint_dtype (Some (infer_dtype cells)) (Some (Some d2))) v = v.
Proof.
  intros Hv Hd2. destruct (infer_dtype_Some _ _ Hv) as [d1 Hd1].
  rewrite Hd1. cbn [joint_dtype]. unfold find_common_type.
  case_decide as Heq.
  - apply astype_not_float. congruence.
  - destruct (decide (d1 = float64)) as [->|Hne].
    + apply astype_not_int, dtype_of_float. by apply (infer_dtype_elem cells).
    + apply astype_not_float. destruct d1, d2; congruence.
Qed.

Lemma list_to_map_fun_lookup {B} (f : string -> B) (cols : list string) c :
  (list_to_map ((fun c => (c, f c)) <$> cols) : gmap string B) !! c =
  if decide (c ∈ cols) then Some (f c) else None.
Proof.
  induction cols as [|c' cols IH].
  - rewrite fmap_nil. cbn [list_to_map foldr]. rewrite lookup_empty.
    rewrite decide_False; [done|]. apply not_elem_of_nil.
  - rewrite fmap_cons. cbn [list_to_map foldr].
    destruct (decide (c = c')) as [->|Hne].
    + rewrite lookup_insert_eq. by rewrite decide_True by apply list_elem_of_here.
    + rewrite lookup_insert_ne by done. rewrite IH.
      destruct (decide (c ∈ cols)).
      * by rewrite decide_True by (by apply list_elem_of_further).
      * rewrite decide_False; [done|]. by intros [?|?]%elem_of_cons.
Qed.

Lemma conform_lookup cols dtypes df (r : Row) c :
  conform cols dtypes df r !! c =
  if decide (c ∈ cols)
  then Some (if decide (c ∈ columns df) then astype (dtypes c) (cell c r)
             else na_value (dtypes c))
  else None.
Proof.
  unfold conform.
  apply (list_to_map_fun_lookup
           (fun c => if decide (c ∈ columns df) then astype (dtypes c) (cell c r)
                     else na_value (dtypes c))).
Qed.

Lemma cell_Some c (r : Row) v : r !! c = Some v -> cell c r = v.
Proof. unfold cell. by intros ->. Qed.

Lemma cell_VTime_inv c (r : Row) t : cell c r = VTime t -> r !! c = Some (VTime t).
Proof. unfold cell. destruct (r !! c); simpl; [by intros ->|done]. Qed.

Lemma cell_conform cols dtypes df (r : Row) c :
  c ∈ cols -> c ∈ columns df ->
  cell c (conform cols dtypes df r) = astype (dtypes c) (cell c r).
Proof.
  intros Hc Hdf. apply cell_Some. rewrite conform_lookup.
  by rewrite !decide_True.
Qed.

Lemma isna_na_value d : isna (na_value d) = true.
Proof. by destruct d as [[]|]. Qed.

(** A row that has exactly the columns of its table, with cells that keep
    what they are, is laid out as itself. *)
Lemma conform_id dtypes df (r : Row) :
  (forall c, is_Some (r !! c) <-> c ∈ columns df) ->
  (forall c, c ∈ columns df -> astype (dtypes c) (cell c r) = cell c r) ->
  conform (columns df) dtypes df r = r.
Proof.
  intros Hdom Hcells. apply map_eq. intros c. rewrite conform_lookup.
  case_decide as Hc.
  - rewrite Hcells by done. apply Hdom in Hc as [v Hv].
    by rewrite (cell_Some _ _ _ Hv).
  - symmetry. apply eq_None_not_Some. by rewrite Hdom.
Qed.

Lemma columns_concat df1 df2 :
  columns (concat df1 df2) =
  columns df1 ++ list_difference (columns df2) (columns df1).
Proof. reflexivity. Qed.

Lemma rows_concat df1 df2 :
  rows (concat df1 df2) =
  (conform (columns (concat df1 df2)) (concat_dtype df1 df2) df1 <$> rows df1) ++
  (conform (columns (concat df1 df2)) (concat_dtype df1 df2) df2 <$> rows df2).
Proof. reflexivity. Qed.

Lemma columns_concat_l df1 df2 c : c ∈ columns df1 -> c ∈ columns (concat df1 df2).
Proof. intros Hc. rewrite columns_concat. apply elem_of_app. by left. Qed.

(** The rows of a concatenation have exactly its columns. *)
Lemma concat_rows_dom df1 df2 (r : Row) c :
  r ∈ rows (concat df1 df2) -> is_Some (r !! c) <-> c ∈ columns (concat df1 df2).
Proof.
  rewrite rows_concat, elem_of_app, !list_elem_of_fmap.
  intros [(r0 & -> & _)|(r0 & -> & _)]; rewrite conform_lookup;
    case_decide; split; try done; by intros [? ?].
Qed.

Lemma zero_shape_false df c : c ∈ columns df -> zero_shape df = false.
Proof.
  intros Hc. apply bool_decide_eq_false. intros [Hcols _].
  rewrite Hcols in Hc. by apply elem_of_nil in Hc.
Qed.

Lemma column_elem df c (r : Row) : r ∈ rows df -> cell c r ∈ column df c.
Proof. intros Hr. unfold column. apply list_elem_of_fmap. by exists r. Qed.

(** Concatenated with a frame of shape (0, 0), a table of rows that have
    exactly its columns is itself. *)
Lemma concat_zero_shape df :
  Forall (fun r : Row => forall c, is_Some (r !! c) <-> c ∈ columns df) (rows df) ->
  concat df (Frame [] []) = df.
Proof.
  intros Hdom. unfold concat. cbn [columns rows list_difference].
  rewrite fmap_nil, !app_nil_r.
  rewrite (Forall_fmap_ext_1 _ id (rows df)).
  - rewrite list_fmap_id. by destruct df.
  - rewrite Forall_forall in Hdom. apply Forall_forall. intros r Hr.
    apply conform_id; [by apply Hdom|]. intros c Hc. unfold concat_dtype.
    change (zero_shape (Frame [] [])) with true. cbv iota.
    unfold column_dtype. rewrite decide_True by done. cbn [default].
    by apply astype_own, column_elem.
Qed.

End dtypes.

(** ** The Padding Stage *)

Section padding_stage.

Context `{Externals}.

Local Arguments normalised : simpl never.
Local Arguments setitem : simpl never.
Local Arguments concat : simpl never.
Local Arguments DataFrame_of_records : simpl never.
Local Arguments sort_values : simpl never.
Local Arguments conform : simpl never.

(** What a call computes when both columns parse and the grid holds no
    [NaT]. *)
Lemma pad_entry_times_run_series
    start_date end_date df master lo hi gcells grid cells :
  to_datetime (VStr start_date) = Ok lo ->
  to_datetime (VStr end_date) = Ok hi ->
  "SpxDayTime" ∈ columns master ->
  to_datetime_series (column master "SpxDayTime") = Ok gcells ->
  traverse as_time gcells = Ok grid ->
  "EntryTime" ∈ columns df ->
  to_datetime_series (column df "EntryTime") = Ok cells ->
  pad_entry_times start_date end_date (Objects df master) =
    (let! ts := traverse as_time cells in
     sort_values (appended (setitem df "EntryTime" cells)
                           (missing_entry_times lo hi grid ts))
                 "EntryTime",
     Objects (setitem df "EntryTime" cells) master).
Proof.
  intros Hlo Hhi Hmaster Hgcells Hgrid Hdf Hcells.
  assert (Hlts : length cells = length (rows df)).
  { rewrite (to_datetime_series_length _ _ Hcells). apply length_fmap. }
  set (df' := setitem df "EntryTime" cells).
  assert (Hcol : column df' "EntryTime" = cells) by (by apply column_setitem).
  assert (Hin : "EntryTime" ∈ columns df') by apply columns_setitem.
  unfold pad_entry_times, bindM, lift, get_df, get_master, put_df,
    put_master, ret; simpl.
  rewrite Hlo, Hhi, (getitem_Ok master) by done. simpl.
  rewrite Hgcells. simpl. rewrite Hgrid, (getitem_Ok df) by done. simpl.
  rewrite Hcells. simpl. fold df'.
  rewrite (getitem_Ok df'), Hcol by done.
  destruct (traverse as_time cells) as [ts|]; [|done]. cbn [bind].
  fold (in_window lo hi grid) (in_window lo hi ts).
  fold (missing_entry_times lo hi grid ts).
  change (DataFrame_of_records (placeholder <$> elements ?m)) with (padded_df m).
  fold (appended df' (missing_entry_times lo hi grid ts)).
  by destruct (sort_values _ _).
Qed.

(** What a call computes when every cell denotes a timestamp. *)
Lemma pad_entry_times_run start_date end_date df master lo hi grid ts :
  to_datetime (VStr start_date) = Ok lo ->
  to_datetime (VStr end_date) = Ok hi ->
  getitem master "SpxDayTime" = Ok (column master "SpxDayTime") ->
  traverse to_datetime (column master "SpxDayTime") = Ok grid ->
  getitem df "EntryTime" = Ok (column df "EntryTime") ->
  traverse to_datetime (column df "EntryTime") = Ok ts ->
  pad_entry_times start_date end_date (Objects df master) =
    (sort_values (appended (normalised df "EntryTime" ts)
                           (missing_entry_times lo hi grid ts))
                 "EntryTime",
     Objects (normalised df "EntryTime" ts) master).
Proof.
  intros Hlo Hhi [Hmaster _]%getitem_Ok_inv Hgrid%to_datetime_series_Ok
    [Hdf _]%getitem_Ok_inv Hts%to_datetime_series_Ok.
  rewrite (pad_entry_times_run_series _ _ _ _ lo hi _ grid _
             Hlo Hhi Hmaster Hgrid (traverse_as_time grid) Hdf Hts).
  by rewrite traverse_as_time.
Qed.

Global Instance key_le_total : Total key_le.
Proof. intros p q. unfold key_le. apply (total Timestamp_le). Qed.

Lemma placeholder_keys_NoDup t : NoDup (placeholder t).*1.
Proof. apply (bool_decide_unpack _). by vm_compute. Qed.

Lemma placeholder_lookup t c v :
  (list_to_map (placeholder t) : Row) !! c = Some v <-> (c, v) ∈ placeholder t.
Proof. symmetry. apply elem_of_list_to_map, placeholder_keys_NoDup. Qed.

Lemma placeholder_fst t : (placeholder t).*1 = placeholder_columns.
Proof. reflexivity. Qed.

Lemma placeholder_cell_elem t c :
  c ∈ placeholder_columns -> (c, placeholder_cell t c) ∈ placeholder t.
Proof.
  unfold placeholder_columns, payload_columns. intros Hc.
  repeat (apply elem_of_cons in Hc as [->|Hc];
          [vm_compute; repeat constructor|]).
  by apply elem_of_nil in Hc.
Qed.

Lemma cell_placeholder cols t c :
  c ∈ placeholder_columns ->
  cell c (reindex cols (list_to_map (placeholder t))) = placeholder_cell t c.
Proof.
  intros Hc. by apply cell_Some, reindex_lookup_Some, placeholder_lookup,
    placeholder_cell_elem.
Qed.

Lemma dtype_of_placeholder_cell t t' c :
  dtype_of (placeholder_cell t c) = dtype_of (placeholder_cell t' c).
Proof. unfold placeholder_cell. by case_decide. Qed.

Lemma placeholder_cell_not_float t c : dtype_of (placeholder_cell t c) <> float64.
Proof. unfold placeholder_cell, sentinel. by repeat case_decide. Qed.

Lemma remove_dups_NoDup {A} `{EqDecision A} (l : list A) :
  NoDup l -> remove_dups l = l.
Proof.
  induction 1 as [|x l Hx _ IH]; simpl; [done|].
  destruct (decide_rel elem_of x l); [done|]. by rewrite IH.
Qed.

Lemma remove_dups_app_subset {A} `{EqDecision A} (l k : list A) :
  (forall x, x ∈ l -> x ∈ k) -> remove_dups (l ++ k) = remove_dups k.
Proof.
  induction l as [|x l IH]; intros Hsub; simpl; [done|].
  destruct (decide_rel elem_of x (l ++ k)) as [_|Hx].
  - apply IH. intros y Hy. apply Hsub. by right.
  - destruct Hx. apply elem_of_app. right. apply Hsub. by left.
Qed.

Lemma placeholder_columns_NoDup : NoDup placeholder_columns.
Proof. apply (bool_decide_unpack _). by vm_compute. Qed.

Lemma remove_dups_copies {A} `{EqDecision A} {B} (pc : list A) (l : list B) :
  NoDup pc -> l <> [] ->
  remove_dups (mjoin ((fun _ => pc) <$> l)) = pc.
Proof.
  intros Hpc Hl. induction l as [|t l IH]; [done|].
  rewrite fmap_cons. cbn [mjoin list_join].
  destruct l as [|t' l].
  - rewrite fmap_nil. cbn [list_join]. rewrite app_nil_r.
    by apply remove_dups_NoDup.
  - rewrite remove_dups_app_subset; [by apply IH|].
    intros c Hc. rewrite fmap_cons. cbn [list_join].
    apply elem_of_app. by left.
Qed.

Lemma columns_placeholders (l : list Timestamp) :
  l <> [] ->
  columns (DataFrame_of_records (placeholder <$> l)) = placeholder_columns.
Proof.
  intros Hl. unfold DataFrame_of_records. cbn [columns].
  rewrite <- list_fmap_compose.
  rewrite (list_fmap_ext _ (fun _ => placeholder_columns) l)
    by (intros; apply placeholder_fst).
  apply remove_dups_copies; [apply placeholder_columns_NoDup|done].
Qed.

Lemma elements_missing_nil (missing : gset Timestamp) :
  elements missing = [] <-> missing = ∅.
Proof.
  split; [|by intros ->; apply elements_empty].
  intros Hnil. apply set_eq. intros t.
  rewrite <- elem_of_elements, Hnil. set_solver.
Qed.

Lemma padded_df_empty : padded_df ∅ = Frame [] [].
Proof. unfold padded_df. by rewrite elements_empty. Qed.

Lemma columns_padded_df missing :
  missing <> ∅ -> columns (padded_df missing) = placeholder_columns.
Proof.
  intros Hm. apply columns_placeholders. by rewrite elements_missing_nil.
Qed.

Lemma rows_padded_df missing :
  rows (padded_df missing) =
  (fun t => reindex (columns (padded_df missing)) (list_to_map (placeholder t)))
    <$> elements missing.
Proof.
  unfold padded_df, DataFrame_of_records. cbn [rows columns].
  by rewrite <- list_fmap_compose.
Qed.

Lemma column_padded_df missing c :
  c ∈ placeholder_columns ->
  column (padded_df missing) c = (fun t => placeholder_cell t c) <$> elements missing.
Proof.
  intros Hc. unfold column. rewrite rows_padded_df, <- list_fmap_compose.
  apply list_fmap_ext. intros _ t _. unfold compose. by apply cell_placeholder.
Qed.

Lemma column_dtype_padded_df missing t c :
  missing <> ∅ -> c ∈ placeholder_columns ->
  column_dtype (padded_df missing) c = Some (Some (dtype_of (placeholder_cell t c))).
Proof.
  intros Hm Hc. unfold column_dtype.
  rewrite columns_padded_df, decide_True by done. do 2 f_equal.
  rewrite column_padded_df by done. apply infer_dtype_all.
  - intros Hnil%fmap_nil_inv. by apply elements_missing_nil in Hnil.
  - apply Forall_fmap, Forall_true. intros t'. apply dtype_of_placeholder_cell.
Qed.

Lemma column_dtype_lacking df c : c ∉ columns df -> column_dtype df c = None.
Proof. intros Hc. unfold column_dtype. by rewrite decide_False. Qed.

Lemma column_dtype_present df c :
  c ∈ columns df -> column_dtype df c = Some (infer_dtype (column df c)).
Proof. intros Hc. unfold column_dtype. by rewrite decide_True. Qed.

(** The dtypes of the table before the sort. *)
Lemma concat_dtype_nothing_missing df c :
  concat_dtype df (padded_df ∅) c = default None (column_dtype df c).
Proof. by rewrite padded_df_empty. Qed.

Lemma concat_dtype_missing df missing c :
  "EntryTime" ∈ columns df -> missing <> ∅ ->
  concat_dtype df (padded_df missing) c =
  joint_dtype (column_dtype df c) (column_dtype (padded_df missing) c).
Proof.
  intros Hdf Hm. unfold concat_dtype.
  rewrite (zero_shape_false (padded_df missing) "EntryTime").
  - by rewrite (zero_shape_false df "EntryTime").
  - rewrite columns_padded_df by done. apply list_elem_of_here.
Qed.

Lemma columns_appended df missing :
  columns (appended df missing) =
  if decide (missing = ∅) then columns df
  else columns df ++ list_difference placeholder_columns (columns df).
Proof.
  unfold appended. rewrite columns_concat. case_decide as Hm.
  - rewrite Hm, padded_df_empty. cbn [columns list_difference].
    by rewrite app_nil_r.
  - by rewrite columns_padded_df.
Qed.

Lemma rows_appended df missing :
  rows (appended df missing) =
  (input_row df missing <$> rows df) ++
  (placeholder_row df missing <$> elements missing).
Proof.
  unfold appended at 1. rewrite rows_concat. f_equal.
  rewrite rows_padded_df, <- list_fmap_compose. done.
Qed.

(** The cells of an input row in the table before the sort: an integer of
    a column of integers that the placeholders lack becomes a float, every
    other cell stays what it is. *)
Lemma input_row_cell df missing (r : Row) c :
  "EntryTime" ∈ columns df -> r ∈ rows df -> c ∈ columns df ->
  cell c (input_row df missing r) =
  if decide (upcasts df missing c) then astype (Some float64) (cell c r)
  else cell c r.
Proof.
  intros Het Hr Hc. unfold input_row.
  rewrite cell_conform by (done || by apply columns_concat_l).
  pose proof (column_elem df c r Hr) as Hv.
  destruct (decide (missing = ∅)) as [->|Hm].
  { rewrite decide_False by (by intros [? _]).
    rewrite concat_dtype_nothing_missing, column_dtype_present by done.
    by apply astype_own. }
  rewrite concat_dtype_missing, (column_dtype_present df) by done.
  destruct (decide (c ∈ placeholder_columns)) as [Hp|Hp].
  { rewrite decide_False by (by intros (_ & ? & _)).
    destruct (elements missing) as [|t l] eqn:Hl;
      [by apply elements_missing_nil in Hl|].
    rewrite (column_dtype_padded_df missing t) by done.
    apply astype_common; [done|apply placeholder_cell_not_float]. }
  rewrite column_dtype_lacking by (by rewrite columns_padded_df).
  destruct (infer_dtype_Some _ _ Hv) as [d Hd]. rewrite Hd.
  cbn [joint_dtype fmap option_fmap option_map].
  case_decide as Hup.
  - destruct Hup as (_ & _ & Hint). rewrite Hint in Hd. by injection Hd as <-.
  - destruct (decide (d = int64)) as [->|Hne]; [by destruct Hup|].
    destruct (decide (d = float64)) as [->|Hnf].
    + apply astype_not_int, dtype_of_float. by apply (infer_dtype_elem _ _ _ Hd).
    + apply astype_not_float. destruct d; simpl; congruence.
Qed.

Lemma input_row_lookup df missing (r : Row) c :
  c ∈ columns df ->
  input_row df missing r !! c =
  Some (cell c (input_row df missing r)).
Proof.
  intros Hc. unfold input_row, cell at 1. rewrite conform_lookup.
  by rewrite decide_True by (by apply columns_concat_l).
Qed.

(** The cells of a placeholder in the table before the sort. *)
Lemma placeholder_row_lookup df missing t c :
  missing <> ∅ -> c ∈ placeholder_columns ->
  placeholder_row df missing t !! c =
  Some (astype (concat_dtype df (padded_df missing) c) (placeholder_cell t c)).
Proof.
  intros Hm Hc. unfold placeholder_row. rewrite conform_lookup.
  rewrite (columns_padded_df missing Hm).
  rewrite decide_True.
  - rewrite decide_True by done. by rewrite cell_placeholder.
  - rewrite columns_appended, decide_False by done.
    destruct (decide (c ∈ columns df)).
    + apply elem_of_app. by left.
    + apply elem_of_app. right. by apply list_elem_of_difference.
Qed.

Lemma placeholder_row_lookup_other df missing t c :
  missing <> ∅ -> c ∈ columns (appended df missing) -> c ∉ placeholder_columns ->
  exists v, placeholder_row df missing t !! c = Some v /\ isna v = true.
Proof.
  intros Hm Hc Hnot. unfold placeholder_row. rewrite conform_lookup.
  rewrite (columns_padded_df missing Hm).
  rewrite decide_True, decide_False by done.
  eexists. split; [done|]. apply isna_na_value.
Qed.

Lemma placeholder_row_EntryTime df missing t :
  missing <> ∅ -> placeholder_row df missing t !! "EntryTime" = Some (VTime t).
Proof.
  intros Hm. rewrite placeholder_row_lookup by (done || apply list_elem_of_here).
  by rewrite astype_not_int.
Qed.

Lemma placeholder_row_text df missing t c :
  missing <> ∅ -> c ∈ text_columns ->
  placeholder_row df missing t !! c = Some (VStr "").
Proof.
  intros Hm Hc.
  assert (Hcell : placeholder_cell t c = VStr "" /\ c ∈ placeholder_columns).
  { unfold text_columns, payload_columns, number_columns in Hc.
    vm_compute in Hc.
    repeat (apply elem_of_cons in Hc as [->|Hc];
            [split; vm_compute; repeat constructor|]).
    by apply elem_of_nil in Hc. }
  destruct Hcell as [Hcell Hp]. rewrite placeholder_row_lookup by done.
  by rewrite Hcell, astype_not_int.
Qed.

(** The number 0 of a placeholder is the integer 0 or the float 0.0, as the
    dtype of its column has it: a float where the input table lacks the
    column, an integer where the input table holds integers in it. *)
Lemma placeholder_row_number df missing t c :
  "EntryTime" ∈ columns df -> missing <> ∅ -> c ∈ number_columns ->
  (placeholder_row df missing t !! c = Some (VInt 0) \/
   placeholder_row df missing t !! c = Some (VFloat 0 0)) /\
  (c ∉ columns df -> placeholder_row df missing t !! c = Some (VFloat 0 0)) /\
  (c ∈ columns df -> infer_dtype (column df c) = Some int64 ->
   placeholder_row df missing t !! c = Some (VInt 0)).
Proof.
  intros Het Hm Hc.
  assert (Hcell : placeholder_cell t c = VInt 0 /\ c ∈ placeholder_columns).
  { unfold number_columns in Hc.
    repeat (apply elem_of_cons in Hc as [->|Hc];
            [split; vm_compute; repeat constructor|]).
    by apply elem_of_nil in Hc. }
  destruct Hcell as [Hcell Hp]. rewrite placeholder_row_lookup by done.
  rewrite Hcell. split; [|split].
  - destruct (concat_dtype _ _ _) as [[]|]; simpl; auto.
  - intros Hdf. rewrite concat_dtype_missing by done.
    rewrite (column_dtype_lacking df) by done.
    rewrite (column_dtype_padded_df missing t) by done. by rewrite Hcell.
  - intros Hdf Hint. rewrite concat_dtype_missing by done.
    rewrite (column_dtype_present df), Hint by done.
    rewrite (column_dtype_padded_df missing t) by done. by rewrite Hcell.
Qed.

Lemma column_appended df ts missing :
  "EntryTime" ∈ columns df ->
  column df "EntryTime" = VTime <$> ts ->
  column (appended df missing) "EntryTime" = VTime <$> (ts ++ elements missing).
Proof.
  intros Het Hdf. unfold column. rewrite rows_appended, !fmap_app. f_equal.
  - rewrite <- list_fmap_compose. unfold column in Hdf. rewrite <- Hdf.
    apply list_fmap_ext. intros i r Hi. unfold compose, input_row.
    rewrite cell_conform by (done || by apply columns_concat_l).
    apply astype_not_int. intros n Hn.
    apply (f_equal (fun l => l !! i)) in Hdf.
    rewrite !list_lookup_fmap, Hi in Hdf. simpl in Hdf.
    destruct (ts !! i); simpl in Hdf; [|done]. congruence.
  - rewrite <- list_fmap_compose. apply list_fmap_ext. intros i t Hi.
    unfold compose. apply cell_Some, placeholder_row_EntryTime.
    intros Hm. rewrite Hm, elements_empty in Hi. done.
Qed.

(** The sort succeeds on a datetime column, and its result is a sorted
    rearrangement of the rows. *)
Lemma sort_values_datetime df c keys :
  c ∈ columns df -> column df c = VTime <$> keys ->
  exists out keys',
    sort_values df c = Ok out /\
    columns out = columns df /\
    rows out ≡ₚ rows df /\
    column out c = VTime <$> keys' /\
    keys' ≡ₚ keys /\
    Sorted Timestamp_le keys'.
Proof.
  intros Hc Hcol. unfold sort_values.
  rewrite getitem_Ok by done. cbn [bind]. rewrite Hcol, traverse_as_time.
  cbn [bind]. set (l := zip keys (rows df)).
  assert (Hlen : length keys = length (rows df)).
  { apply (f_equal length) in Hcol. unfold column in Hcol.
    by rewrite !length_fmap in Hcol. }
  exists (Frame (columns df) (merge_sort key_le l).*2), (merge_sort key_le l).*1.
  split; [done|]. split; [done|]. cbn [rows].
  assert (Hperm : merge_sort key_le l ≡ₚ l) by apply merge_sort_Permutation.
  split; [|split; [|split]].
  - rewrite Hperm. unfold l. rewrite snd_zip by lia. done.
  - unfold column. cbn [rows]. rewrite <- !list_fmap_compose.
    apply list_fmap_ext. intros i [k r] Hi. simpl.
    assert (Hin : (k, r) ∈ l).
    { rewrite <- Hperm. by eapply list_elem_of_lookup_2. }
    apply list_elem_of_lookup in Hin as [j Hj]. unfold l in Hj.
    apply lookup_zip_with_Some in Hj as (k' & r' & [= <- <-] & Hk & Hr).
    unfold column in Hcol. apply (f_equal (fun x => x !! j)) in Hcol.
    rewrite !list_lookup_fmap, Hk, Hr in Hcol. by injection Hcol.
  - rewrite Hperm. unfold l. by rewrite fst_zip by lia.
  - apply (Sorted_fmap _ key_le Timestamp_le); [done|].
    apply (Sorted_merge_sort key_le).
Qed.

(** What a call returns when every cell denotes a timestamp. *)
Lemma pad_entry_times_Ok start_date end_date df master lo hi grid ts :
  to_datetime (VStr start_date) = Ok lo ->
  to_datetime (VStr end_date) = Ok hi ->
  getitem master "SpxDayTime" = Ok (column master "SpxDayTime") ->
  traverse to_datetime (column master "SpxDayTime") = Ok grid ->
  getitem df "EntryTime" = Ok (column df "EntryTime") ->
  traverse to_datetime (column df "EntryTime") = Ok ts ->
  let df' := normalised df "EntryTime" ts in
  let missing := missing_entry_times lo hi grid ts in
  exists out keys,
    pad_entry_times start_date end_date (Objects df master) =
      (Ok out, Objects df' master) /\
    columns out = columns (appended df' missing) /\
    rows out ≡ₚ rows (appended df' missing) /\
    entry_times out = Ok keys /\
    keys ≡ₚ ts ++ elements missing /\
    Sorted Timestamp_le keys.
Proof.
  intros Hlo Hhi Hmaster Hgrid Hdf Hts df' missing.
  rewrite (pad_entry_times_run _ _ _ _ lo hi grid ts) by done.
  fold df' missing.
  assert (Hcol : column df' "EntryTime" = VTime <$> ts).
  { apply column_setitem. rewrite length_fmap, (traverse_length _ _ _ Hts).
    apply length_fmap. }
  destruct (sort_values_datetime (appended df' missing) "EntryTime"
              (ts ++ elements missing))
    as (out & keys & Hsort & Hcols & Hrows & Hkeys & Hperm & Hsorted).
  { apply columns_concat_l, columns_setitem. }
  { apply column_appended; [apply columns_setitem|done]. }
  exists out, keys. rewrite Hsort. repeat split; try done.
  unfold entry_times. rewrite Hkeys. apply traverse_as_time.
Qed.

Lemma pad_entry_times_Ok_inv start_date end_date df master out o' :
  pad_entry_times start_date end_date (Objects df master) = (Ok out, o') ->
  exists lo hi grid ts,
    to_datetime (VStr start_date) = Ok lo /\
    to_datetime (VStr end_date) = Ok hi /\
    getitem master "SpxDayTime" = Ok (column master "SpxDayTime") /\
    traverse to_datetime (column master "SpxDayTime") = Ok grid /\
    getitem df "EntryTime" = Ok (column df "EntryTime") /\
    traverse to_datetime (column df "EntryTime") = Ok ts.
Proof.
  unfold pad_entry_times, bindM, lift, get_df, get_master, put_df,
    put_master, ret; simpl.
  destruct (to_datetime (VStr start_date)) as [lo|]; [|done].
  destruct (to_datetime (VStr end_date)) as [hi|]; [|done].
  destruct (getitem master _) as [col|] eqn:Hmaster; [|done].
  apply getitem_Ok_inv in Hmaster as Hcol. destruct Hcol as [Hinm ->]. simpl.
  destruct (to_datetime_series (column master _)) as [gcells|] eqn:Hgcells;
    [|done]. simpl.
  destruct (traverse as_time gcells) as [grid|] eqn:Hgrid; [|done].
  destruct (getitem df _) as [col|] eqn:Hdf; [|done].
  apply getitem_Ok_inv in Hdf as Hcol. destruct Hcol as [Hind ->]. simpl.
  destruct (to_datetime_series (column df _)) as [cells|] eqn:Hcells; [|done].
  simpl. rewrite getitem_Ok by apply columns_setitem.
  rewrite column_setitem.
  2:{ rewrite (to_datetime_series_length _ _ Hcells). apply length_fmap. }
  destruct (traverse as_time cells) as [ts|] eqn:Hts; [|done].
  intros _. exists lo, hi, grid, ts. do 3 (split; [done|]).
  split; [by eapply to_datetime_series_as_time|]. split; [done|].
  by eapply to_datetime_series_as_time.
Qed.

(** The grid is read, never assigned to; the table is assigned the parsed
    column, or not reached. *)
Lemma pad_entry_times_objects start_date end_date df master res o' :
  pad_entry_times start_date end_date (Objects df master) = (res, o') ->
  obj_master o' = master /\
  (obj_df o' = df \/ parsed_in_place "EntryTime" df (obj_df o')).
Proof.
  unfold pad_entry_times, bindM, lift, get_df, get_master, put_df,
    put_master, ret; simpl.
  destruct (to_datetime (VStr start_date)) as [lo|]; [|intros [= <- <-]; auto].
  destruct (to_datetime (VStr end_date)) as [hi|]; [|intros [= <- <-]; auto].
  destruct (getitem master _) as [col|]; [|intros [= <- <-]; auto]. simpl.
  destruct (to_datetime_series col) as [gcells|]; [|intros [= <- <-]; auto].
  simpl.
  destruct (traverse as_time gcells) as [grid|]; [|intros [= <- <-]; auto].
  destruct (getitem df _) as [col'|] eqn:Hdf; [|intros [= <- <-]; auto].
  apply getitem_Ok_inv in Hdf as [Hdf ->]. simpl.
  destruct (to_datetime_series (column df _)) as [cells|] eqn:Hcells;
    [|intros [= <- <-]; auto].
  simpl. pose proof (setitem_parsed_in_place _ _ _ Hdf Hcells) as Hp.
  repeat case_match; intros [= <- <-]; simpl; auto.
Qed.

Lemma pad_entry_times_master start_date end_date df master res o' :
  pad_entry_times start_date end_date (Objects df master) = (res, o') ->
  obj_master o' = master.
Proof. by intros [? _]%pad_entry_times_objects. Qed.

Lemma elem_of_in_window lo hi l t :
  t ∈ in_window lo hi l <-> in_dates lo hi t /\ t ∈ l.
Proof. unfold in_window. by rewrite elem_of_filter, elem_of_list_to_set. Qed.

Lemma elem_of_missing_entry_times lo hi grid ts t :
  t ∈ missing_entry_times lo hi grid ts <->
  t ∈ in_window lo hi grid /\ t ∉ ts.
Proof.
  unfold missing_entry_times. rewrite elem_of_difference, !elem_of_in_window.
  tauto.
Qed.

Lemma upcasts_normalised df ts missing c :
  length ts = length (rows df) -> c <> "EntryTime" ->
  upcasts (normalised df "EntryTime" ts) missing c <-> upcasts df missing c.
Proof.
  intros Hlen Hne. unfold upcasts, normalised.
  rewrite column_setitem_ne; [done|done|by rewrite length_fmap].
Qed.

Lemma not_upcasts_placeholder_column df missing c :
  c ∈ placeholder_columns -> ~ upcasts df missing c.
Proof. by intros Hc (_ & ? & _). Qed.

(** The input rows in the table before the sort, one for one. *)
Lemma appended_input_rows df ts missing :
  "EntryTime" ∈ columns df ->
  traverse to_datetime (column df "EntryTime") = Ok ts ->
  let df' := normalised df "EntryTime" ts in
  Forall2 (fun r r' : Row =>
             (exists t, to_datetime (cell "EntryTime" r) = Ok t /\
                        r' !! "EntryTime" = Some (VTime t)) /\
             (forall c, c ∈ columns df -> c <> "EntryTime" ->
                r' !! c = Some (if decide (upcasts df missing c)
                                then astype (Some float64) (cell c r)
                                else cell c r)) /\
             (forall c, c ∉ columns df -> isna (cell c r') = true))
          (rows df) (input_row df' missing <$> rows df').
Proof.
  intros Het Hts df'.
  assert (Hlen : length ts = length (rows df)).
  { rewrite (traverse_length _ _ _ Hts). apply length_fmap. }
  assert (Hcols : columns df' = columns df) by (by apply columns_setitem_present).
  destruct (normalised_parsed_in_place df "EntryTime" ts Het Hts) as [_ Hp].
  fold df' in Hp. apply Forall2_fmap_r, Forall2_same_length_lookup.
  split; [by eapply Forall2_length|]. intros i r r0 Hr Hr0.
  destruct (Forall2_lookup_lr _ _ _ _ _ _ Hp Hr Hr0) as (v & Hv & ->).
  apply traverse_Forall2 in Hts. unfold column in Hts.
  apply Forall2_fmap_l in Hts.
  destruct (Forall2_lookup_l _ _ _ i r Hts Hr) as (t & Ht & Hrt).
  rewrite (to_datetime_cell_Ok _ _ Hrt) in Hv. injection Hv as <-.
  assert (Hin : <["EntryTime" := VTime t]> r ∈ rows df')
    by (by eapply list_elem_of_lookup_2).
  split; [|split].
  - exists t. split; [done|].
    rewrite input_row_lookup by (by rewrite Hcols).
    rewrite input_row_cell by (done || by rewrite Hcols).
    rewrite decide_False
      by (apply not_upcasts_placeholder_column, list_elem_of_here).
    f_equal. apply cell_Some, lookup_insert_eq.
  - intros c Hc Hne.
    rewrite input_row_lookup by (by rewrite Hcols).
    rewrite input_row_cell by (done || by rewrite Hcols).
    f_equal.
    replace (cell c (<["EntryTime" := VTime t]> r)) with (cell c r)
      by (unfold cell; by rewrite lookup_insert_ne).
    apply decide_ext. by apply upcasts_normalised.
  - intros c Hnot. unfold input_row, cell. rewrite conform_lookup.
    case_decide; [|done]. rewrite decide_False by (by rewrite Hcols).
    apply isna_na_value.
Qed.

(** The placeholders in the table before the sort. *)
Lemma appended_placeholder df missing t :
  "EntryTime" ∈ columns df -> t ∈ missing ->
  let r := placeholder_row df missing t in
  r !! "EntryTime" = Some (VTime t) /\
  (forall c, c ∈ text_columns -> r !! c = Some (VStr "")) /\
  (forall c, c ∈ number_columns ->
     (r !! c = Some (VInt 0) \/ r !! c = Some (VFloat 0 0)) /\
     (c ∉ columns df -> r !! c = Some (VFloat 0 0)) /\
     (c ∈ columns df -> infer_dtype (column df c) = Some int64 ->
      r !! c = Some (VInt 0))) /\
  is_zero (cell "TradeID" r) = true /\
  (forall c, c ∈ columns (appended df missing) -> c ∉ placeholder_columns ->
     exists v, r !! c = Some v /\ isna v = true).
Proof.
  intros Het Ht r. subst r. assert (Hm : missing <> ∅) by set_solver.
  split; [by apply placeholder_row_EntryTime|].
  split; [intros c Hc; by apply placeholder_row_text|].
  split; [intros c Hc; by apply placeholder_row_number|]. split.
  - destruct (placeholder_row_number df missing t "TradeID" Het Hm)
      as [[Hz|Hz] _]; [apply list_elem_of_here|..];
      by rewrite (cell_Some _ _ _ Hz).
  - intros c Hc Hnot. by apply placeholder_row_lookup_other.
Qed.

End padding_stage.

(** ** The Grid Generator *)

Section grid_generator.

Context `{Externals}.

Lemma Timestamp_gtb_spec a b : Timestamp_gtb a b = true <-> ~ Timestamp_le a b.
Proof.
  unfold Timestamp_gtb, Timestamp_le, Timestamp_leb.
  destruct (Timestamp_compare a b); split; try done; by intros [].
Qed.

Lemma Timestamp_gtb_false a b : Timestamp_gtb a b = false <-> Timestamp_le a b.
Proof.
  unfold Timestamp_gtb, Timestamp_le, Timestamp_leb.
  by destruct (Timestamp_compare a b).
Qed.

(** For the dates a calendar has, the year alone decides the supported
    window. *)
Lemma supported_year d :
  valid_date d -> supported d <-> 2023 <= year d <= 2025.
Proof.
  intros [Hm Hd]. unfold supported. rewrite !date_le_fields. simpl. lia.
Qed.

Lemma Timestamp_le_year a b : Timestamp_le a b -> year (ts_date a) <= year (ts_date b).
Proof. intros Hab%Timestamp_le_date. apply date_le_fields in Hab. lia. Qed.

Lemma generate_master_trading_day_list_unfold s e cfg sd ed :
  load_config = Ok cfg -> strptime s = Ok sd -> strptime e = Ok ed ->
  generate_master_trading_day_list s e =
    if Timestamp_gtb sd ed then Raise InvalidRangeError
    else if (year (ts_date sd) <? 2023) || (year (ts_date ed) >? 2025)
    then Raise UnsupportedRangeError
    else build_trading_days cfg sd ed.
Proof.
  intros Hcfg Hs He. unfold generate_master_trading_day_list.
  by rewrite Hcfg, Hs, He.
Qed.

Lemma day_entries_length vt day l :
  day_entries vt day = Ok l -> length l = length vt.
Proof. apply traverse_length. Qed.

Lemma trading_days_length ec sh vt days per_day :
  traverse (fun day =>
              if bool_decide (ts_date day ∉ ec) && bool_decide (ts_date day ∉ sh)
              then day_entries vt day else Ok []) days = Ok per_day ->
  length (mjoin per_day) =
  (length (filter (fun day => ~ excluded ec sh day) days) * length vt)%nat.
Proof.
  revert per_day; induction days as [|day days IH]; intros per_day; simpl.
  - by intros [= <-].
  - destruct (bool_decide (ts_date day ∉ ec) && bool_decide (ts_date day ∉ sh))
      eqn:Hday.
    + destruct (day_entries vt day) as [l|] eqn:Hl; [|done].
      destruct (traverse _ days) as [ls|] eqn:Hls; [|done].
      intros [= <-]. simpl. rewrite length_app, (IH ls), (day_entries_length _ _ _ Hl) by done.
      rewrite filter_cons_True; [done|].
      apply andb_true_iff in Hday as [?%bool_decide_eq_true ?%bool_decide_eq_true].
      unfold excluded. tauto.
    + destruct (traverse _ days) as [ls|] eqn:Hls; [|done].
      intros [= <-]. simpl. rewrite (IH ls) by done.
      rewrite filter_cons_False; [done|].
      apply andb_false_iff in Hday as [Hd|Hd]; apply bool_decide_eq_false in Hd;
        unfold excluded; intros Hn; apply Hn; [left|right];
        by apply dec_stable.
Qed.

Lemma length_filter_excluded ec sh (days : list Timestamp) :
  length (filter (fun day => ~ excluded ec sh day) days) =
  (length days - length (filter (excluded ec sh) days))%nat.
Proof.
  induction days as [|day days IH]; [done|].
  destruct (decide (excluded ec sh day)) as [Hx|Hx].
  - rewrite filter_cons_False by tauto. rewrite filter_cons_True by done.
    simpl. done.
  - rewrite filter_cons_True by done. rewrite filter_cons_False by done.
    simpl. rewrite IH.
    pose proof (length_filter (excluded ec sh) days). lia.
Qed.

End grid_generator.

(** * The claims of the specification *)

Section filter_helpers.

Context `{Externals}.

Lemma filter_Forall_id {A} (P : A -> Prop) `{forall x, Decision (P x)} l :
  Forall P l -> filter P l = l.
Proof.
  induction 1 as [|x l Hx _ IH]; [done|].
  by rewrite filter_cons_True, IH.
Qed.

Lemma Forall_rows_normalised (P : Timestamp -> Prop) df c ts :
  Forall P ts ->
  Forall (fun r : Row => exists t, r !! c = Some (VTime t) /\ P t)
         (rows (normalised df c ts)).
Proof.
  rewrite rows_normalised. intros Hts. revert df.
  generalize dependent ts. intros ts Hts df. generalize (rows df) as rs.
  induction Hts as [|t ts Ht _ IH]; intros [|r rs]; simpl; constructor.
  - exists t. by rewrite lookup_insert_eq.
  - apply IH.
Qed.

Lemma normalised_eta df c ts :
  c ∈ columns df ->
  normalised df c ts = Frame (columns df) (rows (normalised df c ts)).
Proof.
  intros Hc. unfold normalised, setitem. cbn [rows]. by rewrite decide_True.
Qed.

End filter_helpers.

Section claims.

Context `{Externals}.

(** C2. For a window with start_date <= end_date inside the supported range,
    the grid the generator builds has (number of sessions the calendar
    reports minus the sessions among them that the configuration excludes)
    times (number of configured intraday times) rows.  The generator does
    return a grid whenever the calendar answers and the entries of the
    configuration are well formed. *)
Theorem generate_master_trading_day_list_cardinality s e cfg sd ed days ec sh :
  load_config = Ok cfg -> strptime s = Ok sd -> strptime e = Ok ed ->
  Timestamp_le sd ed -> supported (ts_date sd) -> supported (ts_date ed) ->
  valid_days sd ed = Ok days ->
  parse_days (early_close_days cfg) = Ok ec ->
  parse_days (special_holidays cfg) = Ok sh ->
  Forall (fun t => exists t', time_fromisoformat (t +:+ ":00") = Ok t')
         (valid_times cfg) ->
  exists grid,
    generate_master_trading_day_list s e = Ok grid /\
    length (rows grid) =
    ((length days - length (filter (excluded ec sh) days)) *
     length (valid_times cfg))%nat.
Proof.
  intros Hcfg Hs He Hle Hsd Hed Hdays Hec Hsh Htimes.
  rewrite (generate_master_trading_day_list_unfold s e cfg sd ed) by done.
  destruct (strptime_valid _ _ Hs) as [_ Hvs].
  destruct (strptime_valid _ _ He) as [_ Hve].
  apply supported_year in Hsd; [|done]. apply supported_year in Hed; [|done].
  apply Timestamp_gtb_false in Hle. rewrite Hle.
  replace (year (ts_date sd) <? 2023) with false by (symmetry; apply Z.ltb_ge; lia).
  replace (year (ts_date ed) >? 2025) with false
    by (symmetry; rewrite Z.gtb_ltb; apply Z.ltb_ge; lia).
  simpl. unfold build_trading_days. rewrite Hdays, Hec, Hsh. cbn [bind].
  assert (Hloop : exists per_day,
    traverse (fun day =>
                if bool_decide (ts_date day ∉ ec) && bool_decide (ts_date day ∉ sh)
                then day_entries (valid_times cfg) day else Ok []) days
    = Ok per_day).
  { apply traverse_total. apply Forall_forall. intros day _.
    destruct (_ && _); [|by eexists].
    apply traverse_total. eapply Forall_impl; [exact Htimes|].
    intros t [t' Ht]. rewrite Ht. by eexists. }
  destruct Hloop as [per_day Hloop]. rewrite Hloop. cbn [bind].
  eexists. split; [done|]. cbn [rows]. rewrite length_fmap.
  rewrite (trading_days_length _ _ _ _ _ Hloop).
  by rewrite length_filter_excluded.
Qed.

(** C7 (as amended). With the two dates parsed: when start_date > end_date
    the generator raises the invalid-range error and builds no grid, whatever
    the years are; when start_date <= end_date and one of the dates lies
    outside the supported window it raises the unsupported-range error; when
    start_date <= end_date and both dates lie in the supported window neither
    check fails and the result is that of building the grid. *)
Theorem generate_master_trading_day_list_range_errors s e cfg sd ed :
  load_config = Ok cfg -> strptime s = Ok sd -> strptime e = Ok ed ->
  (~ Timestamp_le sd ed ->
   generate_master_trading_day_list s e = Raise InvalidRangeError) /\
  (Timestamp_le sd ed ->
   ~ (supported (ts_date sd) /\ supported (ts_date ed)) ->
   generate_master_trading_day_list s e = Raise UnsupportedRangeError) /\
  (Timestamp_le sd ed -> supported (ts_date sd) -> supported (ts_date ed) ->
   generate_master_trading_day_list s e = build_trading_days cfg sd ed).
Proof.
  intros Hcfg Hs He.
  rewrite (generate_master_trading_day_list_unfold s e cfg sd ed) by done.
  destruct (strptime_valid _ _ Hs) as [_ Hvs].
  destruct (strptime_valid _ _ He) as [_ Hve].
  rewrite !supported_year by done.
  split; [|split].
  - intros Hgt%Timestamp_gtb_spec. by rewrite Hgt.
  - intros Hle Hout. pose proof (Timestamp_le_year _ _ Hle).
    apply Timestamp_gtb_false in Hle. rewrite Hle.
    destruct (year (ts_date sd) <? 2023) eqn:H1; [done|].
    destruct (year (ts_date ed) >? 2025) eqn:H2; [done|].
    apply Z.ltb_ge in H1. rewrite Z.gtb_ltb in H2. apply Z.ltb_ge in H2. lia.
  - intros Hle%Timestamp_gtb_false H1 H2. rewrite Hle.
    replace (year (ts_date sd) <? 2023) with false
      by (symmetry; apply Z.ltb_ge; lia).
    by replace (year (ts_date ed) >? 2025) with false
      by (symmetry; rewrite Z.gtb_ltb; apply Z.ltb_ge; lia).
Qed.

(** C10. With start_date <= end_date, the supported-range check looks at the
    years only: it rejects exactly when the year of start_date is before 2023
    or the year of end_date is after 2025, and so accepts exactly the windows
    with both dates from 2023-01-01 to 2025-12-31. *)
Theorem generate_master_trading_day_list_year_check s e cfg sd ed :
  load_config = Ok cfg -> strptime s = Ok sd -> strptime e = Ok ed ->
  Timestamp_le sd ed ->
  (year (ts_date sd) < 2023 \/ 2025 < year (ts_date ed) ->
   generate_master_trading_day_list s e = Raise UnsupportedRangeError) /\
  (~ (year (ts_date sd) < 2023 \/ 2025 < year (ts_date ed)) ->
   generate_master_trading_day_list s e = build_trading_days cfg sd ed) /\
  (~ (year (ts_date sd) < 2023 \/ 2025 < year (ts_date ed)) <->
   supported (ts_date sd) /\ supported (ts_date ed)).
Proof.
  intros Hcfg Hs He Hle.
  rewrite (generate_master_trading_day_list_unfold s e cfg sd ed) by done.
  destruct (strptime_valid _ _ Hs) as [_ Hvs].
  destruct (strptime_valid _ _ He) as [_ Hve].
  rewrite !supported_year by done.
  pose proof (Timestamp_le_year _ _ Hle).
  apply Timestamp_gtb_false in Hle. rewrite Hle.
  rewrite Z.gtb_ltb.
  destruct (Z.ltb_spec (year (ts_date sd)) 2023),
    (Z.ltb_spec 2025 (year (ts_date ed))); simpl;
    (split; [|split]); try done; try lia; intros; lia.
Qed.

(** C3. The Filter Stage returns exactly the records whose timestamp lies in
    the closed interval from start_date 00:00:00 to end_date 23:59:59, both
    ends included, and is equal, as a full timestamp, to a timestamp of the
    grid; the records kept come in the order of the input.  The records are
    the rows of the input table with their timestamps parsed, which is the
    input table as the call leaves it; a record without a timestamp lies in
    no interval and is not returned.  The timestamps of the grid are those
    its column holds once parsed, which are the timestamps its cells denote
    when every cell denotes one. *)
Theorem filter_early_close_data_exact start_date end_date df master out o' :
  filter_early_close_data start_date end_date (Objects df master) = (Ok out, o') ->
  exists lo hi gcells,
    to_datetime (VStr (start_date +:+ " 00:00:00")) = Ok lo /\
    to_datetime (VStr (end_date +:+ " 23:59:59")) = Ok hi /\
    to_datetime_series (column master "SpxDayTime") = Ok gcells /\
    (forall grid, traverse to_datetime (column master "SpxDayTime") = Ok grid ->
                  timestamps gcells = grid) /\
    parsed_in_place "EntryTime" df (obj_df o') /\
    rows out = filter (kept lo hi (timestamps gcells)) (rows (obj_df o')) /\
    (forall r, r ∈ rows out <->
               r ∈ rows (obj_df o') /\ kept lo hi (timestamps gcells) r) /\
    sublist (rows out) (rows (obj_df o')).
Proof.
  intros Hrun.
  destruct (filter_early_close_data_Ok_inv _ _ _ _ _ _ Hrun)
    as (lo & hi & cells & gcells & Hlo & Hhi & Hdf & Hts & Hmaster & Hgrid).
  rewrite (filter_early_close_data_run_series _ _ _ _ lo hi cells gcells)
    in Hrun by done.
  injection Hrun as <- <-. cbn [obj_df rows].
  exists lo, hi, gcells. do 3 (split; [done|]). split.
  { intros grid Hg%to_datetime_series_Ok. rewrite Hgrid in Hg.
    injection Hg as ->. apply timestamps_fmap. }
  split; [by apply setitem_parsed_in_place|].
  split; [done|]. split.
  - intros r. rewrite list_elem_of_filter. tauto.
  - apply sublist_filter.
Qed.

(** C8. On a table whose timestamps all lie in the window and on the grid,
    the Filter Stage removes nothing: it returns the input table, every
    record with its payload and in its place, with the timestamps parsed
    (the input table as the call leaves it); on a table whose timestamps are
    parsed already the output equals the input. *)
Theorem filter_early_close_data_noop start_date end_date df master lo hi ts grid :
  to_datetime (VStr (start_date +:+ " 00:00:00")) = Ok lo ->
  to_datetime (VStr (end_date +:+ " 23:59:59")) = Ok hi ->
  getitem df "EntryTime" = Ok (column df "EntryTime") ->
  traverse to_datetime (column df "EntryTime") = Ok ts ->
  getitem master "SpxDayTime" = Ok (column master "SpxDayTime") ->
  traverse to_datetime (column master "SpxDayTime") = Ok grid ->
  Forall (fun t => Timestamp_le lo t /\ Timestamp_le t hi /\ t ∈ grid) ts ->
  exists out o',
    filter_early_close_data start_date end_date (Objects df master) = (Ok out, o') /\
    out = obj_df o' /\
    parsed_in_place "EntryTime" df out /\
    (datetime_column "EntryTime" df -> out = df).
Proof.
  intros Hlo Hhi Hdf Hts Hmaster Hgrid Hall.
  rewrite (filter_early_close_data_run _ _ _ _ lo hi ts grid) by done.
  apply getitem_Ok_inv in Hdf as [Hdf _].
  assert (Hid : Frame (columns df)
                  (filter (kept lo hi grid) (rows (normalised df "EntryTime" ts)))
                = normalised df "EntryTime" ts).
  { rewrite (normalised_eta df "EntryTime" ts) at 2 by done. f_equal.
    apply filter_Forall_id.
    eapply Forall_impl; [by apply Forall_rows_normalised|].
    intros r (t & Hr & Ht). unfold kept. by rewrite Hr. }
  rewrite Hid. eexists _, _. split; [done|]. cbn [obj_df].
  split; [done|].
  assert (Hp : parsed_in_place "EntryTime" df (normalised df "EntryTime" ts))
    by (by apply normalised_parsed_in_place).
  split; [done|]. intros [_ Hcells].
  by apply (parsed_in_place_datetime "EntryTime").
Qed.

(** C6 (as amended). The Filter Stage assigns to the timestamp column of
    each of its two arguments, and to nothing else: after a call, whatever
    its result, the input table and the grid are either untouched or have
    the cells of that column replaced by the timestamps they denote ([NaT]
    for a missing cell), with the same columns, the same rows in the same
    order and every other cell as it was; an argument whose column holds
    timestamps already is unchanged.  The Padding Stage never changes the
    grid. *)
Theorem filter_early_close_data_side_effects start_date end_date df master res o' :
  filter_early_close_data start_date end_date (Objects df master) = (res, o') ->
  (obj_df o' = df \/ parsed_in_place "EntryTime" df (obj_df o')) /\
  (obj_master o' = master \/
   parsed_in_place "SpxDayTime" master (obj_master o')) /\
  (datetime_column "EntryTime" df -> obj_df o' = df) /\
  (datetime_column "SpxDayTime" master -> obj_master o' = master) /\
  (forall res2 o2,
     pad_entry_times start_date end_date (Objects df master) = (res2, o2) ->
     obj_master o2 = master).
Proof.
  intros Hrun.
  destruct (filter_early_close_data_objects _ _ _ _ _ _ Hrun) as [Hd Hm].
  do 2 (split; [done|]). split; [|split].
  - intros [Hc Hcells]. destruct Hd as [|Hd]; [done|].
    by apply (parsed_in_place_datetime "EntryTime").
  - intros [Hc Hcells]. destruct Hm as [|Hm]; [done|].
    by apply (parsed_in_place_datetime "SpxDayTime").
  - intros res2 o2. apply pad_entry_times_master.
Qed.

(** C5. The table the Padding Stage returns is sorted by timestamp: every
    row holds a timestamp in EntryTime, and down the table the timestamps
    never decrease. *)
Theorem pad_entry_times_sorted start_date end_date df master out o' :
  pad_entry_times start_date end_date (Objects df master) = (Ok out, o') ->
  exists keys, entry_times out = Ok keys /\ Sorted Timestamp_le keys.
Proof.
  intros Hrun.
  destruct (pad_entry_times_Ok_inv _ _ _ _ _ _ Hrun)
    as (lo & hi & grid & ts & Hlo & Hhi & Hmaster & Hgrid & Hdf & Hts).
  destruct (pad_entry_times_Ok _ _ _ _ lo hi grid ts Hlo Hhi Hmaster Hgrid Hdf Hts)
    as (out' & keys & Hrun' & _ & _ & Hkeys & _ & Hsorted).
  rewrite Hrun in Hrun'. injection Hrun' as <-. by exists keys.
Qed.

(** C1 (as amended). When the timestamps of the input table are in-window
    grid timestamps and no two rows share one, as after the Filter Stage on
    a table without repeated timestamps, the timestamps of the table the
    Padding Stage returns are exactly the grid timestamps whose date lies in
    the window: each of them occurs once and nothing else occurs. *)
Theorem pad_entry_times_exactly_once start_date end_date df master lo hi grid ts :
  to_datetime (VStr start_date) = Ok lo ->
  to_datetime (VStr end_date) = Ok hi ->
  getitem master "SpxDayTime" = Ok (column master "SpxDayTime") ->
  traverse to_datetime (column master "SpxDayTime") = Ok grid ->
  getitem df "EntryTime" = Ok (column df "EntryTime") ->
  traverse to_datetime (column df "EntryTime") = Ok ts ->
  NoDup ts ->
  Forall (fun t => t ∈ in_window lo hi grid) ts ->
  exists out o',
    pad_entry_times start_date end_date (Objects df master) = (Ok out, o') /\
    exactly_once out (in_window lo hi grid).
Proof.
  intros Hlo Hhi Hmaster Hgrid Hdf Hts Hnodup Hin.
  destruct (pad_entry_times_Ok _ _ _ _ lo hi grid ts Hlo Hhi Hmaster Hgrid Hdf Hts)
    as (out & keys & Hrun & _ & _ & Hkeys & Hperm & _).
  eexists out, _. split; [exact Hrun|]. exists keys. split; [done|].
  rewrite Forall_forall in Hin. split.
  - rewrite Hperm. apply NoDup_app. split; [done|]. split.
    + intros t Ht. rewrite elem_of_elements, elem_of_missing_entry_times.
      tauto.
    + apply NoDup_elements.
  - intros t. rewrite Hperm, elem_of_app, elem_of_elements,
      elem_of_missing_entry_times.
    split; [intros [?|[? _]]; auto|].
    intros Ht. destruct (decide (t ∈ ts)); auto.
Qed.

(** X23. What the Padding Stage keeps of its input.  It removes no row and
    merges none: the table it returns consists of the input rows, one for
    one, and of one more row for each missing in-window grid timestamp, so
    its length is the input's plus the number of missing timestamps.  An
    input row keeps its timestamp, parsed, and its cells, with one
    exception: when a placeholder is appended, a column of integers that the
    placeholders do not have becomes a column of floats ([pd.concat], line
    110), and each integer in it the float nearest to it, which is the same
    number up to 2^53 in absolute value and may be another beyond.  Rows
    whose timestamp is outside the window, off the grid or repeated are rows
    like the others. *)
Theorem pad_entry_times_keeps_rows start_date end_date df master lo hi grid ts :
  to_datetime (VStr start_date) = Ok lo ->
  to_datetime (VStr end_date) = Ok hi ->
  getitem master "SpxDayTime" = Ok (column master "SpxDayTime") ->
  traverse to_datetime (column master "SpxDayTime") = Ok grid ->
  getitem df "EntryTime" = Ok (column df "EntryTime") ->
  traverse to_datetime (column df "EntryTime") = Ok ts ->
  let missing := missing_entry_times lo hi grid ts in
  exists out o' old new,
    pad_entry_times start_date end_date (Objects df master) = (Ok out, o') /\
    rows out ≡ₚ old ++ new /\
    Forall2 (fun r r' : Row =>
               (exists t, to_datetime (cell "EntryTime" r) = Ok t /\
                          r' !! "EntryTime" = Some (VTime t)) /\
               (forall c, c ∈ columns df -> c <> "EntryTime" ->
                  r' !! c = Some (if decide (upcasts df missing c)
                                  then astype (Some float64) (cell c r)
                                  else cell c r)) /\
               (forall c, c ∈ columns df -> c <> "EntryTime" ->
                  upcast (cell c r) (cell c r')))
            (rows df) old /\
    (forall n, Z.abs n <= 2 ^ 53 ->
               astype (Some float64) (VInt n) = VFloat n 0) /\
    length new = size missing /\
    length (rows out) = (length (rows df) + size missing)%nat.
Proof.
  intros Hlo Hhi Hmaster Hgrid Hdf Hts missing.
  destruct (pad_entry_times_Ok _ _ _ _ lo hi grid ts Hlo Hhi Hmaster Hgrid Hdf Hts)
    as (out & keys & Hrun & _ & Hrows & _).
  fold missing in Hrows. rewrite rows_appended in Hrows.
  apply getitem_Ok_inv in Hdf as [Hdf _].
  pose proof (appended_input_rows df ts missing Hdf Hts) as Hold.
  cbv zeta in Hold.
  eexists out, _, _, _. split; [exact Hrun|]. split; [exact Hrows|].
  assert (Hnew : forall (f : Timestamp -> Row) (X : gset Timestamp),
             length (f <$> elements X) = size X)
    by (intros; by rewrite length_fmap).
  split; [|split; [|split]].
  - eapply Forall2_impl; [exact Hold|].
    intros r r' ((t & Ht & Hr') & Hcells & _). split; [by exists t|].
    split; [done|]. intros c Hc Hne.
    rewrite (cell_Some _ _ _ (Hcells c Hc Hne)).
    case_decide; [apply astype_upcast|by left].
  - intros n Hn. simpl. by rewrite float_of_int_small.
  - apply Hnew.
  - rewrite Hrows, length_app, Hnew. f_equal.
    symmetry. by eapply Forall2_length.
Qed.

(** C4 (as amended). For each missing timestamp the table returned holds a
    placeholder: a row with that timestamp in EntryTime and a sentinel in
    every other field the code lists.  The sentinel is the number 0 in
    TradeID, ProfitLoss and ProfitLossAfterSlippage, an integer or a float
    as the dtype of the column has it (a float where the input table lacks
    the column, an integer where it holds integers), and the empty string
    in all the others, numeric ones included; a column of the input table
    beyond those holds a missing value.  The input rows keep their TradeID,
    so when no input row has TradeID 0 the rows with TradeID 0 are exactly
    the placeholders. *)
Theorem pad_entry_times_placeholders start_date end_date df master lo hi grid ts :
  to_datetime (VStr start_date) = Ok lo ->
  to_datetime (VStr end_date) = Ok hi ->
  getitem master "SpxDayTime" = Ok (column master "SpxDayTime") ->
  traverse to_datetime (column master "SpxDayTime") = Ok grid ->
  getitem df "EntryTime" = Ok (column df "EntryTime") ->
  traverse to_datetime (column df "EntryTime") = Ok ts ->
  let missing := missing_entry_times lo hi grid ts in
  exists out o' old new,
    pad_entry_times start_date end_date (Objects df master) = (Ok out, o') /\
    rows out ≡ₚ old ++ new /\
    Forall2 (fun r r' : Row =>
               "TradeID" ∈ columns df -> cell "TradeID" r' = cell "TradeID" r)
            (rows df) old /\
    Forall2 (fun t (r : Row) =>
               r !! "EntryTime" = Some (VTime t) /\
               (forall c, c ∈ text_columns -> r !! c = Some (VStr "")) /\
               (forall c, c ∈ number_columns ->
                  (r !! c = Some (VInt 0) \/ r !! c = Some (VFloat 0 0)) /\
                  (c ∉ columns df -> r !! c = Some (VFloat 0 0)) /\
                  (c ∈ columns df -> infer_dtype (column df c) = Some int64 ->
                   r !! c = Some (VInt 0))) /\
               is_zero (cell "TradeID" r) = true /\
               (forall c, c ∈ columns out -> c ∉ placeholder_columns ->
                  exists v, r !! c = Some v /\ isna v = true))
            (elements missing) new /\
    (("TradeID" ∈ columns df ->
      Forall (fun r : Row => is_zero (cell "TradeID" r) = false) (rows df)) ->
     forall r, r ∈ rows out ->
               is_zero (cell "TradeID" r) = true <-> r ∈ new).
Proof.
  intros Hlo Hhi Hmaster Hgrid Hdf Hts missing.
  destruct (pad_entry_times_Ok _ _ _ _ lo hi grid ts Hlo Hhi Hmaster Hgrid Hdf Hts)
    as (out & keys & Hrun & Hcols & Hrows & _).
  fold missing in Hrows, Hcols. rewrite rows_appended in Hrows.
  apply getitem_Ok_inv in Hdf as [Hdf _].
  set (df' := normalised df "EntryTime" ts) in *.
  assert (Hlen : length ts = length (rows df)).
  { rewrite (traverse_length _ _ _ Hts). apply length_fmap. }
  assert (Hcols' : columns df' = columns df) by (by apply columns_setitem_present).
  assert (Het : "EntryTime" ∈ columns df') by (by rewrite Hcols').
  pose proof (appended_input_rows df ts missing Hdf Hts) as Hin.
  cbv zeta in Hin. fold df' in Hin.
  assert (Hold : Forall2 (fun r r' : Row =>
                   ("TradeID" ∈ columns df -> cell "TradeID" r' = cell "TradeID" r) /\
                   ("TradeID" ∉ columns df -> isna (cell "TradeID" r') = true))
                 (rows df) (input_row df' missing <$> rows df')).
  { eapply Forall2_impl; [exact Hin|]. intros r r' (_ & Hcells & Hlack).
    split; [|by apply Hlack]. intros Hc.
    rewrite (cell_Some _ _ _ (Hcells "TradeID" Hc ltac:(done))).
    rewrite decide_False; [done|].
    apply not_upcasts_placeholder_column.
    apply list_elem_of_further, list_elem_of_here. }
  assert (Hnew : Forall2 (fun t (r : Row) =>
               r !! "EntryTime" = Some (VTime t) /\
               (forall c, c ∈ text_columns -> r !! c = Some (VStr "")) /\
               (forall c, c ∈ number_columns ->
                  (r !! c = Some (VInt 0) \/ r !! c = Some (VFloat 0 0)) /\
                  (c ∉ columns df -> r !! c = Some (VFloat 0 0)) /\
                  (c ∈ columns df -> infer_dtype (column df c) = Some int64 ->
                   r !! c = Some (VInt 0))) /\
               is_zero (cell "TradeID" r) = true /\
               (forall c, c ∈ columns out -> c ∉ placeholder_columns ->
                  exists v, r !! c = Some v /\ isna v = true))
            (elements missing) (placeholder_row df' missing <$> elements missing)).
  { apply Forall2_fmap_r, Forall_Forall2_diag, Forall_forall.
    intros t Ht%elem_of_elements.
    destruct (appended_placeholder df' missing t Het Ht)
      as (Htime & Htext & Hnum & Hzero & Hother).
    split; [done|]. split; [done|]. split; [|split; [done|]].
    - intros c Hc. destruct (Hnum c Hc) as (Hor & Hlack & Hint).
      rewrite Hcols' in Hlack, Hint. split; [done|]. split; [done|].
      intros Hcdf Hdt. apply Hint; [done|]. unfold df', normalised.
      rewrite column_setitem_ne; [done| |by rewrite length_fmap].
      intros <-. apply (bool_decide_pack _) in Hc. by vm_compute in Hc.
    - intros c Hc. apply Hother. by rewrite <- Hcols. }
  eexists out, _, _, _. split; [exact Hrun|]. split; [exact Hrows|].
  split; [by eapply Forall2_impl; [exact Hold|]; intros ?? [? _]|].
  split; [exact Hnew|].
  intros Hgen r Hr. rewrite Hrows in Hr. split.
  - intros Hz. apply elem_of_app in Hr as [Hr|Hr]; [|done]. exfalso.
    apply list_elem_of_lookup in Hr as [i Hi].
    destruct (Forall2_lookup_r _ _ _ _ _ Hold Hi) as (r0 & Hr0 & Hkeep & Hlack).
    destruct (decide ("TradeID" ∈ columns df)) as [Hc|Hc].
    + rewrite (Hkeep Hc) in Hz. specialize (Hgen Hc).
      rewrite Forall_forall in Hgen.
      rewrite Hgen in Hz; [done|]. by eapply list_elem_of_lookup_2.
    + specialize (Hlack Hc). by destruct (cell "TradeID" r).
  - intros Hn. apply list_elem_of_lookup in Hn as [i Hi].
    by destruct (Forall2_lookup_r _ _ _ _ _ Hnew Hi) as (t & _ & _ & _ & _ & ? & _).
Qed.

End claims.

(** ** The claims on concrete tables *)

Definition sessions_2023 : list Timestamp :=
  (fun d => At d midnight) <$> Sample.sessions.

Lemma generate_master_trading_day_list_cardinality_witness :
  exists grid,
    @generate_master_trading_day_list Sample.sample "2023-01-03" "2023-07-05"
      = Ok grid /\
    length (rows grid) = 15%nat.
Proof.
  destruct (@generate_master_trading_day_list_cardinality Sample.sample
              "2023-01-03" "2023-07-05" Sample.sample_config
              (At (Date 2023 1 3) midnight) (At (Date 2023 7 5) midnight)
              sessions_2023 [Date 2023 7 3; Date 2023 11 24] [Date 2025 1 9])
    as (grid & Hgrid & Hlen); try reflexivity.
  - split; reflexivity.
  - split; reflexivity.
  - repeat (constructor; [eexists; reflexivity|]). constructor.
  - exists grid. split; [exact Hgrid|]. rewrite Hlen. reflexivity.
Defined.

Lemma generate_master_trading_day_list_range_errors_witness :
  @generate_master_trading_day_list Sample.sample "2023-01-05" "2023-01-03"
    = Raise InvalidRangeError /\
  @generate_master_trading_day_list Sample.sample "2022-12-30" "2023-01-03"
    = Raise UnsupportedRangeError.
Proof.
  split.
  - apply (@generate_master_trading_day_list_range_errors Sample.sample
             "2023-01-05" "2023-01-03" Sample.sample_config
             (At (Date 2023 1 5) midnight) (At (Date 2023 1 3) midnight));
      try reflexivity.
    vm_compute. discriminate.
  - apply (@generate_master_trading_day_list_range_errors Sample.sample
             "2022-12-30" "2023-01-03" Sample.sample_config
             (At (Date 2022 12 30) midnight) (At (Date 2023 1 3) midnight));
      try reflexivity.
    vm_compute. intros [[Hs _] _]. discriminate.
Defined.

(** The claim as first stated asks for the unsupported-range error whenever
    a date lies outside the supported window.  Here the start date does, and
    the error raised is the invalid-range one. *)
Lemma generate_master_trading_day_list_invalid_first :
  ~ supported (Date 2026 1 1) /\
  @generate_master_trading_day_list Sample.sample "2026-01-01" "2022-12-31"
    = Raise InvalidRangeError /\
  @generate_master_trading_day_list Sample.sample "2026-01-01" "2022-12-31"
    <> Raise UnsupportedRangeError.
Proof.
  split; [|split].
  - vm_compute. intros [_ Hs]. discriminate.
  - reflexivity.
  - vm_compute. discriminate.
Qed.

Lemma generate_master_trading_day_list_year_check_witness :
  @generate_master_trading_day_list Sample.sample "2023-01-01" "2025-12-31"
  = @build_trading_days Sample.sample Sample.sample_config
      (At (Date 2023 1 1) midnight) (At (Date 2025 12 31) midnight).
Proof.
  apply (@generate_master_trading_day_list_year_check Sample.sample
           "2023-01-01" "2025-12-31" Sample.sample_config
           (At (Date 2023 1 1) midnight) (At (Date 2025 12 31) midnight));
    try reflexivity.
  vm_compute. intros [Hs|He]; discriminate.
Defined.

Lemma filter_early_close_data_exact_witness :
  exists lo hi gcells,
    lo = At (Date 2023 1 3) midnight /\
    hi = At (Date 2023 1 3) last_second /\
    timestamps gcells =
      [Cases.at_0103 9 33; Cases.at_0103 9 45; Cases.at_0103 10 0] /\
    rows (Cases.returned Cases.filtered) =
      filter (kept lo hi (timestamps gcells)) (rows (obj_df Cases.filtered.2)) /\
    length (rows (Cases.returned Cases.filtered)) = 2%nat.
Proof.
  destruct (@filter_early_close_data_exact Sample.sample
              "2023-01-03" "2023-01-03" Cases.trades_csv Cases.master_csv
              (Cases.returned Cases.filtered) Cases.filtered.2)
    as (lo & hi & gcells & Hlo & Hhi & Hgrid & _ & _ & Hrows & _).
  - vm_compute. reflexivity.
  - exists lo, hi, gcells.
    split; [by vm_compute in Hlo; injection Hlo|].
    split; [by vm_compute in Hhi; injection Hhi|].
    split; [by vm_compute in Hgrid; injection Hgrid as <-|].
    split; [exact Hrows|]. vm_compute. reflexivity.
Defined.

Lemma filter_early_close_data_noop_witness :
  exists out o',
    @filter_early_close_data Sample.sample "2023-01-03" "2023-01-03"
      (Objects Cases.trades_on_grid Cases.master_csv) = (Ok out, o') /\
    out = obj_df o' /\
    @parsed_in_place Sample.sample "EntryTime" Cases.trades_on_grid out /\
    (datetime_column "EntryTime" Cases.trades_on_grid ->
     out = Cases.trades_on_grid).
Proof.
  apply (@filter_early_close_data_noop Sample.sample "2023-01-03" "2023-01-03"
           Cases.trades_on_grid Cases.master_csv
           (At (Date 2023 1 3) midnight) (At (Date 2023 1 3) last_second)
           [Cases.at_0103 10 0; Cases.at_0103 9 33]
           [Cases.at_0103 9 33; Cases.at_0103 9 45; Cases.at_0103 10 0]);
    try (vm_compute; reflexivity).
  apply (bool_decide_unpack _). vm_compute. exact I.
Defined.

Lemma filter_early_close_data_side_effects_witness :
  @parsed_in_place Sample.sample "EntryTime" Cases.trades_csv
    (obj_df Cases.filtered.2) /\
  @parsed_in_place Sample.sample "SpxDayTime" Cases.master_csv
    (obj_master Cases.filtered.2) /\
  obj_master Cases.padded.2 = Cases.master_csv.
Proof.
  destruct (@filter_early_close_data_side_effects Sample.sample
              "2023-01-03" "2023-01-03" Cases.trades_csv Cases.master_csv
              Cases.filtered.1 Cases.filtered.2)
    as (Hdf & Hmaster & _ & _ & Hpad).
  - vm_compute. reflexivity.
  - split; [|split].
    + destruct Hdf as [Hdf|Hdf]; [|exact Hdf].
      apply (f_equal (fun d => column d "EntryTime")) in Hdf.
      vm_compute in Hdf. discriminate Hdf.
    + destruct Hmaster as [Hm|Hm]; [|exact Hm].
      apply (f_equal (fun d => column d "SpxDayTime")) in Hm.
      vm_compute in Hm. discriminate Hm.
    + apply (Hpad Cases.padded.1). vm_compute. reflexivity.
Defined.

(** The claim as first stated has both arguments unchanged after a call.
    On tables read from CSV files the call leaves timestamps where there
    were strings, in the input table and in the grid. *)
Lemma filter_early_close_data_assigns_in_place :
  obj_df Cases.filtered.2 <> Cases.trades_csv /\
  obj_master Cases.filtered.2 <> Cases.master_csv /\
  column Cases.master_csv "SpxDayTime" =
    [VStr "2023-01-03 09:33:00"; VStr "2023-01-03 09:45:00";
     VStr "2023-01-03 10:00:00"] /\
  column (obj_master Cases.filtered.2) "SpxDayTime" =
    [VTime (Cases.at_0103 9 33); VTime (Cases.at_0103 9 45);
     VTime (Cases.at_0103 10 0)].
Proof.
  split; [|split; [|split]].
  - intros Heq. apply (f_equal (fun d => column d "EntryTime")) in Heq.
    vm_compute in Heq. discriminate Heq.
  - intros Heq. apply (f_equal (fun d => column d "SpxDayTime")) in Heq.
    vm_compute in Heq. discriminate Heq.
  - vm_compute. reflexivity.
  - vm_compute. reflexivity.
Qed.

Definition lo_0103 : Timestamp := At (Date 2023 1 3) midnight.
Definition grid_0103 : list Timestamp :=
  [Cases.at_0103 9 33; Cases.at_0103 9 45; Cases.at_0103 10 0].

Lemma pad_entry_times_sorted_witness :
  exists keys,
    entry_times (Cases.returned Cases.padded) = Ok keys /\
    Sorted Timestamp_le keys.
Proof.
  apply (@pad_entry_times_sorted Sample.sample "2023-01-03" "2023-01-03"
           Cases.trades_csv Cases.master_csv
           (Cases.returned Cases.padded) Cases.padded.2).
  vm_compute. reflexivity.
Defined.

Lemma pad_entry_times_exactly_once_witness :
  exists out o',
    @pad_entry_times Sample.sample "2023-01-03" "2023-01-03"
      (Objects Cases.trades_on_grid Cases.master_csv) = (Ok out, o') /\
    exactly_once out (in_window lo_0103 lo_0103 grid_0103).
Proof.
  apply (@pad_entry_times_exactly_once Sample.sample "2023-01-03" "2023-01-03"
           Cases.trades_on_grid Cases.master_csv lo_0103 lo_0103 grid_0103
           [Cases.at_0103 10 0; Cases.at_0103 9 33]);
    try (vm_compute; reflexivity).
  - apply (bool_decide_unpack _). vm_compute. exact I.
  - apply (bool_decide_unpack _). vm_compute. exact I.
Defined.

(** The claim as first stated holds for every input table.  A table with a
    row a minute off the grid and a row on the next day keeps both. *)
Lemma pad_entry_times_keeps_off_grid_rows :
  Cases.padded.1 = Ok (Cases.returned Cases.padded) /\
  ~ exactly_once (Cases.returned Cases.padded)
      (in_window lo_0103 lo_0103 grid_0103).
Proof.
  split; [vm_compute; reflexivity|].
  intros (keys & Hkeys & _ & Hiff).
  vm_compute in Hkeys. injection Hkeys as <-.
  assert (Hnot : Cases.at_0103 9 34 ∉ in_window lo_0103 lo_0103 grid_0103).
  { apply (bool_decide_unpack _). vm_compute. exact I. }
  apply Hnot, Hiff. apply (bool_decide_unpack _). vm_compute. exact I.
Qed.

Definition ts_trades_csv : list Timestamp :=
  [ Cases.at_0103 10 0; Cases.at_0103 9 33; Cases.at_0103 9 34;
    At (Date 2023 1 4) (Time 9 33 0 0) ].

Definition ts_trades_qty : list Timestamp :=
  [Cases.at_0103 9 33; Cases.at_0103 10 0].

Lemma pad_entry_times_keeps_rows_witness :
  exists out o' old new,
    @pad_entry_times Sample.sample "2023-01-03" "2023-01-03"
      (Objects Cases.trades_qty Cases.master_csv) = (Ok out, o') /\
    rows out ≡ₚ old ++ new /\
    Forall2 (fun r r' : Row =>
               forall c, c ∈ columns Cases.trades_qty -> c <> "EntryTime" ->
                         upcast (cell c r) (cell c r'))
            (rows Cases.trades_qty) old /\
    length new = 1%nat /\
    length (rows out) = 3%nat.
Proof.
  destruct (@pad_entry_times_keeps_rows Sample.sample "2023-01-03" "2023-01-03"
              Cases.trades_qty Cases.master_csv lo_0103 lo_0103 grid_0103
              ts_trades_qty)
    as (out & o' & old & new & Hrun & Hperm & Hold & _ & Hnew & Hlen);
    try (vm_compute; reflexivity).
  exists out, o', old, new. do 2 (split; [assumption|]).
  split; [|split; [rewrite Hnew | rewrite Hlen]; vm_compute; reflexivity].
  eapply Forall2_impl; [exact Hold|]. intros r r' (_ & _ & Hup). exact Hup.
Defined.

(** C9. The Padding Stage is to return every input row with its payload
    unchanged, and the test of the stage asserts that the values of a row
    are intact after padding (test_pad_datetime.py, lines 100-102).  The
    code does not keep to it.  The table [Cases.trades_qty] has a column
    [Qty] of integers that the placeholders lack; the grid has one timestamp
    more than the table, so one placeholder is appended, and [pd.concat]
    (line 110) turns the column into floats: 1 comes back as 1.0 and
    9007199254740993 as 9007199254740992.0, another number, and no row of
    the output holds the integer any more. *)
Lemma pad_entry_times_alters_integers :
  Cases.padded_qty.1 = Ok (Cases.returned Cases.padded_qty) /\
  column Cases.trades_qty "Qty" = [VInt 1; VInt 9007199254740993] /\
  column (Cases.returned Cases.padded_qty) "Qty" =
    [VFloat 1 0; VNaN; VFloat 9007199254740992 0] /\
  (forall r' : Row, r' ∈ rows (Cases.returned Cases.padded_qty) ->
                    r' !! "Qty" <> Some (VInt 9007199254740993)).
Proof.
  split; [vm_compute; reflexivity|]. split; [vm_compute; reflexivity|].
  split; [vm_compute; reflexivity|].
  intros r' Hr' Hq.
  assert (Hin : VInt 9007199254740993 ∈
                column (Cases.returned Cases.padded_qty) "Qty").
  { apply list_elem_of_fmap. exists r'. split; [|done].
    unfold cell. by rewrite Hq. }
  apply (bool_decide_pack _) in Hin. by vm_compute in Hin.
Qed.

Lemma pad_entry_times_placeholders_witness :
  exists r : Row,
    r ∈ rows (Cases.returned Cases.padded) /\
    r !! "EntryTime" = Some (VTime (Cases.at_0103 9 45)) /\
    r !! "TradeID" = Some (VInt 0) /\
    r !! "ProfitLoss" = Some (VFloat 0 0) /\
    (forall c, c ∈ text_columns -> r !! c = Some (VStr "")).
Proof.
  destruct (@pad_entry_times_placeholders Sample.sample "2023-01-03" "2023-01-03"
              Cases.trades_csv Cases.master_csv lo_0103 lo_0103 grid_0103
              ts_trades_csv)
    as (out & o' & old & new & Hrun & Hperm & _ & Hnew & _);
    try (vm_compute; reflexivity).
  assert (He : elements (missing_entry_times lo_0103 lo_0103 grid_0103
                           ts_trades_csv) = [Cases.at_0103 9 45])
    by (vm_compute; reflexivity).
  rewrite He in Hnew.
  apply Forall2_cons_inv_l in Hnew
    as (r & new' & (Htime & Htext & Hnum & _) & _ & ->).
  exists r. split.
  - assert (Hout : Cases.padded = (Ok out, o')) by exact Hrun.
    unfold Cases.returned. rewrite Hout. cbn [fst]. rewrite Hperm.
    apply elem_of_app. right. apply list_elem_of_here.
  - split; [exact Htime|]. split; [|split; [|exact Htext]].
    + apply (Hnum "TradeID"); [|vm_compute..]; try reflexivity;
        repeat constructor.
    + apply (Hnum "ProfitLoss").
      * apply list_elem_of_further, list_elem_of_here.
      * apply (bool_decide_unpack _). vm_compute. exact I.
Defined.

(** The claim as first stated puts 0 in every numeric field of a
    placeholder.  Delta is a numeric field of the trades, and the
    placeholder of the run above holds the empty string there.  It also has
    TradeID = 0 tell a placeholder from a genuine record: in the run on a
    table with a trade whose identifier is 0, the placeholder and that trade
    both have TradeID 0. *)
Lemma pad_entry_times_numeric_field_empty :
  numeric_field "Delta" /\
  (exists r : Row,
     r ∈ rows (Cases.returned Cases.padded) /\
     r !! "TradeID" = Some (VInt 0) /\
     r !! "Delta" = Some (VStr "") /\
     r !! "Delta" <> Some (VInt 0)) /\
  column Cases.trades_zero_id "TradeID" = [VInt 0; VInt 5] /\
  column (Cases.returned Cases.padded_zero_id) "TradeID" =
    [VInt 5; VInt 0; VInt 0].
Proof.
  split; [|split; [|split]].
  - exists (VFloat 0 1). split; [|done]. unfold test_trade.
    do 3 apply list_elem_of_further. apply list_elem_of_here.
  - exists (default ∅ (rows (Cases.returned Cases.padded) !! 2%nat)).
    split; [|split; [|split]].
    + apply (list_elem_of_lookup_2 _ 2%nat). vm_compute. reflexivity.
    + vm_compute. reflexivity.
    + vm_compute. reflexivity.
    + vm_compute. discriminate.
  - vm_compute. reflexivity.
  - vm_compute. reflexivity.
Qed.
(** * Further properties of the code *)

(** ** The Filter Stage *)

Section filter_more.

Context `{Externals}.

Local Arguments normalised : simpl never.
Local Arguments setitem : simpl never.
Local Arguments getitem_mask : simpl never.

Lemma getitem_missing df c : c ∉ columns df -> getitem df c = Raise (KeyError c).
Proof. intros Hc. unfold getitem. by rewrite decide_False. Qed.

(** X2. Without an EntryTime column the Filter Stage raises the key error
    and leaves both arguments as they were. *)
Theorem filter_early_close_data_no_EntryTime start_date end_date df master lo hi :
  to_datetime (VStr (start_date +:+ " 00:00:00")) = Ok lo ->
  to_datetime (VStr (end_date +:+ " 23:59:59")) = Ok hi ->
  "EntryTime" ∉ columns df ->
  filter_early_close_data start_date end_date (Objects df master) =
    (Raise (KeyError "EntryTime"), Objects df master).
Proof.
  intros Hlo Hhi Hc.
  unfold filter_early_close_data, bindM, lift, get_df; simpl.
  by rewrite Hlo, Hhi, getitem_missing.
Qed.

(** X3. A record whose timestamp is missing does not make the Filter Stage
    fail and is dropped without a word: when every cell of EntryTime is
    missing or denotes a timestamp, the call returns; the caller's table
    then holds [NaT] where the timestamp was missing, and no such row is in
    the table returned, which has at most as many rows as the input has
    rows with a timestamp. *)
Theorem filter_early_close_data_drops_missing
    start_date end_date df master lo hi gcells :
  to_datetime (VStr (start_date +:+ " 00:00:00")) = Ok lo ->
  to_datetime (VStr (end_date +:+ " 23:59:59")) = Ok hi ->
  "EntryTime" ∈ columns df ->
  Forall (fun v => isna v = true \/ exists t, to_datetime v = Ok t)
         (column df "EntryTime") ->
  "SpxDayTime" ∈ columns master ->
  to_datetime_series (column master "SpxDayTime") = Ok gcells ->
  exists out df',
    filter_early_close_data start_date end_date (Objects df master) =
      (Ok out, Objects df' (setitem master "SpxDayTime" gcells)) /\
    parsed_in_place "EntryTime" df df' /\
    Forall2 (fun r r' : Row =>
               isna (cell "EntryTime" r) = true ->
               r' !! "EntryTime" = Some VNaT /\ r' ∉ rows out)
            (rows df) (rows df') /\
    rows out = filter (kept lo hi (timestamps gcells)) (rows df') /\
    (length (rows out) <=
     length (filter (fun r => isna (cell "EntryTime" r) = false) (rows df)))%nat.
Proof.
  intros Hlo Hhi Hdf Hcells Hmaster Hgrid.
  assert (Hts : exists cells, to_datetime_series (column df "EntryTime") = Ok cells).
  { apply traverse_total. eapply Forall_impl; [exact Hcells|].
    intros v [Hv|[t Hv]].
    - exists VNaT. by apply to_datetime_cell_isna.
    - exists (VTime t). by apply to_datetime_cell_Ok. }
  destruct Hts as [cells Hts].
  rewrite (filter_early_close_data_run_series _ _ _ _ lo hi cells gcells)
    by done.
  pose proof (setitem_parsed_in_place df "EntryTime" cells Hdf Hts) as Hp.
  set (df' := setitem df "EntryTime" cells) in *.
  eexists _, df'. split; [done|]. split; [done|]. cbn [rows].
  assert (Hdrop : Forall2 (fun r r' : Row =>
                    isna (cell "EntryTime" r) = true ->
                    r' !! "EntryTime" = Some VNaT)
                  (rows df) (rows df')).
  { destruct Hp as [_ Hp]. eapply Forall2_impl; [exact Hp|].
    intros r r' (v & Hv & ->) Hna.
    rewrite to_datetime_cell_isna in Hv by done. injection Hv as <-.
    apply lookup_insert_eq. }
  split; [|split; [done|]].
  - eapply Forall2_impl; [exact Hdrop|]. intros r r' Hr Hna.
    split; [by apply Hr|]. intros [Hk _]%list_elem_of_filter.
    unfold kept in Hk. by rewrite (Hr Hna) in Hk.
  - generalize (rows df) (rows df') Hdrop. clear. intros rs rs' Hdrop.
    induction Hdrop as [|r r' rs rs' Hr _ IH]; [done|].
    destruct (isna (cell "EntryTime" r)) eqn:Hna.
    + rewrite filter_cons_False.
      2:{ intros Hk. unfold kept in Hk. by rewrite (Hr eq_refl) in Hk. }
      by rewrite (filter_cons_False _ r) by (by rewrite Hna).
    + rewrite (filter_cons_True _ r) by (by rewrite Hna).
      destruct (decide (kept lo hi (timestamps gcells) r')).
      * rewrite filter_cons_True by done. simpl. lia.
      * rewrite filter_cons_False by done. simpl. lia.
Qed.

(** X4. A grid without the SpxDayTime column makes the Filter Stage raise
    the key error after it has assigned the parsed timestamps to the input
    table: the failed call leaves the caller's table changed. *)
Theorem filter_early_close_data_no_SpxDayTime start_date end_date df master lo hi ts :
  to_datetime (VStr (start_date +:+ " 00:00:00")) = Ok lo ->
  to_datetime (VStr (end_date +:+ " 23:59:59")) = Ok hi ->
  "EntryTime" ∈ columns df ->
  traverse to_datetime (column df "EntryTime") = Ok ts ->
  "SpxDayTime" ∉ columns master ->
  filter_early_close_data start_date end_date (Objects df master) =
    (Raise (KeyError "SpxDayTime"),
     Objects (normalised df "EntryTime" ts) master).
Proof.
  intros Hlo Hhi Hc Hts%to_datetime_series_Ok Hm.
  assert (Hlts : length (VTime <$> ts) = length (rows df)).
  { rewrite (to_datetime_series_length _ _ Hts). apply length_fmap. }
  set (df' := normalised df "EntryTime" ts).
  assert (Hcol : column df' "EntryTime" = VTime <$> ts)
    by (by apply column_setitem).
  assert (Hdt : Forall (fun v => datetime_cell v = true) (column df' "EntryTime")).
  { rewrite Hcol. by eapply to_datetime_series_datetime. }
  assert (Hin : "EntryTime" ∈ columns df') by apply columns_setitem.
  unfold filter_early_close_data, bindM, lift, get_df, get_master, put_df,
    put_master, ret; simpl.
  rewrite Hlo, Hhi, (getitem_Ok df) by done. simpl. rewrite Hts. simpl.
  fold (normalised df "EntryTime" ts). fold df'.
  rewrite (getitem_Ok df') by done.
  rewrite series_ge_column, series_le_column by done.
  by rewrite getitem_missing.
Qed.

Lemma datetime_column_cells c d :
  datetime_column c d ->
  exists ts, column d c = VTime <$> ts /\
             traverse to_datetime (column d c) = Ok ts /\
             normalised d c ts = d.
Proof.
  intros [Hc Hcells].
  assert (Hts : exists ts, column d c = VTime <$> ts).
  { unfold column. induction Hcells as [|r rs [t Hr] _ [ts IH]].
    - by exists [].
    - exists (t :: ts). csimpl. rewrite IH. f_equal. by apply cell_Some. }
  destruct Hts as [ts Hts]. exists ts. split; [done|].
  assert (Htr : traverse to_datetime (column d c) = Ok ts).
  { rewrite Hts. apply traverse_Ok_id, to_datetime_Timestamp. }
  split; [done|].
  apply (parsed_in_place_datetime c); [done..|].
  by apply normalised_parsed_in_place.
Qed.

Lemma normalised_datetime_column df c ts :
  length ts = length (rows df) -> datetime_column c (normalised df c ts).
Proof.
  intros Hlen. split; [apply columns_setitem|].
  eapply Forall_impl; [apply (Forall_rows_normalised (fun _ => True))|].
  - by apply Forall_true.
  - intros r (t & Hr & _). by exists t.
Qed.

Lemma datetime_column_filter c cols (P : Row -> Prop) `{forall r, Decision (P r)} d :
  datetime_column c d -> columns d = cols ->
  datetime_column c (Frame cols (filter P (rows d))).
Proof.
  intros [Hc Hcells] <-. split; [done|]. cbn [rows].
  apply Forall_forall. intros r [_ Hr]%list_elem_of_filter.
  rewrite Forall_forall in Hcells. auto.
Qed.

Lemma setitem_setitem df c col :
  setitem (setitem df c col) c col = setitem df c col.
Proof.
  pose proof (columns_setitem df c col) as Hc.
  destruct df as [cols rs]. unfold setitem in *. cbn [columns rows] in *.
  f_equal.
  - by rewrite decide_True.
  - clear Hc. revert rs.
    induction col as [|v col IH]; intros [|r rs]; simpl; try done.
    rewrite insert_insert_eq. by f_equal.
Qed.

Lemma kept_rows_datetime lo hi grid cols rs :
  "EntryTime" ∈ cols ->
  datetime_column "EntryTime" (Frame cols (filter (kept lo hi grid) rs)).
Proof.
  intros Hc. split; [done|]. cbn [rows]. apply Forall_forall.
  intros r [Hk _]%list_elem_of_filter. unfold kept in Hk.
  destruct (r !! "EntryTime") as [[]|]; try done. by eexists.
Qed.

Lemma filter_early_close_data_rerun
    start_date end_date df master lo hi cells gcells :
  to_datetime (VStr (start_date +:+ " 00:00:00")) = Ok lo ->
  to_datetime (VStr (end_date +:+ " 23:59:59")) = Ok hi ->
  "EntryTime" ∈ columns df ->
  to_datetime_series (column df "EntryTime") = Ok cells ->
  "SpxDayTime" ∈ columns master ->
  to_datetime_series (column master "SpxDayTime") = Ok gcells ->
  let out := Frame (columns df)
               (filter (kept lo hi (timestamps gcells))
                       (rows (setitem df "EntryTime" cells))) in
  let master' := setitem master "SpxDayTime" gcells in
  filter_early_close_data start_date end_date (Objects out master') =
    (Ok out, Objects out master').
Proof.
  intros Hlo Hhi Hdf Hts Hmaster Hgrid out master'.
  assert (Hlgrid : length gcells = length (rows master)).
  { rewrite (to_datetime_series_length _ _ Hgrid). apply length_fmap. }
  assert (Hout : datetime_column "EntryTime" out)
    by (by apply kept_rows_datetime).
  destruct (datetime_column_cells _ _ Hout) as (ts' & Hcol' & Hts' & Hid).
  assert (Hgcol : column master' "SpxDayTime" = gcells)
    by (by apply column_setitem).
  assert (Hgid : to_datetime_series (column master' "SpxDayTime") = Ok gcells).
  { rewrite Hgcol. apply to_datetime_series_id.
    by eapply to_datetime_series_datetime. }
  rewrite (filter_early_close_data_run_series _ _ out master' lo hi
             (VTime <$> ts') gcells); try done.
  - fold (normalised out "EntryTime" ts'). rewrite Hid.
    replace (setitem master' "SpxDayTime" gcells) with master'
      by (symmetry; apply setitem_setitem).
    assert (Hfix : Frame (columns out)
                     (filter (kept lo hi (timestamps gcells)) (rows out)) = out).
    { unfold out. cbn [columns rows]. f_equal. apply filter_Forall_id.
      apply Forall_forall. by intros r [? _]%list_elem_of_filter. }
    by rewrite Hfix.
  - by apply to_datetime_series_Ok.
  - apply columns_setitem.
Qed.

(** X1. Running the Filter Stage on its own output, with the grid as the
    first call left it, returns that output again and changes nothing. *)
Theorem filter_early_close_data_idempotent start_date end_date df master out o' :
  filter_early_close_data start_date end_date (Objects df master) = (Ok out, o') ->
  filter_early_close_data start_date end_date (Objects out (obj_master o')) =
    (Ok out, Objects out (obj_master o')).
Proof.
  intros Hrun.
  destruct (filter_early_close_data_Ok_inv _ _ _ _ _ _ Hrun)
    as (lo & hi & cells & gcells & Hlo & Hhi & Hdf & Hts & Hmaster & Hgrid).
  rewrite (filter_early_close_data_run_series _ _ _ _ lo hi cells gcells)
    in Hrun by done.
  injection Hrun as <- <-.
  by apply (filter_early_close_data_rerun _ _ df master lo hi cells gcells).
Qed.

(** X5. The Filter Stage does not check that the window is in order: with
    an end before the start no timestamp lies in the window and the table
    returned has no rows. *)
Theorem filter_early_close_data_inverted_window start_date end_date df master lo hi out o' :
  to_datetime (VStr (start_date +:+ " 00:00:00")) = Ok lo ->
  to_datetime (VStr (end_date +:+ " 23:59:59")) = Ok hi ->
  ~ Timestamp_le lo hi ->
  filter_early_close_data start_date end_date (Objects df master) = (Ok out, o') ->
  rows out = [].
Proof.
  intros Hlo Hhi Hinv Hrun.
  destruct (filter_early_close_data_Ok_inv _ _ _ _ _ _ Hrun)
    as (lo' & hi' & cells & gcells & Hlo' & Hhi' & Hdf & Hts & Hmaster & Hgrid).
  rewrite (filter_early_close_data_run_series _ _ _ _ lo' hi' cells gcells)
    in Hrun by done.
  injection Hrun as <- <-. cbn [rows].
  rewrite Hlo in Hlo'. rewrite Hhi in Hhi'. simplify_eq.
  apply elem_of_nil_inv. intros r [Hkept _]%list_elem_of_filter.
  unfold kept in Hkept. repeat case_match; try done.
  destruct Hkept as (Hge & Hle & _). apply Hinv. by etrans.
Qed.

(** X6. The table the Filter Stage returns has the columns of the input
    table, in their order, and no more rows than the input. *)
Theorem filter_early_close_data_schema start_date end_date df master out o' :
  filter_early_close_data start_date end_date (Objects df master) = (Ok out, o') ->
  columns out = columns df /\ (length (rows out) <= length (rows df))%nat.
Proof.
  intros Hrun.
  destruct (filter_early_close_data_Ok_inv _ _ _ _ _ _ Hrun)
    as (lo & hi & cells & gcells & Hlo & Hhi & Hdf & Hts & Hmaster & Hgrid).
  rewrite (filter_early_close_data_run_series _ _ _ _ lo hi cells gcells)
    in Hrun by done.
  injection Hrun as <- <-. split; [done|].
  etrans; [apply length_filter|]. unfold setitem. cbn [rows].
  rewrite length_zip_with. lia.
Qed.

End filter_more.

Section padding_more.

Context `{Externals}.

Local Arguments normalised : simpl never.
Local Arguments setitem : simpl never.
Local Arguments concat : simpl never.
Local Arguments DataFrame_of_records : simpl never.
Local Arguments sort_values : simpl never.

(** X7. Whatever the input table holds, the timestamps of the table the
    Padding Stage returns are those of the input rows together with each
    missing in-window grid timestamp once; so every in-window grid timestamp
    occurs in the output. *)
Theorem pad_entry_times_covers start_date end_date df master lo hi grid ts :
  to_datetime (VStr start_date) = Ok lo ->
  to_datetime (VStr end_date) = Ok hi ->
  getitem master "SpxDayTime" = Ok (column master "SpxDayTime") ->
  traverse to_datetime (column master "SpxDayTime") = Ok grid ->
  getitem df "EntryTime" = Ok (column df "EntryTime") ->
  traverse to_datetime (column df "EntryTime") = Ok ts ->
  exists out o' keys,
    pad_entry_times start_date end_date (Objects df master) = (Ok out, o') /\
    entry_times out = Ok keys /\
    keys ≡ₚ ts ++ elements (missing_entry_times lo hi grid ts) /\
    (forall t, t ∈ in_window lo hi grid -> t ∈ keys).
Proof.
  intros Hlo Hhi Hmaster Hgrid Hdf Hts.
  destruct (pad_entry_times_Ok _ _ _ _ lo hi grid ts Hlo Hhi Hmaster Hgrid Hdf Hts)
    as (out & keys & Hrun & _ & _ & Hkeys & Hperm & _).
  eexists out, _, keys. do 3 (split; [done|]).
  intros t Ht. rewrite Hperm, elem_of_app, elem_of_elements,
    elem_of_missing_entry_times.
  destruct (decide (t ∈ ts)); auto.
Qed.

Lemma traverse_as_time_Raise cells e :
  traverse as_time cells = Raise e -> e = TypeError.
Proof.
  induction cells as [|v cells IH]; simpl; [done|].
  destruct v; simpl; try (by intros [= <-]).
  destruct (traverse as_time cells); [done|]. intros [= <-]. by apply IH.
Qed.

Lemma traverse_as_time_NaT_Raise cells :
  VNaT ∈ cells -> traverse as_time cells = Raise TypeError.
Proof.
  intros Hin. destruct (traverse as_time cells) as [ts|e] eqn:Hts.
  - apply traverse_as_time_inv in Hts. subst cells.
    by apply list_elem_of_fmap in Hin as (t & [=] & _).
  - by rewrite (traverse_as_time_Raise _ _ Hts).
Qed.

(** A call either fails before it reaches the table, which it leaves as it
    was, or gets to parse the column of the table. *)
Lemma pad_entry_times_reaches start_date end_date df master :
  (exists e, pad_entry_times start_date end_date (Objects df master) =
             (Raise e, Objects df master)) \/
  (exists lo hi gcells grid cells,
     to_datetime (VStr start_date) = Ok lo /\
     to_datetime (VStr end_date) = Ok hi /\
     "SpxDayTime" ∈ columns master /\
     to_datetime_series (column master "SpxDayTime") = Ok gcells /\
     traverse as_time gcells = Ok grid /\
     "EntryTime" ∈ columns df /\
     to_datetime_series (column df "EntryTime") = Ok cells).
Proof.
  unfold pad_entry_times, bindM, lift, get_df, get_master, put_df,
    put_master, ret; simpl.
  destruct (to_datetime (VStr start_date)) as [lo|] eqn:Hlo;
    [|left; by eexists].
  destruct (to_datetime (VStr end_date)) as [hi|] eqn:Hhi;
    [|left; by eexists].
  destruct (getitem master _) as [col|] eqn:Hmaster; [|left; by eexists].
  apply getitem_Ok_inv in Hmaster as [Hmaster ->]. simpl.
  destruct (to_datetime_series (column master _)) as [gcells|] eqn:Hgcells;
    [|left; by eexists]. simpl.
  destruct (traverse as_time gcells) as [grid|] eqn:Hgrid;
    [|left; by eexists].
  destruct (getitem df _) as [col|] eqn:Hdf; [|left; by eexists].
  apply getitem_Ok_inv in Hdf as [Hdf ->]. simpl.
  destruct (to_datetime_series (column df _)) as [cells|] eqn:Hcells;
    [|left; by eexists].
  right. exists lo, hi, gcells, grid, cells. repeat split; assumption.
Qed.

Lemma sort_values_appended df ts missing :
  "EntryTime" ∈ columns df -> column df "EntryTime" = VTime <$> ts ->
  exists out, sort_values (appended df missing) "EntryTime" = Ok out.
Proof.
  intros Het Hcol.
  destruct (sort_values_datetime (appended df missing) "EntryTime"
              (ts ++ elements missing)) as (out & _ & Hsort & _).
  - by apply columns_concat_l.
  - by apply column_appended.
  - by exists out.
Qed.

Lemma column_NaT df c :
  VNaT ∈ column df c -> Exists (fun r : Row => r !! c = Some VNaT) (rows df).
Proof.
  intros (r & Hr & Hin)%list_elem_of_fmap. apply Exists_exists.
  exists r. split; [done|]. unfold cell in Hr.
  by destruct (r !! c) as [v|]; simpl in Hr; subst.
Qed.

(** X10. A call of the Padding Stage that raises leaves the grid as it was.
    The caller's table is as it was, too, unless the exception is the type
    error of the date test on the table's timestamps (line 58), which comes
    after the assignment to the table (line 50): the table is then left
    with its column parsed in place. *)
Theorem pad_entry_times_failure start_date end_date df master err o' :
  pad_entry_times start_date end_date (Objects df master) = (Raise err, o') ->
  obj_master o' = master /\
  (obj_df o' = df \/
   (err = TypeError /\ parsed_in_place "EntryTime" df (obj_df o'))).
Proof.
  intros Hrun. split; [by eapply pad_entry_times_master|].
  destruct (pad_entry_times_reaches start_date end_date df master)
    as [[e He]|(lo & hi & gcells & grid & cells & Hlo & Hhi & Hmaster &
                Hgcells & Hgrid & Hdf & Hcells)].
  { rewrite He in Hrun. injection Hrun as _ <-. by left. }
  rewrite (pad_entry_times_run_series _ _ _ _ lo hi gcells grid cells)
    in Hrun by done.
  assert (Hcol : column (setitem df "EntryTime" cells) "EntryTime" = cells).
  { apply column_setitem. rewrite (to_datetime_series_length _ _ Hcells).
    apply length_fmap. }
  destruct (traverse as_time cells) as [ts|e] eqn:Hts; cbn [bind] in Hrun.
  - apply traverse_as_time_inv in Hts. subst cells.
    destruct (sort_values_appended (setitem df "EntryTime" (VTime <$> ts)) ts
                (missing_entry_times lo hi grid ts)) as [out Hout];
      [apply columns_setitem|done|].
    rewrite Hout in Hrun. discriminate.
  - injection Hrun as <- <-. right. cbn [obj_df].
    split; [by eapply traverse_as_time_Raise|].
    by apply setitem_parsed_in_place.
Qed.

(** X22. A missing entry time makes the Padding Stage fail, and not
    cleanly: when the bounds and the grid parse and every cell of EntryTime
    is missing or denotes a timestamp, a table with a missing cell makes the
    call raise the type error after it has assigned the parsed column; the
    caller's table is left with [NaT] in it, and changed where a cell held
    [NaN]. *)
Theorem pad_entry_times_missing_timestamp start_date end_date df master lo hi grid :
  to_datetime (VStr start_date) = Ok lo ->
  to_datetime (VStr end_date) = Ok hi ->
  "SpxDayTime" ∈ columns master ->
  traverse to_datetime (column master "SpxDayTime") = Ok grid ->
  "EntryTime" ∈ columns df ->
  Forall (fun v => isna v = true \/ exists t, to_datetime v = Ok t)
         (column df "EntryTime") ->
  Exists (fun v => isna v = true) (column df "EntryTime") ->
  exists df',
    pad_entry_times start_date end_date (Objects df master) =
      (Raise TypeError, Objects df' master) /\
    parsed_in_place "EntryTime" df df' /\
    Exists (fun r : Row => r !! "EntryTime" = Some VNaT) (rows df') /\
    (VNaN ∈ column df "EntryTime" -> df' <> df).
Proof.
  intros Hlo Hhi Hmaster Hgrid%to_datetime_series_Ok Hdf Hall Hex.
  assert (Hts : exists cells, to_datetime_series (column df "EntryTime") = Ok cells).
  { apply traverse_total. eapply Forall_impl; [exact Hall|].
    intros v [Hv|[t Hv]].
    - exists VNaT. by apply to_datetime_cell_isna.
    - exists (VTime t). by apply to_datetime_cell_Ok. }
  destruct Hts as [cells Hts].
  assert (Hna : VNaT ∈ cells).
  { apply Exists_exists in Hex as (v & Hv & Hvna).
    apply list_elem_of_lookup in Hv as [i Hi].
    apply traverse_Forall2 in Hts.
    destruct (Forall2_lookup_l _ _ _ _ _ Hts Hi) as (w & Hw & Hvw).
    rewrite to_datetime_cell_isna in Hvw by done. injection Hvw as <-.
    by eapply list_elem_of_lookup_2. }
  assert (Hlen : length cells = length (rows df)).
  { rewrite (to_datetime_series_length _ _ Hts). apply length_fmap. }
  assert (Hcol : column (setitem df "EntryTime" cells) "EntryTime" = cells)
    by (by apply column_setitem).
  rewrite (pad_entry_times_run_series _ _ _ _ lo hi _ grid cells
             Hlo Hhi Hmaster Hgrid (traverse_as_time grid) Hdf Hts).
  rewrite (traverse_as_time_NaT_Raise cells Hna). cbn [bind].
  eexists. split; [done|]. split; [by apply setitem_parsed_in_place|].
  split; [apply column_NaT; by rewrite Hcol|].
  intros Hnan Heq. rewrite <- Heq, Hcol in Hnan.
  pose proof (to_datetime_series_datetime _ _ Hts) as Hdt.
  rewrite Forall_forall in Hdt. by specialize (Hdt _ Hnan).
Qed.

(** X9. The Padding Stage changes the caller's table in one way only: it
    assigns the parsed timestamps to its EntryTime column.  After a call
    that returned, the caller's table has the rows it had, with the
    timestamps parsed; the placeholders are rows of the returned table
    only. *)
Theorem pad_entry_times_side_effect start_date end_date df master out o' :
  pad_entry_times start_date end_date (Objects df master) = (Ok out, o') ->
  parsed_in_place "EntryTime" df (obj_df o') /\
  length (rows (obj_df o')) = length (rows df) /\
  (datetime_column "EntryTime" df -> obj_df o' = df).
Proof.
  intros Hrun.
  destruct (pad_entry_times_Ok_inv _ _ _ _ _ _ Hrun)
    as (lo & hi & grid & ts & Hlo & Hhi & Hmaster & Hgrid & Hdf & Hts).
  destruct (pad_entry_times_Ok _ _ _ _ lo hi grid ts Hlo Hhi Hmaster Hgrid Hdf Hts)
    as (out' & keys & Hrun' & _).
  rewrite Hrun in Hrun'. injection Hrun' as _ ->. cbn [obj_df].
  apply getitem_Ok_inv in Hdf as [Hdf _].
  assert (Hp : parsed_in_place "EntryTime" df (normalised df "EntryTime" ts))
    by (by apply normalised_parsed_in_place).
  split; [done|]. split; [by eapply parsed_in_place_length|].
  intros [_ Hcells]. by apply (parsed_in_place_datetime "EntryTime").
Qed.

Lemma in_window_inverted lo hi l :
  ~ date_le (ts_date lo) (ts_date hi) -> in_window lo hi l = ∅.
Proof.
  intros Hinv. apply set_eq. intros t. rewrite elem_of_in_window.
  split; [|by intros ?%not_elem_of_empty].
  intros [[Hlo Hhi] _]. destruct Hinv. by etrans.
Qed.

Lemma length_rows_appended_empty df :
  length (rows (appended df ∅)) = length (rows df).
Proof.
  rewrite rows_appended, elements_empty, fmap_nil, app_nil_r.
  apply length_fmap.
Qed.

(** X11. The Padding Stage does not check that the window is in order: with
    an end date before the start date no grid timestamp is in the window,
    no placeholder is added, and the table returned has the timestamps and
    the columns of the input. *)
Theorem pad_entry_times_inverted_window start_date end_date df master lo hi grid ts :
  to_datetime (VStr start_date) = Ok lo ->
  to_datetime (VStr end_date) = Ok hi ->
  getitem master "SpxDayTime" = Ok (column master "SpxDayTime") ->
  traverse to_datetime (column master "SpxDayTime") = Ok grid ->
  getitem df "EntryTime" = Ok (column df "EntryTime") ->
  traverse to_datetime (column df "EntryTime") = Ok ts ->
  ~ date_le (ts_date lo) (ts_date hi) ->
  exists out o' keys,
    pad_entry_times start_date end_date (Objects df master) = (Ok out, o') /\
    columns out = columns df /\
    length (rows out) = length (rows df) /\
    entry_times out = Ok keys /\ keys ≡ₚ ts.
Proof.
  intros Hlo Hhi Hmaster Hgrid Hdf Hts Hinv.
  destruct (pad_entry_times_Ok _ _ _ _ lo hi grid ts Hlo Hhi Hmaster Hgrid Hdf Hts)
    as (out & keys & Hrun & Hcols & Hrows & Hkeys & Hperm & _).
  assert (Hnone : missing_entry_times lo hi grid ts = ∅).
  { unfold missing_entry_times. rewrite !in_window_inverted by done.
    set_solver. }
  apply getitem_Ok_inv in Hdf as [Hdf _].
  rewrite Hnone in Hcols, Hrows, Hperm.
  rewrite columns_appended, decide_True in Hcols by done.
  eexists out, _, keys. split; [exact Hrun|].
  split; [by rewrite Hcols; apply columns_setitem_present|].
  split.
  - rewrite Hrows, length_rows_appended_empty, rows_normalised, length_zip_with.
    pose proof (traverse_length _ _ _ Hts) as Hl. unfold column in Hl.
    rewrite length_fmap in Hl. lia.
  - split; [done|]. by rewrite Hperm, elements_empty, app_nil_r.
Qed.

(** X8. Padding a padded table adds nothing: a second call on the table the
    first one returned, with the same grid and window, returns a table with
    the same columns and the same rows, up to the order of the rows, and
    leaves its argument as it was. *)
Theorem pad_entry_times_idempotent start_date end_date df master out o' :
  pad_entry_times start_date end_date (Objects df master) = (Ok out, o') ->
  exists out2,
    pad_entry_times start_date end_date (Objects out master) =
      (Ok out2, Objects out master) /\
    columns out2 = columns out /\
    rows out2 ≡ₚ rows out.
Proof.
  intros Hrun.
  destruct (pad_entry_times_Ok_inv _ _ _ _ _ _ Hrun)
    as (lo & hi & grid & ts & Hlo & Hhi & Hmaster & Hgrid & Hdf & Hts).
  destruct (pad_entry_times_Ok _ _ _ _ lo hi grid ts Hlo Hhi Hmaster Hgrid Hdf Hts)
    as (out' & keys & Hrun' & Hcols & Hrows & Hkeys & Hperm & _).
  rewrite Hrun in Hrun'. injection Hrun' as <- _.
  set (df' := normalised df "EntryTime" ts) in *.
  set (missing := missing_entry_times lo hi grid ts) in *.
  (* the returned table has a datetime column and full rows *)
  unfold entry_times in Hkeys. apply traverse_as_time_inv in Hkeys.
  assert (Hin : "EntryTime" ∈ columns out).
  { rewrite Hcols. apply columns_concat_l, columns_setitem. }
  assert (Hfull : Forall (fun r : Row =>
                            forall c, is_Some (r !! c) <-> c ∈ columns out)
                         (rows out)).
  { rewrite Hrows, Hcols. apply Forall_forall. intros r Hr c.
    by apply concat_rows_dom. }
  assert (Hdt : datetime_column "EntryTime" out).
  { split; [done|]. apply Forall_forall. intros r Hr.
    apply list_elem_of_lookup in Hr as [i Hi].
    apply (f_equal (fun l => l !! i)) in Hkeys. unfold column in Hkeys.
    rewrite !list_lookup_fmap, Hi in Hkeys. simpl in Hkeys.
    destruct (keys !! i) as [t|]; [|done]. injection Hkeys as Hc.
    exists t. by apply cell_VTime_inv. }
  destruct (datetime_column_cells _ _ Hdt) as (keys' & Hcol2 & Hts2 & Hid).
  assert (keys' = keys) as -> by (by apply (inj (fmap VTime)); rewrite <- Hcol2).
  destruct (pad_entry_times_Ok start_date end_date out master lo hi grid keys)
    as (out2 & keys2 & Hrun2 & Hcols2 & Hrows2 & _); try done.
  { by apply getitem_Ok. }
  rewrite Hid in Hrun2, Hcols2, Hrows2.
  assert (Hnone : missing_entry_times lo hi grid keys = ∅).
  { apply set_eq. intros t. rewrite elem_of_missing_entry_times.
    split; [|by intros ?%not_elem_of_empty]. intros [Ht Hnot]. destruct Hnot.
    rewrite Hperm, elem_of_app, elem_of_elements.
    destruct (decide (t ∈ ts)); [by left|right].
    by apply elem_of_missing_entry_times. }
  rewrite Hnone in Hcols2, Hrows2. unfold appended in Hcols2, Hrows2.
  rewrite padded_df_empty, concat_zero_shape in Hcols2, Hrows2 by done.
  by exists out2.
Qed.

End padding_more.

Section padding_schema.

Context `{Externals}.

Local Arguments normalised : simpl never.
Local Arguments setitem : simpl never.

(** X12. The columns of the table the Padding Stage returns: those of the
    input table, in their order, followed, when a timestamp is missing, by
    the fields of a placeholder that the input table lacks; when nothing is
    missing the columns are those of the input. *)
Theorem pad_entry_times_columns start_date end_date df master lo hi grid ts :
  to_datetime (VStr start_date) = Ok lo ->
  to_datetime (VStr end_date) = Ok hi ->
  getitem master "SpxDayTime" = Ok (column master "SpxDayTime") ->
  traverse to_datetime (column master "SpxDayTime") = Ok grid ->
  getitem df "EntryTime" = Ok (column df "EntryTime") ->
  traverse to_datetime (column df "EntryTime") = Ok ts ->
  exists out o',
    pad_entry_times start_date end_date (Objects df master) = (Ok out, o') /\
    columns out =
      if decide (missing_entry_times lo hi grid ts = ∅) then columns df
      else columns df ++ list_difference placeholder_columns (columns df).
Proof.
  intros Hlo Hhi Hmaster Hgrid Hdf Hts.
  destruct (pad_entry_times_Ok _ _ _ _ lo hi grid ts Hlo Hhi Hmaster Hgrid Hdf Hts)
    as (out & keys & Hrun & Hcols & _).
  eexists out, _. split; [exact Hrun|]. rewrite Hcols.
  apply getitem_Ok_inv in Hdf as [Hdf _].
  rewrite columns_appended. unfold normalised.
  by rewrite !(columns_setitem_present df) by done.
Qed.

End padding_schema.

(** ** The Grid Generator *)

Section generator_more.

Context `{Externals}.

Lemma day_entries_Ok vt times day :
  parse_times vt = Ok times ->
  day_entries vt day = Ok (combine (ts_date day) <$> times).
Proof.
  unfold parse_times, day_entries. revert times.
  induction vt as [|t vt IH]; intros times; simpl.
  - by intros [= <-].
  - destruct (time_fromisoformat _) as [t'|]; simpl; [|done].
    destruct (traverse _ vt) as [ts|] eqn:Hvt; [|done].
    intros [= <-]. by rewrite (IH ts).
Qed.

Lemma day_entries_Raise vt err day :
  parse_times vt = Raise err -> day_entries vt day = Raise err.
Proof.
  unfold parse_times, day_entries.
  induction vt as [|t vt IH]; simpl; [done|].
  destruct (time_fromisoformat _) as [t'|]; simpl; [|by intros [= ->]].
  destruct (traverse _ vt) as [ts|] eqn:Hvt; [done|].
  intros [= <-]. by rewrite IH.
Qed.

Lemma trading_days_Ok ec sh vt times days :
  parse_times vt = Ok times ->
  exists per_day,
    traverse (fun day =>
                if bool_decide (ts_date day ∉ ec) && bool_decide (ts_date day ∉ sh)
                then day_entries vt day else Ok []) days = Ok per_day /\
    mjoin per_day = grid_points (filter (fun day => ~ excluded ec sh day) days) times.
Proof.
  intros Hvt. induction days as [|day days (per_day & Hrun & Hjoin)]; simpl.
  - by exists [].
  - rewrite Hrun.
    destruct (bool_decide (ts_date day ∉ ec) && bool_decide (ts_date day ∉ sh))
      eqn:Hday.
    + rewrite (day_entries_Ok _ _ _ Hvt). eexists. split; [done|].
      simpl. rewrite Hjoin.
      rewrite filter_cons_True; [done|].
      apply andb_true_iff in Hday as [?%bool_decide_eq_true ?%bool_decide_eq_true].
      unfold excluded. tauto.
    + eexists. split; [done|]. simpl. rewrite Hjoin.
      rewrite filter_cons_False; [done|].
      apply andb_false_iff in Hday as [Hd|Hd]; apply bool_decide_eq_false in Hd;
        unfold excluded; intros Hn; apply Hn; [left|right];
        by apply dec_stable.
Qed.

Lemma build_trading_days_Ok cfg sd ed days ec sh times :
  valid_days sd ed = Ok days ->
  parse_days (early_close_days cfg) = Ok ec ->
  parse_days (special_holidays cfg) = Ok sh ->
  parse_times (valid_times cfg) = Ok times ->
  build_trading_days cfg sd ed =
    Ok (grid_of (grid_points (filter (fun day => ~ excluded ec sh day) days) times)).
Proof.
  intros Hdays Hec Hsh Hvt. unfold build_trading_days.
  rewrite Hdays, Hec, Hsh. cbn [bind].
  destruct (trading_days_Ok ec sh _ _ days Hvt) as (per_day & Hrun & Hjoin).
  rewrite Hrun. cbn [bind]. by rewrite Hjoin.
Qed.

Lemma column_grid_of l : column (grid_of l) "SpxDayTime" = VTime <$> l.
Proof.
  unfold column, grid_of. cbn [rows]. rewrite <- list_fmap_compose.
  apply list_fmap_ext. intros _ t _. unfold compose.
  apply cell_Some, lookup_singleton_eq.
Qed.

Lemma datetime_column_grid_of l : datetime_column "SpxDayTime" (grid_of l).
Proof.
  split; [apply list_elem_of_here|]. unfold grid_of. cbn [rows].
  apply Forall_fmap, Forall_true. intros t. exists t. apply lookup_singleton_eq.
Qed.

Lemma elem_of_grid_points days times t :
  t ∈ grid_points days times <->
  exists day tm, day ∈ days /\ tm ∈ times /\ t = combine (ts_date day) tm.
Proof.
  unfold grid_points. rewrite list_elem_of_join. split.
  - intros (l & Ht & Hl). apply list_elem_of_fmap in Hl as (day & -> & Hday).
    apply list_elem_of_fmap in Ht as (tm & -> & Htm). by exists day, tm.
  - intros (day & tm & Hday & Htm & ->).
    exists (combine (ts_date day) <$> times). split.
    + apply list_elem_of_fmap. by exists tm.
    + apply list_elem_of_fmap. by exists day.
Qed.

Lemma build_trading_days_shape cfg sd ed grid :
  build_trading_days cfg sd ed = Ok grid -> exists l, grid = grid_of l.
Proof.
  unfold build_trading_days.
  destruct (valid_days sd ed) as [days|]; [|done]. cbn [bind].
  destruct (parse_days (early_close_days cfg)) as [ec|]; [|done]. cbn [bind].
  destruct (parse_days (special_holidays cfg)) as [sh|]; [|done]. cbn [bind].
  destruct (traverse _ days) as [per_day|]; [|done]. cbn [bind].
  intros [= <-]. by eexists.
Qed.

Lemma generate_master_trading_day_list_shape s e grid :
  generate_master_trading_day_list s e = Ok grid -> exists l, grid = grid_of l.
Proof.
  unfold generate_master_trading_day_list.
  destruct load_config as [cfg|]; [|done]. cbn [bind].
  destruct (strptime s) as [sd|]; [|done]. cbn [bind].
  destruct (strptime e) as [ed|]; [|done]. cbn [bind].
  destruct (Timestamp_gtb sd ed); [done|].
  destruct (_ || _); [done|]. apply build_trading_days_shape.
Qed.

Lemma generate_master_trading_day_list_accepts s e cfg sd ed :
  load_config = Ok cfg -> strptime s = Ok sd -> strptime e = Ok ed ->
  Timestamp_le sd ed -> supported (ts_date sd) -> supported (ts_date ed) ->
  generate_master_trading_day_list s e = build_trading_days cfg sd ed.
Proof.
  intros Hcfg Hs He Hle Hsd Hed.
  rewrite (generate_master_trading_day_list_unfold s e cfg sd ed) by done.
  destruct (strptime_valid _ _ Hs) as [_ Hvs].
  destruct (strptime_valid _ _ He) as [_ Hve].
  apply supported_year in Hsd; [|done]. apply supported_year in Hed; [|done].
  apply Timestamp_gtb_false in Hle. rewrite Hle.
  replace (year (ts_date sd) <? 2023) with false by (symmetry; apply Z.ltb_ge; lia).
  by replace (year (ts_date ed) >? 2025) with false
    by (symmetry; rewrite Z.gtb_ltb; apply Z.ltb_ge; lia).
Qed.

(** X13. The grid the generator returns holds, in this order, the entries
    of the sessions the calendar reports that are in neither exclusion
    list, session after session in the calendar's order, and for each
    session one entry per configured time in the configured order, at that
    session's date. *)
Theorem generate_master_trading_day_list_grid s e cfg sd ed days ec sh times :
  load_config = Ok cfg -> strptime s = Ok sd -> strptime e = Ok ed ->
  Timestamp_le sd ed -> supported (ts_date sd) -> supported (ts_date ed) ->
  valid_days sd ed = Ok days ->
  parse_days (early_close_days cfg) = Ok ec ->
  parse_days (special_holidays cfg) = Ok sh ->
  parse_times (valid_times cfg) = Ok times ->
  generate_master_trading_day_list s e =
    Ok (grid_of (grid_points (filter (fun day => ~ excluded ec sh day) days) times)).
Proof.
  intros Hcfg Hs He Hle Hsd Hed Hdays Hec Hsh Hvt.
  rewrite (generate_master_trading_day_list_accepts s e cfg sd ed) by done.
  by apply build_trading_days_Ok.
Qed.

(** X14. No entry of the grid falls on an excluded session, even when the
    calendar lists that day: a timestamp is in the grid exactly when it is
    a configured time on a session of the calendar whose date is in neither
    the early-close list nor the special-holiday list. *)
Theorem generate_master_trading_day_list_sessions s e cfg sd ed days ec sh times grid :
  load_config = Ok cfg -> strptime s = Ok sd -> strptime e = Ok ed ->
  valid_days sd ed = Ok days ->
  parse_days (early_close_days cfg) = Ok ec ->
  parse_days (special_holidays cfg) = Ok sh ->
  parse_times (valid_times cfg) = Ok times ->
  generate_master_trading_day_list s e = Ok grid ->
  forall t,
    VTime t ∈ column grid "SpxDayTime" <->
    exists day tm,
      day ∈ days /\ (ts_date day ∉ ec) /\ (ts_date day ∉ sh) /\ tm ∈ times /\
      t = combine (ts_date day) tm.
Proof.
  intros Hcfg Hs He Hdays Hec Hsh Hvt Hrun t.
  rewrite (generate_master_trading_day_list_unfold s e cfg sd ed) in Hrun by done.
  destruct (Timestamp_gtb sd ed); [done|]. destruct (_ || _); [done|].
  rewrite (build_trading_days_Ok cfg sd ed days ec sh times) in Hrun by done.
  injection Hrun as <-. rewrite column_grid_of.
  rewrite (list_elem_of_fmap_inj VTime), elem_of_grid_points.
  split.
  - intros (day & tm & [Hx Hday]%list_elem_of_filter & Htm & ->).
    exists day, tm. unfold excluded in Hx. tauto.
  - intros (day & tm & Hday & Hec' & Hsh' & Htm & ->).
    exists day, tm. split; [|done]. apply list_elem_of_filter.
    unfold excluded. tauto.
Qed.

(** X17. The grid the generator returns holds timestamps, so the Filter
    Stage, which assigns to the grid's column, leaves such a grid exactly as
    it was, whatever table and window it is called with and whatever the
    call's result. *)
Theorem filter_early_close_data_keeps_generated_grid s e grid s' e' df res o' :
  generate_master_trading_day_list s e = Ok grid ->
  filter_early_close_data s' e' (Objects df grid) = (res, o') ->
  obj_master o' = grid.
Proof.
  intros [l ->]%generate_master_trading_day_list_shape Hrun.
  destruct (filter_early_close_data_objects _ _ _ _ _ _ Hrun) as [_ [Hm|Hm]];
    [done|].
  destruct (datetime_column_grid_of l) as [Hc Hcells].
  by apply (parsed_in_place_datetime "SpxDayTime").
Qed.

Lemma filter_sessions_NoDup (P : Timestamp -> Prop) `{forall d, Decision (P d)} days :
  NoDup (ts_date <$> days) -> NoDup (ts_date <$> filter P days).
Proof.
  induction days as [|day days IH]; csimpl; [done|].
  intros [Hnot Hnd]%NoDup_cons. destruct (decide (P day)).
  - rewrite filter_cons_True by done. csimpl. apply NoDup_cons. split; [|auto].
    intros (d & Hd & [_ Hin]%list_elem_of_filter)%list_elem_of_fmap.
    apply Hnot. apply list_elem_of_fmap. by exists d.
  - rewrite filter_cons_False by done. auto.
Qed.

Lemma grid_points_NoDup days times :
  NoDup (ts_date <$> days) -> NoDup times -> NoDup (grid_points days times).
Proof.
  intros Hdays Htimes. unfold grid_points.
  induction days as [|day days IH]; csimpl; [constructor|].
  apply NoDup_cons in Hdays as [Hnot Hdays].
  apply NoDup_app. split; [|split].
  - apply NoDup_fmap_2; [|done]. by intros ?? [= ->].
  - intros t (tm & -> & _)%list_elem_of_fmap.
    intros (day' & tm' & Hday' & _ & [= Hd _])%elem_of_grid_points.
    apply Hnot. apply list_elem_of_fmap. by exists day'.
  - by apply IH.
Qed.

(** X15. When the calendar reports no date twice and no time of day is
    configured twice, no two entries of the grid are the same timestamp. *)
Theorem generate_master_trading_day_list_unique s e cfg sd ed days ec sh times :
  load_config = Ok cfg -> strptime s = Ok sd -> strptime e = Ok ed ->
  Timestamp_le sd ed -> supported (ts_date sd) -> supported (ts_date ed) ->
  valid_days sd ed = Ok days ->
  parse_days (early_close_days cfg) = Ok ec ->
  parse_days (special_holidays cfg) = Ok sh ->
  parse_times (valid_times cfg) = Ok times ->
  NoDup (ts_date <$> days) -> NoDup times ->
  exists l,
    generate_master_trading_day_list s e = Ok (grid_of l) /\ NoDup l.
Proof.
  intros Hcfg Hs He Hle Hsd Hed Hdays Hec Hsh Hvt Hnd Hnt.
  rewrite (generate_master_trading_day_list_accepts s e cfg sd ed) by done.
  rewrite (build_trading_days_Ok cfg sd ed days ec sh times) by done.
  eexists. split; [done|].
  apply grid_points_NoDup; [|done]. by apply filter_sessions_NoDup.
Qed.

Lemma combine_le d a b : time_le a b -> Timestamp_le (combine d a) (combine d b).
Proof.
  intros Hab. apply Timestamp_le_alt. rewrite Timestamp_compare_split.
  cbn [combine ts_date ts_time]. unfold date_compare.
  by rewrite lex_compare_refl.
Qed.

Lemma StronglySorted_filter_sessions (P : Timestamp -> Prop)
    `{forall d, Decision (P d)} (R : relation Timestamp) days :
  StronglySorted R days -> StronglySorted R (filter P days).
Proof.
  induction 1 as [|day days _ IH Hall]; [constructor|].
  destruct (decide (P day)).
  - rewrite filter_cons_True by done. constructor; [done|].
    apply Forall_forall. intros d [_ Hd]%list_elem_of_filter.
    rewrite Forall_forall in Hall. auto.
  - by rewrite filter_cons_False.
Qed.

Lemma grid_points_sorted days times :
  StronglySorted session_lt days -> StronglySorted time_le times ->
  StronglySorted Timestamp_le (grid_points days times).
Proof.
  intros Hdays Htimes. unfold grid_points.
  induction Hdays as [|day days _ IH Hall]; csimpl; [constructor|].
  apply StronglySorted_app. split; [|split].
  - intros t1 t2 (tm & -> & _)%list_elem_of_fmap.
    intros (day' & tm' & Hday' & _ & ->)%elem_of_grid_points.
    apply Timestamp_le_of_date_lt. cbn [combine ts_date].
    rewrite Forall_forall in Hall. by apply Hall.
  - eapply StronglySorted_fmap; [|done]. intros. by apply combine_le.
  - done.
Qed.

(** X16. When the calendar reports the sessions in strictly ascending order
    of date and the configured times are in ascending order, the grid is in
    ascending order of timestamp. *)
Theorem generate_master_trading_day_list_ascending s e cfg sd ed days ec sh times :
  load_config = Ok cfg -> strptime s = Ok sd -> strptime e = Ok ed ->
  Timestamp_le sd ed -> supported (ts_date sd) -> supported (ts_date ed) ->
  valid_days sd ed = Ok days ->
  parse_days (early_close_days cfg) = Ok ec ->
  parse_days (special_holidays cfg) = Ok sh ->
  parse_times (valid_times cfg) = Ok times ->
  StronglySorted session_lt days -> StronglySorted time_le times ->
  exists l,
    generate_master_trading_day_list s e = Ok (grid_of l) /\
    StronglySorted Timestamp_le l.
Proof.
  intros Hcfg Hs He Hle Hsd Hed Hdays Hec Hsh Hvt Hsd' Hst.
  rewrite (generate_master_trading_day_list_accepts s e cfg sd ed) by done.
  rewrite (build_trading_days_Ok cfg sd ed days ec sh times) by done.
  eexists. split; [done|].
  apply grid_points_sorted; [|done]. by apply StronglySorted_filter_sessions.
Qed.

Lemma trading_days_all_excluded ec sh vt days :
  Forall (excluded ec sh) days ->
  exists per_day,
    traverse (fun day =>
                if bool_decide (ts_date day ∉ ec) && bool_decide (ts_date day ∉ sh)
                then day_entries vt day else Ok []) days = Ok per_day /\
    mjoin per_day = [].
Proof.
  induction 1 as [|day days Hx _ (per_day & Hrun & Hjoin)]; simpl.
  - by exists [].
  - rewrite Hrun.
    destruct (bool_decide (ts_date day ∉ ec) && bool_decide (ts_date day ∉ sh))
      eqn:Hday.
    + apply andb_true_iff in Hday as [?%bool_decide_eq_true ?%bool_decide_eq_true].
      unfold excluded in Hx. tauto.
    + eexists. split; [done|]. by simpl.
Qed.

Lemma trading_days_Raise ec sh vt err days :
  parse_times vt = Raise err ->
  ~ Forall (excluded ec sh) days ->
  traverse (fun day =>
              if bool_decide (ts_date day ∉ ec) && bool_decide (ts_date day ∉ sh)
              then day_entries vt day else Ok []) days = Raise err.
Proof.
  intros Hvt. induction days as [|day days IH]; intros Hsome.
  - destruct Hsome. constructor.
  - simpl.
    destruct (bool_decide (ts_date day ∉ ec) && bool_decide (ts_date day ∉ sh))
      eqn:Hday.
    + by rewrite (day_entries_Raise _ _ _ Hvt).
    + rewrite IH; [done|]. intros Hall. apply Hsome. constructor; [|done].
      apply andb_false_iff in Hday as [Hd|Hd]; apply bool_decide_eq_false in Hd;
        [left|right]; by apply dec_stable.
Qed.

(** X18. The configured times are parsed anew for every session that is
    not excluded, and for those only.  When every session the calendar
    reports is excluded, or it reports none, the generator returns the empty
    grid whatever the configured times are; when a session is left and a
    configured time is malformed, the generator raises the parser's error. *)
Theorem generate_master_trading_day_list_times_per_session s e cfg sd ed days ec sh :
  load_config = Ok cfg -> strptime s = Ok sd -> strptime e = Ok ed ->
  Timestamp_le sd ed -> supported (ts_date sd) -> supported (ts_date ed) ->
  valid_days sd ed = Ok days ->
  parse_days (early_close_days cfg) = Ok ec ->
  parse_days (special_holidays cfg) = Ok sh ->
  (Forall (excluded ec sh) days ->
   generate_master_trading_day_list s e = Ok (grid_of [])) /\
  (forall err,
     parse_times (valid_times cfg) = Raise err ->
     ~ Forall (excluded ec sh) days ->
     generate_master_trading_day_list s e = Raise err).
Proof.
  intros Hcfg Hs He Hle Hsd Hed Hdays Hec Hsh.
  rewrite (generate_master_trading_day_list_accepts s e cfg sd ed) by done.
  unfold build_trading_days. rewrite Hdays, Hec, Hsh. cbn [bind]. split.
  - intros Hall.
    destruct (trading_days_all_excluded ec sh (valid_times cfg) days Hall)
      as (per_day & Hrun & Hjoin).
    rewrite Hrun. cbn [bind]. by rewrite Hjoin.
  - intros err Hvt Hsome. by rewrite (trading_days_Raise _ _ _ err).
Qed.

End generator_more.

(** ** The pipeline of padding.py *)

Section worker_more.

Context `{Externals}.

Local Arguments normalised : simpl never.
Local Arguments setitem : simpl never.

(** X21. The two windows.  The Filter Stage compares the full timestamp
    with start_date 00:00:00 and end_date 23:59:59, the Padding Stage
    compares the date with the two dates.  A timestamp inside the Filter
    window is inside the Padding window; the converse holds for every
    timestamp with no part beyond 23:59:59, such as the grid's HH:MM:00. *)
Theorem window_by_date_and_by_timestamp ds de t :
  valid_time (ts_time t) ->
  (Timestamp_le (At ds midnight) t /\ Timestamp_le t (At de last_second) ->
   in_dates (At ds midnight) (At de midnight) t) /\
  ((hour (ts_time t) = 23 /\ minute (ts_time t) = 59 /\ second (ts_time t) = 59 ->
    nanosecond (ts_time t) = 0) ->
   in_dates (At ds midnight) (At de midnight) t ->
   Timestamp_le (At ds midnight) t /\ Timestamp_le t (At de last_second)).
Proof.
  intros Hv. split.
  - intros [Hlo Hhi]. split; [apply (Timestamp_le_date _ _ Hlo)|].
    apply (Timestamp_le_date _ _ Hhi).
  - intros Hns [Hlo Hhi]. cbn [ts_date] in Hlo, Hhi. destruct t as [d tm].
    cbn [ts_date ts_time] in *. split.
    + apply date_le_alt in Hlo. destruct (date_compare ds d) eqn:Hc; [| |done].
      * apply lex_compare_eq, date_fields_inj in Hc as ->.
        by apply (midnight_le d tm).
      * by apply Timestamp_le_of_date_lt.
    + apply date_le_alt in Hhi. destruct (date_compare d de) eqn:Hc; [| |done].
      * apply lex_compare_eq, date_fields_inj in Hc as ->.
        by apply (le_last_second de tm).
      * by apply Timestamp_le_of_date_lt.
Qed.

Lemma exactly_once_keys lo hi grid ts (keys : list Timestamp) :
  keys ≡ₚ ts ++ elements (missing_entry_times lo hi grid ts) ->
  NoDup ts -> Forall (fun t => t ∈ in_window lo hi grid) ts ->
  NoDup keys /\ (forall t, t ∈ keys <-> t ∈ in_window lo hi grid).
Proof.
  intros Hperm Hnodup Hin. rewrite Forall_forall in Hin. split.
  - rewrite Hperm. apply NoDup_app. split; [done|]. split.
    + intros t Ht. rewrite elem_of_elements, elem_of_missing_entry_times.
      tauto.
    + apply NoDup_elements.
  - intros t. rewrite Hperm, elem_of_app, elem_of_elements,
      elem_of_missing_entry_times.
    split; [intros [?|[? _]]; auto|].
    intros Ht. destruct (decide (t ∈ ts)); auto.
Qed.

Lemma entry_times_length out keys :
  entry_times out = Ok keys -> length (rows out) = length keys.
Proof.
  intros Hk%traverse_length. unfold column in Hk.
  by rewrite length_fmap in Hk.
Qed.

(** The timestamps of the rows the Filter Stage keeps. *)
Lemma kept_timestamps df lo hi grid ts ts' :
  length ts = length (rows df) ->
  column (Frame (columns df)
            (filter (kept lo hi grid) (rows (normalised df "EntryTime" ts))))
         "EntryTime" = VTime <$> ts' ->
  sublist (VTime <$> ts') (VTime <$> ts) /\
  Forall (fun t => Timestamp_le lo t /\ Timestamp_le t hi /\ t ∈ grid) ts'.
Proof.
  intros Hlen Hcol. unfold column in Hcol. cbn [rows] in Hcol. split.
  - rewrite <- Hcol.
    assert (Hall : cell "EntryTime" <$> rows (normalised df "EntryTime" ts)
                   = VTime <$> ts).
    { apply column_setitem. by rewrite length_fmap. }
    rewrite <- Hall. apply fmap_sublist, sublist_filter.
  - apply Forall_forall. intros t Ht.
    assert (Hv : VTime t ∈ VTime <$> ts') by (apply list_elem_of_fmap; eauto).
    rewrite <- Hcol in Hv.
    apply list_elem_of_fmap in Hv as (r & Hr & [Hk _]%list_elem_of_filter).
    symmetry in Hr. apply cell_VTime_inv in Hr. unfold kept in Hk.
    by rewrite Hr in Hk.
Qed.

(** X19. The pipeline of [worker]: on a table in which no two rows share a
    timestamp, filtering and then padding returns a table whose timestamps
    are exactly the grid timestamps with a date in the window, each once;
    so it has one row per in-window grid timestamp. *)
Theorem worker_exactly_once start_date end_date df master ds de ts grid :
  to_datetime (VStr (start_date +:+ " 00:00:00")) = Ok (At ds midnight) ->
  to_datetime (VStr (end_date +:+ " 23:59:59")) = Ok (At de last_second) ->
  to_datetime (VStr start_date) = Ok (At ds midnight) ->
  to_datetime (VStr end_date) = Ok (At de midnight) ->
  getitem df "EntryTime" = Ok (column df "EntryTime") ->
  traverse to_datetime (column df "EntryTime") = Ok ts ->
  getitem master "SpxDayTime" = Ok (column master "SpxDayTime") ->
  traverse to_datetime (column master "SpxDayTime") = Ok grid ->
  NoDup ts ->
  let window := in_window (At ds midnight) (At de midnight) grid in
  exists out o',
    worker start_date end_date (Objects df master) = (Ok out, o') /\
    exactly_once out window /\
    length (rows out) = size window.
Proof.
  intros Hlo_f Hhi_f Hlo Hhi Hdf Hts Hmaster Hgrid Hnodup window.
  assert (Hlts : length ts = length (rows df)).
  { rewrite (traverse_length _ _ _ Hts). apply length_fmap. }
  assert (Hlgrid : length grid = length (rows master)).
  { rewrite (traverse_length _ _ _ Hgrid). apply length_fmap. }
  unfold worker, bindM, with_df, ret.
  rewrite (filter_early_close_data_run _ _ _ _ _ _ ts grid Hlo_f Hhi_f Hdf Hts
             Hmaster Hgrid).
  cbn [obj_master obj_df].
  apply getitem_Ok_inv in Hdf as [Hdf _].
  apply getitem_Ok_inv in Hmaster as [Hmaster _].
  set (lo_f := At ds midnight) in *. set (hi_f := At de last_second) in *.
  set (hi := At de midnight) in *.
  set (f := Frame (columns df)
              (filter (kept lo_f hi_f grid) (rows (normalised df "EntryTime" ts)))).
  set (master' := normalised master "SpxDayTime" grid).
  assert (Hf : datetime_column "EntryTime" f).
  { apply datetime_column_filter; [by apply normalised_datetime_column|].
    by apply columns_setitem_present. }
  assert (Hm' : datetime_column "SpxDayTime" master')
    by (by apply normalised_datetime_column).
  destruct (datetime_column_cells _ _ Hf) as (ts' & Hcol' & Hts' & _).
  destruct (datetime_column_cells _ _ Hm') as (grid' & Hgcol' & Hgrid' & _).
  assert (grid' = grid) as ->.
  { unfold master', normalised in Hgcol'.
    rewrite column_setitem in Hgcol' by (by rewrite length_fmap).
    by apply (inj (fmap VTime)) in Hgcol'. }
  destruct (kept_timestamps df lo_f hi_f grid ts ts' Hlts Hcol') as [Hsub Hkept].
  destruct (pad_entry_times_Ok start_date end_date f master' lo_f hi grid ts')
    as (out & keys & Hrun & _ & _ & Hkeys & Hperm & _); try done.
  { apply getitem_Ok, Hm'. }
  { apply getitem_Ok, Hf. }
  rewrite Hrun. eexists out, _. split; [done|].
  destruct (exactly_once_keys lo_f hi grid ts' keys Hperm) as [Hnd Hiff].
  { apply (NoDup_fmap_1 VTime).
    apply (sublist_NoDup _ (VTime <$> ts)); [|done].
    by apply (NoDup_fmap_2 VTime). }
  { eapply Forall_impl; [exact Hkept|]. intros t (Hge & Hle & Hin).
    apply elem_of_in_window. split; [|done]. split.
    - apply (Timestamp_le_date _ _ Hge).
    - apply (Timestamp_le_date _ _ Hle). }
  split; [by exists keys|].
  rewrite (entry_times_length _ _ Hkeys). unfold size, set_size. simpl.
  apply Permutation_length, NoDup_Permutation; [done|apply NoDup_elements|].
  intros t. by rewrite elem_of_elements.
Qed.

Lemma input_row_carries df missing (r0 : Row) :
  "EntryTime" ∈ columns df -> r0 ∈ rows df -> is_Some (r0 !! "EntryTime") ->
  input_row df missing r0 !! "EntryTime" = r0 !! "EntryTime" /\
  forall c, c ∈ columns df -> upcast (cell c r0) (cell c (input_row df missing r0)).
Proof.
  intros Het Hr0 [v Hv]. split.
  - rewrite input_row_lookup, input_row_cell by done.
    rewrite decide_False
      by (apply not_upcasts_placeholder_column, list_elem_of_here).
    by rewrite Hv, (cell_Some _ _ _ Hv).
  - intros c Hc. rewrite input_row_cell by done.
    case_decide; [apply astype_upcast|by left].
Qed.

(** X20. Every row of the table the pipeline of [worker] returns is either
    a row of the input that the Filter Stage kept, with its timestamp and
    its cells, an integer possibly turned into the float nearest to it, or
    a placeholder for an in-window grid timestamp, with the number 0 in
    TradeID and the empty string in the text fields; and every row the
    Filter Stage kept is among them. *)
Theorem worker_rows start_date end_date df master lo_f hi_f lo hi ts grid :
  to_datetime (VStr (start_date +:+ " 00:00:00")) = Ok lo_f ->
  to_datetime (VStr (end_date +:+ " 23:59:59")) = Ok hi_f ->
  to_datetime (VStr start_date) = Ok lo ->
  to_datetime (VStr end_date) = Ok hi ->
  getitem df "EntryTime" = Ok (column df "EntryTime") ->
  traverse to_datetime (column df "EntryTime") = Ok ts ->
  getitem master "SpxDayTime" = Ok (column master "SpxDayTime") ->
  traverse to_datetime (column master "SpxDayTime") = Ok grid ->
  exists out o',
    worker start_date end_date (Objects df master) = (Ok out, o') /\
    (forall r : Row, r ∈ rows out ->
       (exists r0 : Row,
          r0 ∈ rows (normalised df "EntryTime" ts) /\
          kept lo_f hi_f grid r0 /\
          r !! "EntryTime" = r0 !! "EntryTime" /\
          forall c, c ∈ columns df -> upcast (cell c r0) (cell c r)) \/
       (exists t,
          t ∈ in_window lo hi grid /\
          r !! "EntryTime" = Some (VTime t) /\
          is_zero (cell "TradeID" r) = true /\
          forall c, c ∈ text_columns -> r !! c = Some (VStr ""))) /\
    (forall r0 : Row,
       r0 ∈ rows (normalised df "EntryTime" ts) -> kept lo_f hi_f grid r0 ->
       exists r : Row,
         r ∈ rows out /\
         r !! "EntryTime" = r0 !! "EntryTime" /\
         forall c, c ∈ columns df -> upcast (cell c r0) (cell c r)).
Proof.
  intros Hlo_f Hhi_f Hlo Hhi Hdf Hts Hmaster Hgrid.
  assert (Hlts : length ts = length (rows df)).
  { rewrite (traverse_length _ _ _ Hts). apply length_fmap. }
  assert (Hlgrid : length grid = length (rows master)).
  { rewrite (traverse_length _ _ _ Hgrid). apply length_fmap. }
  unfold worker, bindM, with_df, ret.
  rewrite (filter_early_close_data_run _ _ _ _ _ _ ts grid Hlo_f Hhi_f Hdf Hts
             Hmaster Hgrid).
  cbn [obj_master obj_df].
  apply getitem_Ok_inv in Hdf as [Hdf _].
  apply getitem_Ok_inv in Hmaster as [Hmaster _].
  set (f := Frame (columns df)
              (filter (kept lo_f hi_f grid) (rows (normalised df "EntryTime" ts)))).
  set (master' := normalised master "SpxDayTime" grid).
  assert (Hf : datetime_column "EntryTime" f) by (by apply kept_rows_datetime).
  assert (Hm' : datetime_column "SpxDayTime" master')
    by (by apply normalised_datetime_column).
  destruct (datetime_column_cells _ _ Hf) as (ts' & Hcol' & Hts' & Hid).
  destruct (datetime_column_cells _ _ Hm') as (grid' & Hgcol' & Hgrid' & _).
  assert (grid' = grid) as ->.
  { unfold master', normalised in Hgcol'.
    rewrite column_setitem in Hgcol' by (by rewrite length_fmap).
    by apply (inj (fmap VTime)) in Hgcol'. }
  destruct (pad_entry_times_Ok start_date end_date f master' lo hi grid ts')
    as (out & keys & Hrun & Hcols & Hrows & _); try done.
  { apply getitem_Ok, Hm'. }
  { apply getitem_Ok, Hf. }
  rewrite Hid in Hcols, Hrows. rewrite rows_appended in Hrows.
  set (missing := missing_entry_times lo hi grid ts') in *.
  assert (Hkept : forall r0 : Row, r0 ∈ rows f ->
            r0 ∈ rows (normalised df "EntryTime" ts) /\ kept lo_f hi_f grid r0 /\
            input_row f missing r0 !! "EntryTime" = r0 !! "EntryTime" /\
            forall c, c ∈ columns df ->
                      upcast (cell c r0) (cell c (input_row f missing r0))).
  { intros r0 Hr0. assert (Hr0' := Hr0). unfold f in Hr0'. cbn [rows] in Hr0'.
    apply list_elem_of_filter in Hr0' as [Hk Hin]. do 2 (split; [done|]).
    apply (input_row_carries f missing r0); [apply Hf|done|].
    destruct Hf as [_ Hcells]. rewrite Forall_forall in Hcells.
    destruct (Hcells _ Hr0) as [t Ht]. by eexists. }
  rewrite Hrun. eexists out, _. split; [done|]. split.
  - intros r. rewrite Hrows, elem_of_app, !list_elem_of_fmap.
    intros [(r0 & -> & Hr0)|(t & -> & Ht)].
    + left. exists r0. by apply Hkept.
    + right. exists t. apply elem_of_elements in Ht.
      destruct (appended_placeholder f missing t (proj1 Hf) Ht)
        as (Htime & Htext & _ & Hzero & _).
      apply elem_of_missing_entry_times in Ht as [Ht _]. done.
  - intros r0 Hr0 Hk. exists (input_row f missing r0).
    assert (Hin : r0 ∈ rows f).
    { unfold f. cbn [rows]. by apply list_elem_of_filter. }
    split; [|by apply Hkept].
    rewrite Hrows, elem_of_app. left. apply list_elem_of_fmap. by exists r0.
Qed.

End worker_more.

(** A timestamp half a second before midnight of the end date is in the
    Padding window and outside the Filter window. *)
Lemma window_by_date_and_by_timestamp_last_second :
  let t := At (Date 2023 1 3) (Time 23 59 59 500000000) in
  in_dates (At (Date 2023 1 3) midnight) (At (Date 2023 1 3) midnight) t /\
  ~ Timestamp_le t (At (Date 2023 1 3) last_second).
Proof. split; [split; reflexivity|]. vm_compute. discriminate. Qed.

(** ** The further properties on concrete tables *)

(** Hypotheses about concrete tables are settled by evaluation. *)
Ltac evaluate :=
  first [ vm_compute; reflexivity
        | apply (bool_decide_unpack _); vm_compute; exact I ].

Definition hi_0103 : Timestamp := At (Date 2023 1 3) last_second.
Definition times_sample : list time := [Time 9 33 0 0; Time 9 45 0 0; Time 10 0 0 0].
Definition ec_sample : list date := [Date 2023 7 3; Date 2023 11 24].
Definition sh_sample : list date := [Date 2025 1 9].

Lemma filter_early_close_data_idempotent_witness :
  @filter_early_close_data Sample.sample "2023-01-03" "2023-01-03"
    (Objects (Cases.returned Cases.filtered) (obj_master Cases.filtered.2)) =
  (Ok (Cases.returned Cases.filtered),
   Objects (Cases.returned Cases.filtered) (obj_master Cases.filtered.2)).
Proof.
  apply (@filter_early_close_data_idempotent Sample.sample
           "2023-01-03" "2023-01-03" Cases.trades_csv Cases.master_csv
           (Cases.returned Cases.filtered) Cases.filtered.2).
  vm_compute. reflexivity.
Defined.

Lemma filter_early_close_data_no_EntryTime_witness :
  @filter_early_close_data Sample.sample "2023-01-03" "2023-01-03"
    (Objects Cases.master_csv Cases.master_csv) =
  (Raise (KeyError "EntryTime"), Objects Cases.master_csv Cases.master_csv).
Proof.
  apply (@filter_early_close_data_no_EntryTime Sample.sample
           "2023-01-03" "2023-01-03" Cases.master_csv Cases.master_csv
           lo_0103 hi_0103); evaluate.
Defined.

Lemma filter_early_close_data_drops_missing_witness :
  exists out df',
    @filter_early_close_data Sample.sample "2023-01-03" "2023-01-03"
      (Objects Cases.trades_missing Cases.master_csv) =
      (Ok out, Objects df' (setitem Cases.master_csv "SpxDayTime"
                              (VTime <$> grid_0103))) /\
    (length (rows out) <= 2)%nat /\
    column Cases.trades_missing "EntryTime" =
      [VStr "2023-01-03 10:00:00"; VNaN; VStr "2023-01-03 09:33:00"] /\
    column (obj_df Cases.filtered_missing.2) "EntryTime" =
      [VTime (Cases.at_0103 10 0); VNaT; VTime (Cases.at_0103 9 33)].
Proof.
  destruct (@filter_early_close_data_drops_missing Sample.sample
              "2023-01-03" "2023-01-03" Cases.trades_missing Cases.master_csv
              lo_0103 hi_0103 (VTime <$> grid_0103))
    as (out & df' & Hrun & _ & _ & _ & Hlen);
    [evaluate..| |evaluate|evaluate|].
  - change (column Cases.trades_missing "EntryTime")
      with [VStr "2023-01-03 10:00:00"; VNaN; VStr "2023-01-03 09:33:00"].
    repeat (constructor;
            [first [left; reflexivity
                   |right; eexists; vm_compute; reflexivity]|]).
    constructor.
  - exists out, df'. split; [exact Hrun|]. split; [|split; evaluate].
    etrans; [exact Hlen|]. apply (bool_decide_unpack _). vm_compute. exact I.
Defined.

Lemma filter_early_close_data_no_SpxDayTime_witness :
  @filter_early_close_data Sample.sample "2023-01-03" "2023-01-03"
    (Objects Cases.trades_on_grid Cases.trades_on_grid) =
  (Raise (KeyError "SpxDayTime"),
   Objects (normalised Cases.trades_on_grid "EntryTime"
              [Cases.at_0103 10 0; Cases.at_0103 9 33])
           Cases.trades_on_grid).
Proof.
  apply (@filter_early_close_data_no_SpxDayTime Sample.sample
           "2023-01-03" "2023-01-03" Cases.trades_on_grid Cases.trades_on_grid
           lo_0103 hi_0103); evaluate.
Defined.

Definition filtered_inverted :=
  @filter_early_close_data Sample.sample "2023-01-04" "2023-01-03"
    (Objects Cases.trades_csv Cases.master_csv).

Lemma filter_early_close_data_inverted_window_witness :
  filtered_inverted.1 = Ok (Cases.returned filtered_inverted) /\
  rows (Cases.returned filtered_inverted) = [].
Proof.
  split; [vm_compute; reflexivity|].
  apply (@filter_early_close_data_inverted_window Sample.sample
           "2023-01-04" "2023-01-03" Cases.trades_csv Cases.master_csv
           (At (Date 2023 1 4) midnight) hi_0103
           (Cases.returned filtered_inverted) filtered_inverted.2);
    evaluate.
Defined.

Lemma filter_early_close_data_schema_witness :
  columns (Cases.returned Cases.filtered) = ["EntryTime"; "TradeID"] /\
  (length (rows (Cases.returned Cases.filtered)) <= 4)%nat.
Proof.
  apply (@filter_early_close_data_schema Sample.sample
           "2023-01-03" "2023-01-03" Cases.trades_csv Cases.master_csv
           (Cases.returned Cases.filtered) Cases.filtered.2).
  vm_compute. reflexivity.
Defined.

Lemma pad_entry_times_covers_witness :
  exists out o' keys,
    @pad_entry_times Sample.sample "2023-01-03" "2023-01-03"
      (Objects Cases.trades_csv Cases.master_csv) = (Ok out, o') /\
    entry_times out = Ok keys /\
    keys ≡ₚ ts_trades_csv ++
            elements (missing_entry_times lo_0103 lo_0103 grid_0103 ts_trades_csv) /\
    (forall t, t ∈ in_window lo_0103 lo_0103 grid_0103 -> t ∈ keys).
Proof.
  apply (@pad_entry_times_covers Sample.sample "2023-01-03" "2023-01-03"
           Cases.trades_csv Cases.master_csv lo_0103 lo_0103 grid_0103
           ts_trades_csv); evaluate.
Defined.

Lemma pad_entry_times_idempotent_witness :
  exists out2,
    @pad_entry_times Sample.sample "2023-01-03" "2023-01-03"
      (Objects (Cases.returned Cases.padded) Cases.master_csv) =
      (Ok out2, Objects (Cases.returned Cases.padded) Cases.master_csv) /\
    columns out2 = columns (Cases.returned Cases.padded) /\
    rows out2 ≡ₚ rows (Cases.returned Cases.padded).
Proof.
  apply (@pad_entry_times_idempotent Sample.sample "2023-01-03" "2023-01-03"
           Cases.trades_csv Cases.master_csv
           (Cases.returned Cases.padded) Cases.padded.2); evaluate.
Defined.

Lemma pad_entry_times_side_effect_witness :
  @parsed_in_place Sample.sample "EntryTime" Cases.trades_csv
    (obj_df Cases.padded.2) /\
  length (rows (obj_df Cases.padded.2)) = length (rows Cases.trades_csv) /\
  (datetime_column "EntryTime" Cases.trades_csv ->
   obj_df Cases.padded.2 = Cases.trades_csv).
Proof.
  apply (@pad_entry_times_side_effect Sample.sample "2023-01-03" "2023-01-03"
           Cases.trades_csv Cases.master_csv
           (Cases.returned Cases.padded) Cases.padded.2); evaluate.
Defined.

Lemma pad_entry_times_failure_witness :
  Cases.padded_missing.1 = Raise TypeError /\
  obj_master Cases.padded_missing.2 = Cases.master_csv /\
  obj_df Cases.padded_missing.2 <> Cases.trades_missing /\
  @parsed_in_place Sample.sample "EntryTime" Cases.trades_missing
    (obj_df Cases.padded_missing.2).
Proof.
  split; [evaluate|].
  destruct (@pad_entry_times_failure Sample.sample "2023-01-03" "2023-01-03"
              Cases.trades_missing Cases.master_csv TypeError
              Cases.padded_missing.2) as [Hm Hd]; [evaluate|].
  split; [exact Hm|].
  assert (Hne : obj_df Cases.padded_missing.2 <> Cases.trades_missing).
  { intros Heq. apply (f_equal (fun d => column d "EntryTime")) in Heq.
    vm_compute in Heq. discriminate Heq. }
  split; [exact Hne|].
  destruct Hd as [Hd|[_ Hd]]; [by destruct Hne|exact Hd].
Defined.

Lemma pad_entry_times_missing_timestamp_witness :
  exists df',
    @pad_entry_times Sample.sample "2023-01-03" "2023-01-03"
      (Objects Cases.trades_missing Cases.master_csv) =
      (Raise TypeError, Objects df' Cases.master_csv) /\
    df' <> Cases.trades_missing.
Proof.
  destruct (@pad_entry_times_missing_timestamp Sample.sample
              "2023-01-03" "2023-01-03" Cases.trades_missing Cases.master_csv
              lo_0103 lo_0103 grid_0103)
    as (df' & Hrun & _ & _ & Hne); [evaluate..| | |].
  - change (column Cases.trades_missing "EntryTime")
      with [VStr "2023-01-03 10:00:00"; VNaN; VStr "2023-01-03 09:33:00"].
    repeat (constructor;
            [first [left; reflexivity
                   |right; eexists; vm_compute; reflexivity]|]).
    constructor.
  - change (column Cases.trades_missing "EntryTime")
      with [VStr "2023-01-03 10:00:00"; VNaN; VStr "2023-01-03 09:33:00"].
    apply Exists_cons_tl, Exists_cons_hd. reflexivity.
  - exists df'. split; [exact Hrun|]. apply Hne. evaluate.
Defined.

Lemma pad_entry_times_inverted_window_witness :
  exists out o' keys,
    @pad_entry_times Sample.sample "2023-01-04" "2023-01-03"
      (Objects Cases.trades_csv Cases.master_csv) = (Ok out, o') /\
    columns out = columns Cases.trades_csv /\
    length (rows out) = length (rows Cases.trades_csv) /\
    entry_times out = Ok keys /\ keys ≡ₚ ts_trades_csv.
Proof.
  apply (@pad_entry_times_inverted_window Sample.sample
           "2023-01-04" "2023-01-03" Cases.trades_csv Cases.master_csv
           (At (Date 2023 1 4) midnight) lo_0103 grid_0103 ts_trades_csv);
    evaluate.
Defined.

Lemma pad_entry_times_columns_witness :
  exists out o',
    @pad_entry_times Sample.sample "2023-01-03" "2023-01-03"
      (Objects Cases.trades_csv Cases.master_csv) = (Ok out, o') /\
    columns out = "EntryTime" :: payload_columns.
Proof.
  destruct (@pad_entry_times_columns Sample.sample "2023-01-03" "2023-01-03"
              Cases.trades_csv Cases.master_csv lo_0103 lo_0103 grid_0103
              ts_trades_csv)
    as (out & o' & Hrun & Hcols); [evaluate..|].
  exists out, o'. split; [exact Hrun|]. rewrite Hcols. vm_compute. reflexivity.
Defined.

Definition sd_sample : Timestamp := At (Date 2023 1 3) midnight.
Definition ed_sample : Timestamp := At (Date 2023 7 5) midnight.
Definition open_sessions : list Timestamp :=
  (fun d => At d midnight) <$>
  [Date 2023 1 3; Date 2023 1 4; Date 2023 1 5; Date 2023 1 6; Date 2023 7 5].

Lemma generate_master_trading_day_list_grid_witness :
  @generate_master_trading_day_list Sample.sample "2023-01-03" "2023-07-05" =
  Ok (grid_of (grid_points open_sessions times_sample)).
Proof.
  rewrite (@generate_master_trading_day_list_grid Sample.sample
             "2023-01-03" "2023-07-05" Sample.sample_config sd_sample ed_sample
             sessions_2023 ec_sample sh_sample times_sample);
    [reflexivity|evaluate..].
Defined.

Lemma generate_master_trading_day_list_sessions_witness :
  VTime (At (Date 2023 7 5) (Time 9 45 0 0)) ∈
    column (grid_of (grid_points open_sessions times_sample)) "SpxDayTime" /\
  VTime (At (Date 2023 7 3) (Time 9 45 0 0)) ∉
    column (grid_of (grid_points open_sessions times_sample)) "SpxDayTime".
Proof.
  pose proof (@generate_master_trading_day_list_sessions Sample.sample
                "2023-01-03" "2023-07-05" Sample.sample_config sd_sample
                ed_sample sessions_2023 ec_sample sh_sample times_sample
                (grid_of (grid_points open_sessions times_sample))
                eq_refl eq_refl eq_refl eq_refl eq_refl eq_refl eq_refl eq_refl)
    as Hiff.
  split.
  - apply Hiff. exists ed_sample, (Time 9 45 0 0).
    repeat split; evaluate.
  - intros (day & tm & _ & Hec & _ & _ & [= Hd _])%Hiff.
    apply Hec. rewrite <- Hd. evaluate.
Defined.

Lemma generate_master_trading_day_list_unique_witness :
  exists l,
    @generate_master_trading_day_list Sample.sample "2023-01-03" "2023-07-05"
      = Ok (grid_of l) /\ NoDup l.
Proof.
  apply (@generate_master_trading_day_list_unique Sample.sample
           "2023-01-03" "2023-07-05" Sample.sample_config sd_sample ed_sample
           sessions_2023 ec_sample sh_sample times_sample); evaluate.
Defined.

Lemma generate_master_trading_day_list_ascending_witness :
  exists l,
    @generate_master_trading_day_list Sample.sample "2023-01-03" "2023-07-05"
      = Ok (grid_of l) /\ StronglySorted Timestamp_le l.
Proof.
  apply (@generate_master_trading_day_list_ascending Sample.sample
           "2023-01-03" "2023-07-05" Sample.sample_config sd_sample ed_sample
           sessions_2023 ec_sample sh_sample times_sample); try evaluate.
  vm_compute. repeat constructor.
Defined.

Definition grid_0103_generated : DataFrame :=
  grid_of (grid_points [At (Date 2023 1 3) midnight] times_sample).

Definition filtered_generated :=
  @filter_early_close_data Sample.sample "2023-01-03" "2023-01-03"
    (Objects Cases.trades_csv grid_0103_generated).

Lemma filter_early_close_data_keeps_generated_grid_witness :
  obj_master filtered_generated.2 = grid_0103_generated.
Proof.
  apply (@filter_early_close_data_keeps_generated_grid Sample.sample
           "2023-01-03" "2023-01-03" grid_0103_generated
           "2023-01-03" "2023-01-03" Cases.trades_csv
           filtered_generated.1 filtered_generated.2); evaluate.
Defined.

Lemma generate_master_trading_day_list_times_per_session_witness :
  @generate_master_trading_day_list Sample.sample "2023-07-03" "2023-07-03"
  = Ok (grid_of []).
Proof.
  apply (@generate_master_trading_day_list_times_per_session Sample.sample
           "2023-07-03" "2023-07-03" Sample.sample_config
           (At (Date 2023 7 3) midnight) (At (Date 2023 7 3) midnight)
           [At (Date 2023 7 3) midnight] ec_sample sh_sample); evaluate.
Defined.

Lemma worker_exactly_once_witness :
  exists out o',
    @worker Sample.sample "2023-01-03" "2023-01-03"
      (Objects Cases.trades_csv Cases.master_csv) = (Ok out, o') /\
    exactly_once out (in_window lo_0103 lo_0103 grid_0103) /\
    length (rows out) = 3%nat.
Proof.
  destruct (@worker_exactly_once Sample.sample "2023-01-03" "2023-01-03"
              Cases.trades_csv Cases.master_csv (Date 2023 1 3) (Date 2023 1 3)
              ts_trades_csv grid_0103)
    as (out & o' & Hrun & Honce & Hlen); [evaluate..|].
  exists out, o'. split; [exact Hrun|]. split; [exact Honce|].
  rewrite Hlen. vm_compute. reflexivity.
Defined.

Lemma worker_rows_witness :
  exists out o',
    @worker Sample.sample "2023-01-03" "2023-01-03"
      (Objects Cases.trades_csv Cases.master_csv) = (Ok out, o') /\
    exists r : Row,
      r ∈ rows out /\
      r !! "EntryTime" = Some (VTime (Cases.at_0103 9 33)) /\
      upcast (VInt 5) (cell "TradeID" r).
Proof.
  destruct (@worker_rows Sample.sample "2023-01-03" "2023-01-03"
              Cases.trades_csv Cases.master_csv lo_0103 hi_0103 lo_0103 lo_0103
              ts_trades_csv grid_0103)
    as (out & o' & Hrun & _ & Hkept); [evaluate..|].
  exists out, o'. split; [exact Hrun|].
  destruct (Hkept (<["EntryTime" := VTime (Cases.at_0103 9 33)]>
                     (Cases.trade "2023-01-03 09:33:00" 5)))
    as (r & Hr & Htime & Hcells).
  - apply (list_elem_of_lookup_2 _ 1%nat). vm_compute. reflexivity.
  - evaluate.
  - exists r. split; [exact Hr|]. split; [exact Htime|].
    apply (Hcells "TradeID"). evaluate.
Defined.

Lemma window_by_date_and_by_timestamp_witness :
  Timestamp_le lo_0103 (Cases.at_0103 9 33) /\
  Timestamp_le (Cases.at_0103 9 33) hi_0103.
Proof.
  apply (window_by_date_and_by_timestamp (Date 2023 1 3) (Date 2023 1 3)
           (Cases.at_0103 9 33)).
  - evaluate.
  - intros (Hh & _). vm_compute in Hh. discriminate Hh.
  - evaluate.
Defined.
